(** * NovelCoronaAPIv2: the Covid-19 API v2 model

    A shallow embedding of [app/models/covid_model_api_v2.py] and the
    properties of its query methods.

    The class keeps four loaded tables, the per-country aggregate, the
    latest update time and one response dictionary [self.scheme] that
    every query method mutates and returns.  The embedding follows that
    layout: Python values are an inductive type, dictionaries whose order
    is observable are association lists in insertion order, the lookup
    table is a finite map, and the response dictionary lives in a store so
    that the aliasing between the values returned by successive calls is
    part of the model. *)

From Stdlib Require Import ZArith QArith List String Ascii Bool Lia.
From Stdlib Require Import Sorting.Permutation Sorting.Sorted.
From stdpp Require Import gmap strings list.

Import ListNotations.
Set Warnings "-register-all".
Local Open Scope string_scope.
Local Open Scope list_scope.
Local Open Scope Z_scope.

(** ** Python values and exceptions *)

(** The values that occur in the tables and in the responses.  A finite
    float is kept as the rational it denotes; [VNaN] is the float [nan]
    and [VInf] the two infinities. *)
Inductive value : Type :=
| VNone
| VInt (z : Z)
| VFloat (q : Q)
| VNaN
| VInf (negative : bool)
| VStr (s : string)
| VList (l : list value)
| VDict (d : list (string * value)).

(** Why a [ValueError] was raised. *)
Inductive value_error : Type :=
| MaxEmptySequence                 (* max() arg is an empty sequence *)
| TimeDataMismatch (s : string)    (* time data s does not match format *)
| InvalidLiteral (s : string)      (* int() or float() of a string *)
| NaNToInteger                     (* cannot convert float NaN to integer *)
| NonFiniteToInteger               (* cannot convert non-finite values to integer *)
| NoObjectsToConcatenate.          (* concat of an empty list *)

Inductive exn : Type :=
| KeyError (key : string)
| IndexError
| ValueError (why : value_error)
| TypeError
| OverflowError
| InvalidIndexError.

Module Result.

Definition result (A : Type) : Type := (exn + A)%type.

Definition ret {A} (a : A) : result A := inr a.
Definition raise {A} (e : exn) : result A := inl e.
Definition bind {A B} (c : result A) (k : A -> result B) : result B :=
  match c with
  | inl e => inl e
  | inr a => k a
  end.

Definition of_option {A} (e : exn) (o : option A) : result A :=
  match o with
  | Some a => inr a
  | None => inl e
  end.

(** [[f(x) for x in l]], stopping at the first exception. *)
Fixpoint mapM {A B} (f : A -> result B) (l : list A) : result (list B) :=
  match l with
  | [] => ret []
  | x :: t => bind (f x) (fun y => bind (mapM f t) (fun ys => ret (y :: ys)))
  end.

End Result.
Import Result.

Declare Scope result_scope.
Delimit Scope result_scope with res.
Notation "'let*' x ':=' c 'in' k" := (Result.bind c (fun x => k))
  (at level 10, x name, c at level 100, k at level 200) : result_scope.

(** ** Strings *)

(** A string is the sequence of the bytes of its UTF-8 encoding.
    [str.lower] and [str.upper] follow the Unicode case mappings; the
    model takes them as parameters [str_lower] and [str_upper] wherever
    the code calls them. *)

(** [x in l] for a list of strings. *)
Definition str_in (x : string) (l : list string) : bool :=
  existsb (String.eqb x) l.

(** [max(l)] on strings: the first greatest element in the
    lexicographic order, [ValueError] on the empty list. *)
Definition py_max (l : list string) : result string :=
  match l with
  | [] => raise (ValueError MaxEmptySequence)
  | x :: t => ret (fold_left (fun m s => if String.ltb m s then s else m) t x)
  end.

(** ** Dictionaries in insertion order *)

Definition dict (A : Type) : Type := list (string * A).

Fixpoint dict_get {A} (d : dict A) (k : string) : option A :=
  match d with
  | [] => None
  | (k', v) :: t => if String.eqb k k' then Some v else dict_get t k
  end.

(** [d[k] = v]: an existing key keeps its position. *)
Fixpoint dict_set {A} (d : dict A) (k : string) (v : A) : dict A :=
  match d with
  | [] => [(k, v)]
  | (k', v') :: t =>
      if String.eqb k k' then (k, v) :: t else (k', v') :: dict_set t k v
  end.

Definition dict_keys {A} (d : dict A) : list string := map fst d.

(** [d[k]], raising [KeyError]. *)
Definition dict_item {A} (d : dict A) (k : string) : result A :=
  of_option (KeyError k) (dict_get d k).

(** [v[k]] for a value that should be a dictionary. *)
Definition subscript (v : value) (k : string) : result value :=
  match v with
  | VDict d => dict_item d k
  | _ => raise TypeError
  end.

(** Iteration over a value that should be a list. *)
Definition iter_list (v : value) : result (list value) :=
  match v with
  | VList l => ret l
  | _ => raise TypeError
  end.

(** ** The daily reports and the per-country aggregate *)

(** The columns of counts hold 64-bit integers ([int64]), and pandas
    adds them in that type: a sum is the 64-bit two's complement reading
    of the low 64 bits of the integer sum. *)
Definition in_int64 (z : Z) : bool := (- 2 ^ 63 <=? z) && (z <? 2 ^ 63).

Definition wrap64 (z : Z) : Z := (z + 2 ^ 63) mod 2 ^ 64 - 2 ^ 63.

Definition add64 (a b : Z) : Z := wrap64 (a + b).

(** A row of [get_data_daily_reports()], with the columns the model
    reads.  The counts are the cells of [int64] columns. *)
Record daily_row : Type := {
  Country_Region : string;
  Last_Update : string;
  Confirmed : Z;
  Deaths : Z;
  Recovered : Z;
  Active : Z
}.

(** A row of [df_grp_by_country]: the group key and the four sums, under
    the column names that [get_current] gives them. *)
Record country_row : Type := {
  location : string;
  confirmed : Z;
  deaths : Z;
  recovered : Z;
  active : Z
}.

(** The sums of a group that has one row so far, and of a group that a
    row joins. *)
Definition group_of (r : daily_row) : country_row :=
  {| location := Country_Region r; confirmed := add64 0 (Confirmed r);
     deaths := add64 0 (Deaths r); recovered := add64 0 (Recovered r);
     active := add64 0 (Active r) |}.

Definition group_add (r : daily_row) (g : country_row) : country_row :=
  {| location := location g; confirmed := add64 (confirmed g) (Confirmed r);
     deaths := add64 (deaths g) (Deaths r);
     recovered := add64 (recovered g) (Recovered r);
     active := add64 (active g) (Active r) |}.

(** One row joins the groups, which are kept in ascending key order as
    [groupby] (with its default [sort=True]) returns them. *)
Fixpoint groupby_add (r : daily_row) (acc : list country_row) : list country_row :=
  match acc with
  | [] => [group_of r]
  | g :: acc' =>
      match String.compare (Country_Region r) (location g) with
      | Eq => group_add r g :: acc'
      | Lt => group_of r :: g :: acc'
      | Gt => g :: groupby_add r acc'
      end
  end.

(** [df.groupby('Country_Region')[concerned_columns].sum()] *)
Definition groupby_sum (rows : list daily_row) : list country_row :=
  fold_left (fun acc r => groupby_add r acc) rows [].

(** [df[column].sum()] *)
Definition column_sum (column : daily_row -> Z) (rows : list daily_row) : Z :=
  fold_left add64 (map column rows) 0.

(** [v for v in df.to_dict('index').values()] after the columns are
    renamed: one dictionary per row. *)
Definition country_dict (g : country_row) : value :=
  VDict [("location", VStr (location g)); ("confirmed", VInt (confirmed g));
         ("deaths", VInt (deaths g)); ("recovered", VInt (recovered g));
         ("active", VInt (active g))].

(** [a] may come before [b] in descending order of [confirmed]. *)
Definition confirmed_ge (a b : country_row) : Prop := confirmed b <= confirmed a.

(** What [sort_values(by='Confirmed', ascending=False)] promises with the
    default [kind='quicksort']: the rows, reordered so that the key does
    not increase.  The order of rows with equal keys is not part of it
    (only [kind='mergesort'] and [kind='stable'] are stable). *)
Record sort_values_spec (sort : list country_row -> list country_row) : Prop := {
  sort_values_perm : forall l, Permutation (sort l) l;
  sort_values_sorted : forall l, Sorted confirmed_ge (sort l)
}.

(** How pandas sorts one column.  [sort_values] takes the keys to
    [nargsort], which, for [ascending=False], reverses the keys and
    their positions, has numpy's [argsort] order the reversed keys, and
    reverses the indexer it gets; the rows are then taken in the order
    of the indexer.  [argsort] is numpy's: for the keys it returns their
    positions, each once, in an order in which the keys do not
    decrease.  Which of two equal keys comes first is not part of its
    contract with [kind='quicksort']. *)
Definition key_le (keys : list Z) (i j : nat) : Prop :=
  nth i keys 0 <= nth j keys 0.

Definition argsort_spec (argsort : list Z -> list nat) : Prop :=
  forall keys : list Z,
    Permutation (argsort keys) (seq 0 (length keys))
    /\ Sorted (key_le keys) (argsort keys).

Definition nargsort (argsort : list Z -> list nat) (items : list Z) : list nat :=
  let idx := seq 0 (length items) in
  let non_nans := rev items in
  let non_nan_idx := rev idx in
  let indexer := map (fun i => nth i non_nan_idx 0%nat) (argsort non_nans) in
  rev indexer.

(** [df.take(indexer)] *)
Definition take_rows (rows : list country_row) (indexer : list nat)
    : list country_row :=
  omap (fun i => rows !! i) indexer.

Definition sort_values_by_confirmed (argsort : list Z -> list nat)
    (rows : list country_row) : list country_row :=
  take_rows rows (nargsort argsort (map confirmed rows)).

(** A sort keeps the input order of the rows with equal keys when, for
    every key, the rows with that key come out as they went in. *)
Definition with_confirmed (c : Z) (l : list country_row) : list country_row :=
  List.filter (fun g => confirmed g =? c) l.

Definition ties_in_order (input output : list country_row) : Prop :=
  forall c, with_confirmed c output = with_confirmed c input.

(** ** The store and the response dictionary *)

(** [self.scheme]: a dictionary with the keys [data], [dt] and [ts].  The
    timestamp is the float that [datetime.timestamp()] returns. *)
Record envelope : Type := {
  data : value;
  dt : string;
  ts : Q
}.

Abbreviation loc := positive.
Abbreviation heap := (gmap positive envelope).

Module Store.

(** Computations that read and write the store and may raise. *)
Definition M (A : Type) : Type := heap -> result A * heap.

Definition mret {A} (a : A) : M A := fun h => (inr a, h).
Definition mraise {A} (e : exn) : M A := fun h => (inl e, h).
Definition mbind {A B} (c : M A) (k : A -> M B) : M B :=
  fun h =>
    match c h with
    | (inl e, h') => (inl e, h')
    | (inr a, h') => k a h'
    end.
Definition lift {A} (r : result A) : M A := fun h => (r, h).

(** A new dictionary object. *)
Definition alloc (e : envelope) : M loc :=
  fun h => let l := fresh (dom h) in (inr l, <[l := e]> h).

(** [packed_data['data'] = v] *)
Definition set_data (l : loc) (v : value) : M unit :=
  fun h =>
    (inr tt, alter (fun e => {| data := v; dt := dt e; ts := ts e |}) l h).

(** [packed_data['data']] *)
Definition get_data (l : loc) : M value :=
  fun h => (of_option (KeyError "data") (data <$> h !! l), h).

End Store.
Import Store.

Notation "'let!' x ':=' c 'in' k" := (Store.mbind c (fun x => k))
  (at level 10, x name, c at level 100, k at level 200).

(** What a caller reads in the object that a call returned. *)
Definition returned {A} (project : envelope -> A) (r : result loc * heap) : option A :=
  match r with
  | (inr l, h) => project <$> h !! l
  | (inl _, _) => None
  end.

(** ** Tables *)

(** A data frame with its column labels and its rows in index order. *)
Record table : Type := {
  columns : list string;
  rows : list (list value)
}.

(** ** Coercions of cells *)

Definition in_int32 (z : Z) : bool := (- 2 ^ 31 <=? z) && (z <? 2 ^ 31).

(** The 32-bit two's complement reading of the low 32 bits. *)
Definition wrap32 (z : Z) : Z := (z + 2 ^ 31) mod 2 ^ 32 - 2 ^ 31.

(** Truncation towards zero. *)
Definition trunc (q : Q) : Z := Z.quot (Qnum q) (Zpos (Qden q)).

(** The double nearest to an integer, ties to the even significand:
    the integer that [float] of it denotes, when that is finite. *)
Definition round_to_double (z : Z) : Z :=
  let a := Z.abs z in
  if a <? 2 ^ 53 then z
  else
    let shift := Z.log2 a - 52 in
    let q := Z.shiftr a shift in
    let r := a - Z.shiftl q shift in
    let half := Z.shiftl 1 (shift - 1) in
    let q' := if (half <? r) || ((r =? half) && Z.odd q) then q + 1 else q in
    Z.sgn z * Z.shiftl q' shift.

(** [float(z)] for an integer: [OverflowError] when the nearest double
    is beyond the greatest finite one. *)
Definition float_of_int (z : Z) : result value :=
  let d := round_to_double z in
  if Z.abs d <? 2 ^ 1024 then ret (VFloat (inject_Z d)) else raise OverflowError.

Section Coercions.

(** [int(s)] and [float(s)] for a string [s]: the parsers of Python's
    numeric literals, [None] where they raise [ValueError]. *)
Variable int_of_str : string -> option Z.
Variable float_of_str : string -> option value.

(** [int(v)] *)
Definition py_int (v : value) : result Z :=
  match v with
  | VInt z => ret z
  | VFloat q => ret (trunc q)
  | VNaN => raise (ValueError NaNToInteger)
  | VInf _ => raise OverflowError
  | VStr s => of_option (ValueError (InvalidLiteral s)) (int_of_str s)
  | VNone | VList _ | VDict _ => raise TypeError
  end.

(** [float(v)] *)
Definition py_float (v : value) : result value :=
  match v with
  | VInt z => float_of_int z
  | VFloat q => ret (VFloat q)
  | VNaN => ret VNaN
  | VInf b => ret (VInf b)
  | VStr s => of_option (ValueError (InvalidLiteral s)) (float_of_str s)
  | VNone | VList _ | VDict _ => raise TypeError
  end.

(** One cell under [astype('int32')]: an integer keeps its low 32 bits;
    a float is truncated towards zero, and gives [-2^31] when the
    truncation is outside the 32 bits; [nan], an infinity and a string
    that is not a number are refused, and so is a string whose number
    does not fit. *)
Definition astype_int32 (v : value) : result Z :=
  match v with
  | VInt z => ret (wrap32 z)
  | VFloat q => ret (if in_int32 (trunc q) then trunc q else - 2 ^ 31)
  | VNaN | VInf _ => raise (ValueError NonFiniteToInteger)
  | VStr s =>
      let* z := of_option (ValueError (InvalidLiteral s)) (int_of_str s) in
      if in_int32 z then ret z else raise OverflowError
  | VNone | VList _ | VDict _ => raise TypeError
  end%res.

End Coercions.

(** ** Reshaping the time series *)

(** The dictionary of one row in [df.T.to_dict()]: column label to cell. *)
Definition row_dict (cols : list string) (row : list value) : dict value :=
  fold_left (fun d kv => dict_set d (fst kv) (snd kv)) (combine cols row) [].

(** [df.T.to_dict().values()]: the rows in index order. *)
Definition T_to_dict_values (t : table) : list (dict value) :=
  map (row_dict (columns t)) (rows t).

(** [df.iloc[:, n:]] *)
Definition iloc_from (n : nat) (t : table) : table :=
  {| columns := drop n (columns t); rows := map (drop n) (rows t) |}.

(** The cells of the column at position [j]. *)
Definition column_cells (t : table) (j : nat) : list value :=
  map (fun r => nth j r VNone) (rows t).

(** The labels of a list in the order of their first occurrence. *)
Definition first_occurrences (l : list string) : list string :=
  fold_left (fun acc x => if str_in x acc then acc else acc ++ [x]) l [].

Section TimeSeries.

Variable int_of_str : string -> option Z.
Variable float_of_str : string -> option value.

(** [{k: int(v) for k, v in data.items() if k not in excluded_cols}] *)
Fixpoint int_items (excluded_cols : list string) (items : list (string * value))
    (acc : dict Z) : result (dict Z) :=
  match items with
  | [] => ret acc
  | (k, v) :: t =>
      if str_in k excluded_cols then int_items excluded_cols t acc
      else
        let* z := py_int int_of_str v in
        int_items excluded_cols t (dict_set acc k z)
  end%res.

Definition date_value (kv : string * Z) : value :=
  VDict [("date", VStr (fst kv)); ("value", VInt (snd kv))].

(** The [TimeSeries] list of one row. *)
Definition time_series_list (excluded_cols : list string) (data : dict value)
    : result (list value) :=
  (let* temp_time_series_dict := int_items excluded_cols data [] in
   ret (map date_value temp_time_series_dict))%res.

(** [float(data[k])] *)
Definition float_item (data : dict value) (k : string) : result value :=
  (let* v := dict_item data k in py_float float_of_str v)%res.

(** The body of the loop of [__extract_time_series]. *)
Definition extract_time_series_row (data : dict value) : result value :=
  (let excluded_cols := ["Province/State"; "Country/Region"; "Lat"; "Long"] in
   let* province := dict_item data "Province/State" in
   let* country := dict_item data "Country/Region" in
   let* lat := float_item data "Lat" in
   let* long := float_item data "Long" in
   let* series := time_series_list excluded_cols data in
   ret (VDict [("Province/State", province);
               ("Country/Region", country);
               ("Coordinates", VDict [("Lat", lat); ("Long", long)]);
               ("TimeSeries", VList series)]))%res.

Definition extract_time_series (time_series : list (dict value))
    : result (list value) :=
  mapM extract_time_series_row time_series.

Definition US_excluded_cols : list string :=
  ["UID"; "iso2"; "iso3"; "code3"; "FIPS"; "Admin2"; "Province_State";
   "Country_Region"; "Lat"; "Long_"; "Combined_Key"; "Population"].

(** The body of the loop of [__extract_US_time_series]. *)
Definition extract_US_time_series_row (data : dict value) : result value :=
  (let* province := dict_item data "Province_State" in
   let* country := dict_item data "Country_Region" in
   let* uid := dict_item data "UID" in
   let* iso2 := dict_item data "iso2" in
   let* iso3 := dict_item data "iso3" in
   let* code3 := dict_item data "code3" in
   let* fips := dict_item data "FIPS" in
   let* admin2 := dict_item data "Admin2" in
   let* lat := float_item data "Lat" in
   let* long := float_item data "Long_" in
   let* series := time_series_list US_excluded_cols data in
   ret (VDict [("Province_State", province);
               ("Country_Region", country);
               ("Info", VDict [("UID", uid); ("iso2", iso2); ("iso3", iso3);
                               ("code3", code3); ("FIPS", fips);
                               ("Admin2", admin2)]);
               ("Coordinates", VDict [("Lat", lat); ("Long", long)]);
               ("TimeSeries", VList series)]))%res.

Definition extract_US_time_series (time_series : list (dict value))
    : result (list value) :=
  mapM extract_US_time_series_row time_series.

(** One entry of [df.iloc[:, 4:].astype('int32').sum(axis=0)]. *)
Definition column_total (t : table) (j : nat) : result Z :=
  (let* cells := mapM (astype_int32 int_of_str) (column_cells t j) in
   ret (fold_left Z.add cells 0))%res.

(** [df.iloc[:, 4:].astype('int32').sum(axis=0)]: a series of totals
    indexed by the column labels. *)
Definition date_totals (t : table) : result (list (string * Z)) :=
  (let dates := iloc_from 4 t in
   let* totals := mapM (column_total dates) (seq 0 (length (columns dates))) in
   ret (combine (columns dates) totals))%res.

(** The frame that [pd.concat(global_df_list, axis=1, sort=False)]
    builds: its index and, for each case, the cells along the index,
    [None] where the series of that case has no such label. *)
Definition concat_columns (series : list (string * list (string * Z)))
    : result (list string * list (string * list (option Z))) :=
  match series with
  | [] => raise (ValueError NoObjectsToConcatenate)
  | (_, s0) :: others =>
      if forallb (fun ks => bool_decide (map fst (snd ks) = map fst s0)) others
      then ret (map fst s0,
                map (fun ks => (fst ks, map (fun dz => Some (snd dz)) (snd ks))) series)
      else if forallb (fun ks => bool_decide (NoDup (map fst (snd ks)))) series
      then
        let index := first_occurrences (concat (map (fun ks => map fst (snd ks)) series)) in
        ret (index,
             map (fun ks => (fst ks, map (dict_get (snd ks)) index)) series)
      else raise InvalidIndexError
  end.

(** A cell of the transposed frame: the frame holds floats as soon as
    one label is missing somewhere. *)
Definition frame_cell (has_nan : bool) (c : option Z) : value :=
  match c with
  | Some z => if has_nan then VFloat (inject_Z (round_to_double z)) else VInt z
  | None => VNaN
  end.

(** [frame.T.to_dict()]: for each label of the index, the cells of the
    cases at that label. *)
Definition T_to_dict (frame : list string * list (string * list (option Z)))
    : dict (dict value) :=
  let '(index, cols) := frame in
  let has_nan := existsb (fun kc => existsb (fun c : option Z => match c with Some _ => false | None => true end) (snd kc)) cols in
  fold_left
    (fun acc jd =>
       dict_set acc (snd jd)
         (fold_left
            (fun inner kc =>
               dict_set inner (fst kc) (frame_cell has_nan (nth (fst jd) (snd kc) None)))
            cols []))
    (combine (seq 0 (length index)) index) [].

(** [__extract_time_series_global] *)
Definition extract_time_series_global (dataframe_dict : dict table)
    : result (list value) :=
  (let* global_df_list :=
     mapM (fun kdf => let* totals := date_totals (snd kdf) in
                      ret (fst kdf, totals)) dataframe_dict in
   let* frame := concat_columns global_df_list in
   let global_dict := T_to_dict frame in
   ret (map (fun kv => VDict [(fst kv, VDict (snd kv))]) global_dict))%res.

End TimeSeries.

(** ** The service *)

(** The attributes of a [NovelCoronaAPIv2] object.  [scheme] is the
    address of the response dictionary in the store. *)
Record NovelCoronaAPIv2 : Type := {
  df : list daily_row;
  df_time_series : dict table;
  df_US_time_series : dict table;
  lookup_table : gmap string string;
  df_grp_by_country : list country_row;
  datetime : string;
  timestamp : Q;
  scheme : loc
}.

(** The service as [__init__] leaves it and as every call keeps it: the
    response dictionary is in the store, with the [dt] and [ts] of the
    object. *)
Definition constructed (self : NovelCoronaAPIv2) (h : heap) : Prop :=
  exists v, h !! scheme self
            = Some {| data := v; dt := datetime self; ts := timestamp self |}.

(** The failures under the names of the error taxonomy. *)
Definition EmptyDataset : exn := ValueError MaxEmptySequence.
Definition MalformedTimestamp (s : string) : exn := ValueError (TimeDataMismatch s).
Definition UnknownCase (case : string) : exn := KeyError case.

(** The query methods, as a caller names them. *)
Inductive query : Type :=
| GetCurrent
| GetCountry (country_name : string)
| GetConfirmed
| GetDeaths
| GetRecovered
| GetActive
| GetTotal
| GetTimeSeries (case : string)
| GetUSTimeSeries (case : string).

Section Service.

(** [str.lower] and [str.upper] *)
Variable str_lower : string -> string.
Variable str_upper : string -> string.

(** [datetime.strptime(s, '%Y-%m-%d %H:%M:%S').timestamp()], [None]
    where [strptime] raises [ValueError]. *)
Variable strptime_timestamp : string -> option Q.

(** [sort_values(by='Confirmed', ascending=False)] on the aggregate. *)
Variable sort_values : list country_row -> list country_row.

Variable int_of_str : string -> option Z.
Variable float_of_str : string -> option value.

(** [__init__], from what the four loaders return. *)
Definition init (daily_reports : list daily_row)
    (time_series US_time_series : dict table)
    (lookup : gmap string string) : M NovelCoronaAPIv2 :=
  let grp := groupby_sum daily_reports in
  let! latest := lift (py_max (map Last_Update daily_reports)) in
  let! stamp := lift (of_option (ValueError (TimeDataMismatch latest))
                                (strptime_timestamp latest)) in
  let! l := alloc {| data := VNone; dt := latest; ts := stamp |} in
  mret {| df := daily_reports;
          df_time_series := time_series;
          df_US_time_series := US_time_series;
          lookup_table := lookup;
          df_grp_by_country := grp;
          datetime := latest;
          timestamp := stamp;
          scheme := l |}.

Definition get_current (self : NovelCoronaAPIv2) : M loc :=
  let df_grp_by_country := sort_values (df_grp_by_country self) in
  let data := map country_dict df_grp_by_country in
  let packed_data := scheme self in
  let! _ := set_data packed_data (VList data) in
  mret packed_data.

(** [v.lower()] for a value that should be a string. *)
Definition value_lower (v : value) : result string :=
  match v with
  | VStr s => ret (str_lower s)
  | _ => raise TypeError
  end.

(** [country_data['location'].lower()] *)
Definition location_lower (country_data : value) : result string :=
  (let* l := subscript country_data "location" in value_lower l)%res.

(** [[c for c in all_country_data if name.lower() == c['location'].lower()]] *)
Fixpoint matching (name : string) (all_country_data : list value)
    : result (list value) :=
  match all_country_data with
  | [] => ret []
  | c :: t =>
      let* l := location_lower c in
      let* rest := matching name t in
      ret (if String.eqb (str_lower name) l then c :: rest else rest)
  end%res.

Definition get_country (self : NovelCoronaAPIv2) (country_name : string) : M loc :=
  let! current := get_current self in
  let! current_data := get_data current in
  let! all_country_data := lift (iter_list current_data) in
  let! lowered := lift (mapM location_lower all_country_data) in
  let! country_name :=
    lift (if negb (str_in country_name lowered)
          then of_option (KeyError (str_upper country_name))
                         (lookup_table self !! str_upper country_name)
          else ret country_name) in
  let! found := lift (matching country_name all_country_data) in
  let! data := lift (of_option IndexError (head found)) in
  let packed_data := scheme self in
  let! _ := set_data packed_data data in
  mret packed_data.

(** The body shared by [get_confirmed], [get_deaths], [get_recovered]
    and [get_active]. *)
Definition get_column_sum (column : daily_row -> Z) (self : NovelCoronaAPIv2) : M loc :=
  let data := column_sum column (df self) in
  let packed_data := scheme self in
  let! _ := set_data packed_data (VInt data) in
  mret packed_data.

Definition get_confirmed : NovelCoronaAPIv2 -> M loc := get_column_sum Confirmed.
Definition get_deaths : NovelCoronaAPIv2 -> M loc := get_column_sum Deaths.
Definition get_recovered : NovelCoronaAPIv2 -> M loc := get_column_sum Recovered.
Definition get_active : NovelCoronaAPIv2 -> M loc := get_column_sum Active.

Definition get_total (self : NovelCoronaAPIv2) : M loc :=
  let packed_data := scheme self in
  let! _ := set_data packed_data
    (VDict [("confirmed", VInt (column_sum Confirmed (df self)));
            ("deaths", VInt (column_sum Deaths (df self)));
            ("recovered", VInt (column_sum Recovered (df self)));
            ("active", VInt (column_sum Active (df self)))]) in
  mret packed_data.

Definition get_time_series (self : NovelCoronaAPIv2) (case : string) : M loc :=
  let! data :=
    lift (if negb (str_in case ["global"])
          then (let* frame := dict_item (df_time_series self) case in
                extract_time_series int_of_str float_of_str (T_to_dict_values frame))%res
          else extract_time_series_global int_of_str (df_time_series self)) in
  let packed_data := scheme self in
  let! _ := set_data packed_data (VList data) in
  mret packed_data.

Definition get_US_time_series (self : NovelCoronaAPIv2) (case : string) : M loc :=
  let! data :=
    lift (if negb (str_in case ["confirmed"; "deaths"])
          then ret []
          else (let* frame := dict_item (df_US_time_series self) case in
                extract_US_time_series int_of_str float_of_str (T_to_dict_values frame))%res) in
  let packed_data := scheme self in
  let! _ := set_data packed_data (VList data) in
  mret packed_data.

Definition call (self : NovelCoronaAPIv2) (q : query) : M loc :=
  match q with
  | GetCurrent => get_current self
  | GetCountry country_name => get_country self country_name
  | GetConfirmed => get_confirmed self
  | GetDeaths => get_deaths self
  | GetRecovered => get_recovered self
  | GetActive => get_active self
  | GetTotal => get_total self
  | GetTimeSeries case => get_time_series self case
  | GetUSTimeSeries case => get_US_time_series self case
  end.

(** A sequence of calls, whatever each of them returns or raises; the
    results are collected in call order. *)
Fixpoint calls (self : NovelCoronaAPIv2) (qs : list query) (h : heap)
    : list (result loc) * heap :=
  match qs with
  | [] => ([], h)
  | q :: qs' =>
      let '(r, h') := call self q h in
      let '(rs, h'') := calls self qs' h' in
      (r :: rs, h'')
  end.

End Service.

(** ** Instances of the library functions

    The functions of pandas and of the Python library that the model
    takes as parameters, in versions that run, so that the model can be
    evaluated on examples.  They stand for the library on the inputs of
    the examples only: strings of ASCII characters, timestamps in UTC,
    decimal literals, and keys that are all different or, for
    [unstable_argsort], the keys of the one example with equal keys. *)

Module Instances.

(** [str.lower] and [str.upper] on strings of ASCII characters: the
    letters change case and the other characters stay. *)
Definition lower_ascii (c : ascii) : ascii :=
  let n := nat_of_ascii c in
  if ((65 <=? n) && (n <=? 90))%nat then ascii_of_nat (n + 32) else c.

Definition upper_ascii (c : ascii) : ascii :=
  let n := nat_of_ascii c in
  if ((97 <=? n) && (n <=? 122))%nat then ascii_of_nat (n - 32) else c.

Fixpoint lower (s : string) : string :=
  match s with
  | EmptyString => EmptyString
  | String c t => String (lower_ascii c) (lower t)
  end.

Fixpoint upper (s : string) : string :=
  match s with
  | EmptyString => EmptyString
  | String c t => String (upper_ascii c) (upper t)
  end.

(** Two versions of [argsort], by insertion of the positions from the
    last to the first.  In the stable one a position stops in front of
    the first position whose key is not smaller; in the other it passes
    the positions with its own key, so that equal keys come out in
    descending order of their positions. *)
Fixpoint insert_index (before : nat -> nat -> bool) (i : nat) (l : list nat)
    : list nat :=
  match l with
  | [] => [i]
  | j :: t => if before i j then i :: j :: t else j :: insert_index before i t
  end.

Definition stable_argsort (keys : list Z) : list nat :=
  fold_right (insert_index (fun i j => nth i keys 0 <=? nth j keys 0)) []
             (seq 0 (length keys)).

Definition unstable_argsort (keys : list Z) : list nat :=
  fold_right (insert_index (fun i j => nth i keys 0 <? nth j keys 0)) []
             (seq 0 (length keys)).

(** Insertion into a list that is sorted by [confirmed], descending.
    [before x y] decides whether [x] goes in front of [y]. *)
Fixpoint insert_by (before : country_row -> country_row -> bool)
    (x : country_row) (l : list country_row) : list country_row :=
  match l with
  | [] => [x]
  | y :: t => if before x y then x :: y :: t else y :: insert_by before x t
  end.

Definition sort_by (before : country_row -> country_row -> bool)
    (l : list country_row) : list country_row :=
  fold_right (insert_by before) [] l.

(** The rows are inserted from the last to the first.  In the stable
    sort a row stops in front of the first row whose key is not
    greater, so it stays in front of the later rows with its own key. *)
Definition stable_sort_values : list country_row -> list country_row :=
  sort_by (fun x y => confirmed y <=? confirmed x).

Definition digit (c : ascii) : option Z :=
  let n := nat_of_ascii c in
  if ((48 <=? n) && (n <=? 57))%nat then Some (Z.of_nat (n - 48)) else None.

Fixpoint digits_from (acc : Z) (s : string) : option Z :=
  match s with
  | EmptyString => Some acc
  | String c t =>
      match digit c with
      | Some d => digits_from (10 * acc + d) t
      | None => None
      end
  end.

(** Decimal integer literals: an optional sign and digits. *)
Definition decimal_int (s : string) : option Z :=
  match s with
  | EmptyString => None
  | String "-" (String c t) => Z.opp <$> digits_from 0 (String c t)
  | String "+" (String c t) => digits_from 0 (String c t)
  | _ => digits_from 0 s
  end.

Definition decimal_float (s : string) : option value :=
  (fun z => VFloat (inject_Z z)) <$> decimal_int s.

Definition leap_year (y : Z) : bool :=
  ((y mod 4 =? 0) && negb (y mod 100 =? 0)) || (y mod 400 =? 0).

Definition days_in_month (y m : Z) : Z :=
  if m =? 2 then (if leap_year y then 29 else 28)
  else if (m =? 4) || (m =? 6) || (m =? 9) || (m =? 11) then 30
  else 31.

(** Days from 1970-01-01 to the given date of the Gregorian calendar. *)
Definition days_from_epoch (y m d : Z) : Z :=
  let y' := if m <=? 2 then y - 1 else y in
  let era := y' / 400 in
  let yoe := y' - era * 400 in
  let mp := (m + 9) mod 12 in
  let doy := (153 * mp + 2) / 5 + d - 1 in
  let doe := yoe * 365 + yoe / 4 - yoe / 100 + doy in
  era * 146097 + doe - 719468.

(** Timestamps written [YYYY-MM-DD HH:MM:SS], read in UTC. *)
Definition utc_timestamp (s : string) : option Q :=
  if negb (Nat.eqb (String.length s) 19) then None
  else if negb (String.eqb (substring 4 1 s) "-" && String.eqb (substring 7 1 s) "-"
                && String.eqb (substring 10 1 s) " " && String.eqb (substring 13 1 s) ":"
                && String.eqb (substring 16 1 s) ":") then None
  else
    y ← digits_from 0 (substring 0 4 s);
    m ← digits_from 0 (substring 5 2 s);
    d ← digits_from 0 (substring 8 2 s);
    hh ← digits_from 0 (substring 11 2 s);
    mm ← digits_from 0 (substring 14 2 s);
    ss ← digits_from 0 (substring 17 2 s);
    if (1 <=? m) && (m <=? 12) && (1 <=? d) && (d <=? days_in_month y m)
       && (hh <? 24) && (mm <? 60) && (ss <? 60)
    then Some (inject_Z (days_from_epoch y m d * 86400 + hh * 3600 + mm * 60 + ss))
    else None.

End Instances.

(** ** The vocabulary of the properties *)

(** The order of the group keys. *)
Definition location_lt (a b : country_row) : Prop :=
  String.compare (location a) (location b) = Lt.

(** The daily reports of a country, and the groups with a given key. *)
Definition reports_of (country : string) (rows : list daily_row) : list daily_row :=
  List.filter (fun r => String.eqb (Country_Region r) country) rows.

Definition groups_of (country : string) (groups : list country_row) : list country_row :=
  List.filter (fun g => String.eqb (location g) country) groups.

(** The sum of a list of integers. *)
Definition total (l : list Z) : Z := fold_right Z.add 0 l.

(** [z] is the sum of the integers [l] in 64-bit arithmetic: the 64-bit
    reading of the low 64 bits of their sum, which is the sum itself
    when that is a 64-bit integer. *)
Definition int64_sum (l : list Z) (z : Z) : Prop :=
  z = wrap64 (total l) /\ (in_int64 (total l) = true -> z = total l).

(** The group of a country, computed from all the daily reports. *)
Definition group_from (rows : list daily_row) (country : string) : country_row :=
  {| location := country;
     confirmed := wrap64 (total (map Confirmed (reports_of country rows)));
     deaths := wrap64 (total (map Deaths (reports_of country rows)));
     recovered := wrap64 (total (map Recovered (reports_of country rows)));
     active := wrap64 (total (map Active (reports_of country rows))) |}.

Definition string_lt (a b : string) : Prop := String.compare a b = Lt.

(** A record of [get_current], as the specification writes it:
    [{location, confirmed, deaths, recovered, active}]. *)
Definition country_record (g : country_row) : value :=
  VDict [("location", VStr (location g)); ("confirmed", VInt (confirmed g));
         ("deaths", VInt (deaths g)); ("recovered", VInt (recovered g));
         ("active", VInt (active g))].

(** The lowercased locations that [get_country] compares the name with,
    and the rows whose location is a name up to case. *)
Definition lowered_locations (str_lower : string -> string)
    (rows : list country_row) : list string :=
  map (fun g => str_lower (location g)) rows.

Definition rows_matching (str_lower : string -> string) (name : string)
    (rows : list country_row) : list country_row :=
  List.filter (fun g => String.eqb (str_lower name) (str_lower (location g))) rows.

(** How [country_name] is resolved: a name that is one of the lowercased
    locations stands for itself, anything else is taken for a code. *)
Definition resolve (str_lower str_upper : string -> string)
    (self : NovelCoronaAPIv2) (rows : list country_row)
    (country_name : string) : result string :=
  if negb (str_in country_name (lowered_locations str_lower rows))
  then of_option (KeyError (str_upper country_name))
                 (lookup_table self !! str_upper country_name)
  else ret country_name.

(** [m] is an element of [l] and no element of [l] is greater. *)
Definition greatest (m : string) (l : list string) : Prop :=
  In m l /\ forall s, In s l -> String.ltb m s = false.

(** From [h] to [h'] nothing changed but the [data] of the object at [l]. *)
Definition only_data_changed (l : loc) (h h' : heap) : Prop :=
  (forall l', l' <> l -> h' !! l' = h !! l')
  /\ (forall e, h !! l = Some e ->
        exists v, h' !! l = Some {| data := v; dt := dt e; ts := ts e |}).

(** What one call returns and what it does to the store. *)
Definition call_ok (self : NovelCoronaAPIv2) (h : heap) (rh : result loc * heap) : Prop :=
  (forall l, fst rh = inr l -> l = scheme self)
  /\ only_data_changed (scheme self) h (snd rh).

(** The columns that [__extract_time_series] keeps out of [TimeSeries]. *)
Definition global_excluded_cols : list string :=
  ["Province/State"; "Country/Region"; "Lat"; "Long"].

(** The cells for which [int] and [float] need no parsing and do not
    raise: [int] takes an integer or a finite float, [float] a float,
    or an integer that a double holds exactly. *)
Definition is_number (v : value) : bool :=
  match v with
  | VInt _ | VFloat _ => true
  | _ => false
  end.

Definition is_float (v : value) : bool :=
  match v with
  | VInt z => Z.abs z <? 2 ^ 53
  | VFloat _ | VNaN | VInf _ => true
  | _ => false
  end.

(** A row that the reshaping accepts without parsing: it has the
    [required] columns, a float or an integer that a double holds
    exactly in the [coordinates] columns, and an integer or a finite
    float in every column outside [excluded_cols]. *)
Definition plain_row (required coordinates excluded_cols : list string)
    (data : dict value) : Prop :=
  Forall (fun k => exists v, dict_get data k = Some v) required
  /\ Forall (fun k => exists v, dict_get data k = Some v /\ is_float v = true)
             coordinates
  /\ Forall (fun kv => negb (str_in (fst kv) excluded_cols) = true ->
                        is_number (snd kv) = true) data.

(** A table whose rows are as long as its header and hold, from the
    fifth column on, integers that fit in 32 bits. *)
Definition int32_table (t : table) : Prop :=
  Forall (fun row => length row = length (columns t)
                     /\ Forall (fun v => exists z, v = VInt z /\ in_int32 z = true)
                                (drop 4 row))
         (rows t).

(** The integers of the column at position [j] of a table of integers. *)
Definition int_cell (v : value) : Z :=
  match v with
  | VInt z => z
  | _ => 0
  end.

Definition column_of_ints (t : table) (j : nat) : list Z :=
  map (fun row => int_cell (nth j row VNone)) (rows t).

(** The columns that go into [TimeSeries]. *)
Definition kept (excluded_cols : list string) (k : string) : bool :=
  negb (str_in k excluded_cols).

(** [n] is [int] of the cell [v], and [x] is [float] of the cell [v]:
    what [int] and [float] return, which for an integer cell is the
    integer, for a float cell its truncation towards zero, and for a
    float or [nan] cell under [float] the cell itself. *)
Definition int_of_cell (int_of_str : string -> option Z) (v : value) (n : Z)
    : Prop :=
  py_int int_of_str v = inr n
  /\ (forall z, v = VInt z -> n = z)
  /\ (forall q, v = VFloat q -> n = trunc q).

Definition float_of_cell (float_of_str : string -> option value) (v x : value)
    : Prop :=
  py_float float_of_str v = inr x
  /\ (forall q, v = VFloat q -> x = VFloat q)
  /\ (v = VNaN -> x = VNaN).

(** The record that [__extract_US_time_series] builds from the row
    dictionary [data]: the five keys; the cells of the row under
    [Province_State], [Country_Region] and the six keys of [Info];
    [float] of the cells [Lat] and [Long_] under [Coordinates]; and in
    [TimeSeries] one entry [{'date': k, 'value': int(v)}] for every
    column [k] outside the excluded ones, in the order of the columns. *)
Definition US_record (int_of_str : string -> option Z)
    (float_of_str : string -> option value)
    (data : dict value) (record : value) : Prop :=
  exists (province country uid iso2 iso3 code3 fips admin2 : value)
         (lat_cell long_cell lat long : value) (series : dict Z),
    record = VDict [("Province_State", province);
                    ("Country_Region", country);
                    ("Info", VDict [("UID", uid); ("iso2", iso2); ("iso3", iso3);
                                    ("code3", code3); ("FIPS", fips);
                                    ("Admin2", admin2)]);
                    ("Coordinates", VDict [("Lat", lat); ("Long", long)]);
                    ("TimeSeries",
                     VList (map (fun kz => VDict [("date", VStr (fst kz));
                                                  ("value", VInt (snd kz))])
                                series))]
    /\ dict_get data "Province_State" = Some province
    /\ dict_get data "Country_Region" = Some country
    /\ dict_get data "UID" = Some uid
    /\ dict_get data "iso2" = Some iso2
    /\ dict_get data "iso3" = Some iso3
    /\ dict_get data "code3" = Some code3
    /\ dict_get data "FIPS" = Some fips
    /\ dict_get data "Admin2" = Some admin2
    /\ dict_get data "Lat" = Some lat_cell
    /\ float_of_cell float_of_str lat_cell lat
    /\ dict_get data "Long_" = Some long_cell
    /\ float_of_cell float_of_str long_cell long
    /\ dict_keys series = List.filter (kept US_excluded_cols) (dict_keys data)
    /\ ~ In "Combined_Key" (dict_keys series)
    /\ ~ In "Population" (dict_keys series)
    /\ Forall (fun kz => exists v, dict_get data (fst kz) = Some v
                                   /\ int_of_cell int_of_str v (snd kz)) series.

(** The record that [__extract_time_series] builds from the row
    dictionary [data]. *)
Definition time_series_record (int_of_str : string -> option Z)
    (float_of_str : string -> option value)
    (data : dict value) (record : value) : Prop :=
  exists (province country lat_cell long_cell lat long : value)
         (series : dict Z),
    record = VDict [("Province/State", province);
                    ("Country/Region", country);
                    ("Coordinates", VDict [("Lat", lat); ("Long", long)]);
                    ("TimeSeries",
                     VList (map (fun kz => VDict [("date", VStr (fst kz));
                                                  ("value", VInt (snd kz))])
                                series))]
    /\ dict_get data "Province/State" = Some province
    /\ dict_get data "Country/Region" = Some country
    /\ dict_get data "Lat" = Some lat_cell
    /\ float_of_cell float_of_str lat_cell lat
    /\ dict_get data "Long" = Some long_cell
    /\ float_of_cell float_of_str long_cell long
    /\ dict_keys series = List.filter (kept global_excluded_cols) (dict_keys data)
    /\ Forall (fun kz => exists v, dict_get data (fst kz) = Some v
                                   /\ int_of_cell int_of_str v (snd kz)) series.

(** [z] is the sum, over the rows of [t], of the cells of the column at
    position [j] as 32-bit integers. *)
Definition int32_column_sum (int_of_str : string -> option Z)
    (t : table) (j : nat) (z : Z) : Prop :=
  exists cells : list Z,
    Forall2 (fun row c => astype_int32 int_of_str (nth j row VNone) = inr c)
            (rows t) cells
    /\ z = fold_right Z.add 0 cells.

(** ** Example data *)

Module Examples.
Import Instances.

Definition report (country updated : string) (c d r a : Z) : daily_row :=
  {| Country_Region := country; Last_Update := updated;
     Confirmed := c; Deaths := d; Recovered := r; Active := a |}.

(** Daily reports with two rows for one country. *)
Definition daily_reports : list daily_row :=
  [report "Thailand" "2020-03-14 10:00:00" 75 1 35 39;
   report "China" "2020-03-14 09:30:00" 67790 3075 52960 11755;
   report "Italy" "2020-03-13 23:00:00" 21157 1441 1966 17750;
   report "China" "2020-03-13 22:10:00" 1356 8 1296 52].

Definition lookup : gmap string string :=
  <["TH" := "Thailand"]> (<["IT" := "Italy"]> (<["CN" := "China"]> ∅)).

Definition global_columns : list string :=
  ["Province/State"; "Country/Region"; "Lat"; "Long"; "1/22/20"; "1/23/20"].

Definition global_confirmed : table :=
  {| columns := global_columns;
     rows := [[VStr "Hubei"; VStr "China"; VFloat (3097 # 100); VFloat (11227 # 100);
               VInt 444; VInt 444];
              [VNaN; VStr "Thailand"; VFloat 15; VFloat 101; VInt 2; VInt 3]] |}.

Definition global_deaths : table :=
  {| columns := global_columns;
     rows := [[VStr "Hubei"; VStr "China"; VFloat (3097 # 100); VFloat (11227 # 100);
               VInt 17; VInt 17];
              [VNaN; VStr "Thailand"; VFloat 15; VFloat 101; VInt 0; VInt 0]] |}.

Definition global_recovered : table :=
  {| columns := global_columns;
     rows := [[VStr "Hubei"; VStr "China"; VFloat (3097 # 100); VFloat (11227 # 100);
               VInt 28; VInt 28];
              [VNaN; VStr "Thailand"; VFloat 15; VFloat 101; VInt 0; VInt 1]] |}.

Definition time_series : dict table :=
  [("confirmed", global_confirmed); ("deaths", global_deaths);
   ("recovered", global_recovered)].

Definition US_confirmed : table :=
  {| columns := ["UID"; "iso2"; "iso3"; "code3"; "FIPS"; "Admin2";
                 "Province_State"; "Country_Region"; "Lat"; "Long_";
                 "Combined_Key"; "1/22/20"; "1/23/20"];
     rows := [[VInt 84053033; VStr "US"; VStr "USA"; VInt 840; VFloat 53033;
               VStr "King"; VStr "Washington"; VStr "US";
               VFloat (4749 # 100); VFloat (- 12183 # 100);
               VStr "King, Washington, US"; VInt 1; VFloat 1]] |}.

Definition US_deaths : table :=
  {| columns := ["UID"; "iso2"; "iso3"; "code3"; "FIPS"; "Admin2";
                 "Province_State"; "Country_Region"; "Lat"; "Long_";
                 "Combined_Key"; "Population"; "1/22/20"; "1/23/20"];
     rows := [[VInt 84053033; VStr "US"; VStr "USA"; VInt 840; VFloat 53033;
               VStr "King"; VStr "Washington"; VStr "US";
               VFloat (4749 # 100); VFloat (- 12183 # 100);
               VStr "King, Washington, US"; VInt 2252782; VInt 0; VInt 0]] |}.

Definition US_time_series : dict table :=
  [("confirmed", US_confirmed); ("deaths", US_deaths)].

(** The object that [__init__] builds from these tables in the empty
    store, and the store it leaves. *)
Definition api : NovelCoronaAPIv2 :=
  {| df := daily_reports;
     df_time_series := time_series;
     df_US_time_series := US_time_series;
     lookup_table := lookup;
     df_grp_by_country := groupby_sum daily_reports;
     datetime := "2020-03-14 10:00:00";
     timestamp := inject_Z 1584180000;
     scheme := 1%positive |}.

Definition store : heap :=
  {[ 1%positive := {| data := VNone; dt := "2020-03-14 10:00:00";
                      ts := inject_Z 1584180000 |} ]}.

Definition thailand : country_row :=
  {| location := "Thailand"; confirmed := 75; deaths := 1;
     recovered := 35; active := 39 |}.

(** Four countries, two with one confirmed case and two with two. *)
Definition tie_reports : list daily_row :=
  [report "A" "2020-03-14 10:00:00" 1 0 0 1;
   report "B" "2020-03-14 10:00:00" 1 0 1 0;
   report "C" "2020-03-14 10:00:00" 2 0 0 2;
   report "D" "2020-03-14 10:00:00" 2 0 1 1].

Definition tie_A : country_row :=
  {| location := "A"; confirmed := 1; deaths := 0; recovered := 0; active := 1 |}.
Definition tie_B : country_row :=
  {| location := "B"; confirmed := 1; deaths := 0; recovered := 1; active := 0 |}.
Definition tie_C : country_row :=
  {| location := "C"; confirmed := 2; deaths := 0; recovered := 0; active := 2 |}.
Definition tie_D : country_row :=
  {| location := "D"; confirmed := 2; deaths := 0; recovered := 1; active := 1 |}.

Definition tie_api : NovelCoronaAPIv2 :=
  {| df := tie_reports; df_time_series := []; df_US_time_series := [];
     lookup_table := ∅; df_grp_by_country := groupby_sum tie_reports;
     datetime := "2020-03-14 10:00:00"; timestamp := inject_Z 1584180000;
     scheme := 1%positive |}.

(** Two rows whose counts are 64-bit integers and whose sum is not. *)
Definition big_reports : list daily_row :=
  [report "X" "2020-03-14 10:00:00" (2 ^ 62) 0 0 (2 ^ 62);
   report "Y" "2020-03-14 10:00:00" (2 ^ 62) 0 0 (2 ^ 62)].

Definition big_api : NovelCoronaAPIv2 :=
  {| df := big_reports; df_time_series := []; df_US_time_series := [];
     lookup_table := ∅; df_grp_by_country := groupby_sum big_reports;
     datetime := "2020-03-14 10:00:00"; timestamp := inject_Z 1584180000;
     scheme := 1%positive |}.

(** A location whose lowercased name is also a code of the lookup
    table, for another country. *)
Definition shadow_reports : list daily_row :=
  [report "aa" "2020-03-14 10:00:00" 5 0 0 5;
   report "bb" "2020-03-14 10:00:00" 3 0 1 2].

Definition shadow_aa : country_row :=
  {| location := "aa"; confirmed := 5; deaths := 0; recovered := 0; active := 5 |}.
Definition shadow_bb : country_row :=
  {| location := "bb"; confirmed := 3; deaths := 0; recovered := 1; active := 2 |}.

Definition shadow_api : NovelCoronaAPIv2 :=
  {| df := shadow_reports; df_time_series := []; df_US_time_series := [];
     lookup_table := {[ "AA" := "bb" ]};
     df_grp_by_country := groupby_sum shadow_reports;
     datetime := "2020-03-14 10:00:00"; timestamp := inject_Z 1584180000;
     scheme := 1%positive |}.

(** Daily reports in which a row that is not the latest has a
    [Last_Update] without the time of day. *)
Definition stale_reports : list daily_row :=
  [report "X" "2020-03-14 10:00:00" 5 1 2 2;
   report "Y" "2020-03-13" 3 0 1 2].

(** The rows of the example of the specification. *)
Definition reports_X : list daily_row :=
  [report "X" "2020-03-14 10:00:00" 5 1 2 2;
   report "X" "2020-03-13 09:00:00" 3 0 1 2].

Definition api_X : NovelCoronaAPIv2 :=
  {| df := reports_X; df_time_series := []; df_US_time_series := [];
     lookup_table := ∅; df_grp_by_country := groupby_sum reports_X;
     datetime := "2020-03-14 10:00:00"; timestamp := inject_Z 1584180000;
     scheme := 1%positive |}.

(** Tables of two cases where the second lacks the last date. *)
Definition ragged_api : NovelCoronaAPIv2 :=
  {| df := reports_X;
     df_time_series :=
       [("confirmed",
         {| columns := global_columns;
            rows := [[VStr "Hubei"; VStr "China"; VFloat 31; VFloat 112;
                      VInt 444; VInt 549]] |});
        ("deaths",
         {| columns := ["Province/State"; "Country/Region"; "Lat"; "Long"; "1/22/20"];
            rows := [[VStr "Hubei"; VStr "China"; VFloat 31; VFloat 112;
                      VInt 17]] |})];
     df_US_time_series := [];
     lookup_table := ∅; df_grp_by_country := groupby_sum reports_X;
     datetime := "2020-03-14 10:00:00"; timestamp := inject_Z 1584180000;
     scheme := 1%positive |}.

(** A table with a cell that does not fit in 32 bits. *)
Definition wide_api : NovelCoronaAPIv2 :=
  {| df := reports_X;
     df_time_series :=
       [("confirmed",
         {| columns := global_columns;
            rows := [[VStr "Hubei"; VStr "China"; VFloat 31; VFloat 112;
                      VInt 2147483648; VInt 1];
                     [VStr "Hunan"; VStr "China"; VFloat 27; VFloat 111;
                      VInt 1; VInt 1]] |})];
     df_US_time_series := [];
     lookup_table := ∅; df_grp_by_country := groupby_sum reports_X;
     datetime := "2020-03-14 10:00:00"; timestamp := inject_Z 1584180000;
     scheme := 1%positive |}.

(** A table with floats in a date column: one beyond the 32 bits and
    one with a fraction. *)
Definition float_api : NovelCoronaAPIv2 :=
  {| df := reports_X;
     df_time_series :=
       [("confirmed",
         {| columns := global_columns;
            rows := [[VStr "Hubei"; VStr "China"; VFloat 31; VFloat 112;
                      VFloat 3000000000; VInt 1];
                     [VStr "Hunan"; VStr "China"; VFloat 27; VFloat 111;
                      VFloat (- 19 # 10); VInt 1]] |})];
     df_US_time_series := [];
     lookup_table := ∅; df_grp_by_country := groupby_sum reports_X;
     datetime := "2020-03-14 10:00:00"; timestamp := inject_Z 1584180000;
     scheme := 1%positive |}.

(** The example service with a code for a country that is not in the
    daily reports. *)
Definition atlas_api : NovelCoronaAPIv2 :=
  {| df := daily_reports;
     df_time_series := time_series;
     df_US_time_series := US_time_series;
     lookup_table := <["GL" := "Greenland"]> lookup;
     df_grp_by_country := groupby_sum daily_reports;
     datetime := "2020-03-14 10:00:00";
     timestamp := inject_Z 1584180000;
     scheme := 1%positive |}.

(** A table with [nan] in a date column. *)
Definition gap_table : table :=
  {| columns := global_columns;
     rows := [[VStr "Hubei"; VStr "China"; VFloat 31; VFloat 112;
               VInt 444; VInt 549];
              [VNaN; VStr "Thailand"; VFloat 15; VFloat 101; VInt 2; VNaN]] |}.

Definition gap_api : NovelCoronaAPIv2 :=
  {| df := reports_X;
     df_time_series := [("confirmed", gap_table)];
     df_US_time_series := [];
     lookup_table := ∅; df_grp_by_country := groupby_sum reports_X;
     datetime := "2020-03-14 10:00:00"; timestamp := inject_Z 1584180000;
     scheme := 1%positive |}.

(** Some calls, one of which raises. *)
Definition session : list query :=
  [GetConfirmed; GetCountry "Thailand"; GetTimeSeries "global";
   GetUSTimeSeries "deaths"; GetCountry "it"; GetTotal; GetCurrent].

End Examples.

(** * Properties *)

(** ** The store *)

Lemma set_data_lookup (l : loc) (v : value) (h : heap) (e : envelope) :
  h !! l = Some e ->
  snd (set_data l v h) !! l = Some {| data := v; dt := dt e; ts := ts e |}.
Proof.
  intros Hl. unfold set_data. cbn [snd].
  rewrite lookup_alter. case_decide; [|done]. by rewrite Hl.
Qed.

Lemma set_data_other (l l' : loc) (v : value) (h : heap) :
  l' <> l -> snd (set_data l v h) !! l' = h !! l'.
Proof.
  intros Hne. unfold set_data. cbn [snd].
  rewrite lookup_alter. case_decide; [congruence | done].
Qed.

Lemma set_data_constructed (self : NovelCoronaAPIv2) (v : value) (h : heap) :
  constructed self h ->
  snd (set_data (scheme self) v h) !! scheme self
  = Some {| data := v; dt := datetime self; ts := timestamp self |}.
Proof.
  intros [v0 Hv0]. by rewrite (set_data_lookup _ _ _ _ Hv0).
Qed.

Lemma mbind_lift {A B} (r : result A) (k : A -> M B) (h : heap) :
  mbind (lift r) k h
  = match r with
    | inl e => (inl e, h)
    | inr a => k a h
    end.
Proof. by destruct r. Qed.

Lemma pack_run (self : NovelCoronaAPIv2) (v : value) (h : heap) :
  (let! _ := set_data (scheme self) v in mret (scheme self)) h
  = (inr (scheme self), snd (set_data (scheme self) v h)).
Proof. reflexivity. Qed.

Lemma returned_pack {A} (project : envelope -> A)
    (self : NovelCoronaAPIv2) (v : value) (h : heap) :
  constructed self h ->
  returned project (inr (scheme self), snd (set_data (scheme self) v h))
  = Some (project {| data := v; dt := datetime self; ts := timestamp self |}).
Proof.
  intros Hc. unfold returned. by rewrite (set_data_constructed _ _ _ Hc).
Qed.

Lemma set_data_keeps_constructed (self : NovelCoronaAPIv2) (v : value) (h : heap) :
  constructed self h -> constructed self (snd (set_data (scheme self) v h)).
Proof. intros Hc. exists v. by apply set_data_constructed. Qed.

(** ** 64-bit sums *)

Lemma wrap64_eq (a b : Z) : a mod 2 ^ 64 = b mod 2 ^ 64 -> wrap64 a = wrap64 b.
Proof.
  intros H. unfold wrap64. f_equal.
  by rewrite (Zplus_mod a), (Zplus_mod b), H.
Qed.

Lemma wrap64_mod (z : Z) : wrap64 z mod 2 ^ 64 = z mod 2 ^ 64.
Proof.
  unfold wrap64. rewrite Zminus_mod_idemp_l.
  f_equal. lia.
Qed.

Lemma wrap64_idem (z : Z) : wrap64 (wrap64 z) = wrap64 z.
Proof. apply wrap64_eq, wrap64_mod. Qed.

Lemma wrap64_add_l (a b : Z) : wrap64 (wrap64 a + b) = wrap64 (a + b).
Proof.
  apply wrap64_eq. by rewrite Zplus_mod, wrap64_mod, <- Zplus_mod.
Qed.

Lemma wrap64_add_r (a b : Z) : wrap64 (a + wrap64 b) = wrap64 (a + b).
Proof. by rewrite Z.add_comm, wrap64_add_l, Z.add_comm. Qed.

Lemma wrap64_small (z : Z) : in_int64 z = true -> wrap64 z = z.
Proof.
  unfold in_int64, wrap64. intros [H1 H2]%andb_prop.
  apply Z.leb_le in H1. apply Z.ltb_lt in H2.
  rewrite Z.mod_small; lia.
Qed.

Lemma fold_left_add64 (l : list Z) (a : Z) :
  fold_left add64 l (wrap64 a) = wrap64 (a + fold_right Z.add 0 l).
Proof.
  revert a. induction l as [|x t IH]; intros a; cbn [fold_left fold_right].
  - by rewrite Z.add_0_r.
  - unfold add64 at 2. rewrite wrap64_add_l, IH. f_equal. lia.
Qed.

(** The sum of a column is the low 64 bits of the sum of its cells. *)
Lemma column_sum_wrap (column : daily_row -> Z) (rows : list daily_row) :
  column_sum column rows = wrap64 (fold_right Z.add 0 (map column rows)).
Proof.
  unfold column_sum. change 0 with (wrap64 0) at 1. by rewrite fold_left_add64.
Qed.

(** ** The aggregate *)

(** The groups are in strictly ascending order of their keys, so that
    every country has one row, and the sums of the groups add up, in
    64-bit arithmetic, to the sums of the daily reports. *)
Lemma groupby_add_hdrel (g : country_row) (r : daily_row) (acc : list country_row) :
  String.compare (location g) (Country_Region r) = Lt ->
  HdRel location_lt g acc -> HdRel location_lt g (groupby_add r acc).
Proof.
  intros Hg Hacc. destruct acc as [|g' acc']; cbn [groupby_add].
  - by constructor.
  - inversion Hacc; subst.
    destruct (String.compare (Country_Region r) (location g'));
      by constructor.
Qed.

Lemma groupby_add_sorted (r : daily_row) (acc : list country_row) :
  Sorted location_lt acc -> Sorted location_lt (groupby_add r acc).
Proof.
  induction 1 as [|g acc' Hacc' IH Hg]; cbn [groupby_add].
  - by repeat constructor.
  - destruct (String.compare (Country_Region r) (location g)) eqn:Hcmp.
    + constructor; [done|]. destruct acc' as [|g' t]; [by constructor|].
      inversion Hg; subst. by constructor.
    + constructor; [by constructor|]. by constructor.
    + constructor; [done|]. apply groupby_add_hdrel; [|done].
      rewrite String.compare_antisym, Hcmp. reflexivity.
Qed.

Lemma groupby_sum_sorted (rows : list daily_row) :
  Sorted location_lt (groupby_sum rows).
Proof.
  unfold groupby_sum.
  assert (H : forall acc, Sorted location_lt acc ->
            Sorted location_lt (fold_left (fun acc r => groupby_add r acc) rows acc)).
  { induction rows as [|r t IH]; intros acc Hacc; [done|].
    cbn [fold_left]. by apply IH, groupby_add_sorted. }
  apply H. constructor.
Qed.

Lemma groupby_add_total (column : daily_row -> Z) (field : country_row -> Z)
    (r : daily_row) (acc : list country_row) :
  (forall r, field (group_of r) = add64 0 (column r)) ->
  (forall r g, field (group_add r g) = add64 (field g) (column r)) ->
  wrap64 (fold_right Z.add 0 (map field (groupby_add r acc)))
  = wrap64 (fold_right Z.add 0 (map field acc) + column r).
Proof.
  intros Hof Hadd. induction acc as [|g acc' IH]; cbn [groupby_add].
  - cbn. rewrite Hof. unfold add64. rewrite Z.add_0_r. apply wrap64_idem.
  - destruct (String.compare (Country_Region r) (location g)); cbn [map fold_right].
    + rewrite Hadd. unfold add64. rewrite wrap64_add_l. f_equal. lia.
    + rewrite Hof. unfold add64. rewrite wrap64_add_l. f_equal. lia.
    + rewrite <- wrap64_add_r, IH, wrap64_add_r. f_equal. lia.
Qed.

Lemma groupby_sum_total (column : daily_row -> Z) (field : country_row -> Z)
    (rows : list daily_row) :
  (forall r, field (group_of r) = add64 0 (column r)) ->
  (forall r g, field (group_add r g) = add64 (field g) (column r)) ->
  wrap64 (fold_right Z.add 0 (map field (groupby_sum rows)))
  = column_sum column rows.
Proof.
  intros Hof Hadd. rewrite column_sum_wrap. unfold groupby_sum.
  assert (H : forall acc,
            wrap64 (fold_right Z.add 0
              (map field (fold_left (fun acc r => groupby_add r acc) rows acc)))
            = wrap64 (fold_right Z.add 0 (map field acc)
                      + fold_right Z.add 0 (map column rows))).
  { induction rows as [|r t IH]; intros acc; cbn [fold_left map fold_right].
    - by rewrite Z.add_0_r.
    - rewrite IH, <- wrap64_add_l, (groupby_add_total column field) by done.
      rewrite wrap64_add_l. f_equal. lia. }
  rewrite H. reflexivity.
Qed.

(** ** Sorting *)

Lemma map_nth_seq {A} (l : list A) (d : A) :
  map (fun i => nth i l d) (seq 0 (length l)) = l.
Proof.
  induction l as [|x t IH]; [done|].
  cbn [length seq map nth]. f_equal.
  rewrite <- seq_shift, map_map. exact IH.
Qed.

Lemma Sorted_snoc {A} (R : A -> A -> Prop) (l : list A) (x : A) :
  Sorted R l -> (forall y, last l = Some y -> R y x) -> Sorted R (l ++ [x]).
Proof.
  induction 1 as [|a t Ht IH Ha]; intros Hlast; cbn [app].
  - by repeat constructor.
  - constructor.
    + apply IH. intros y Hy. apply Hlast. destruct t; [done | exact Hy].
    + destruct t as [|b t']; cbn [app].
      * constructor. by apply Hlast.
      * constructor. by inversion Ha.
Qed.

Lemma Sorted_rev {A} (R : A -> A -> Prop) (l : list A) :
  Sorted R l -> Sorted (fun a b => R b a) (rev l).
Proof.
  induction 1 as [|x t Ht IH Hx]; cbn [rev]; [constructor|].
  apply Sorted_snoc; [done|]. intros y Hy.
  destruct t as [|b t']; [done|]. cbn [rev] in Hy.
  rewrite last_snoc in Hy. injection Hy as <-. by inversion Hx.
Qed.

Lemma Sorted_map_in {A B} (R : A -> A -> Prop) (R' : B -> B -> Prop)
    (f : A -> B) (l : list A) :
  (forall a b, In a l -> In b l -> R a b -> R' (f a) (f b)) ->
  Sorted R l -> Sorted R' (map f l).
Proof.
  intros Hf Hs. induction Hs as [|x t Ht IH Hx]; cbn [map]; [constructor|].
  constructor.
  - apply IH. intros a b Ha Hb. apply Hf; by right.
  - destruct t as [|y t']; cbn [map]; constructor.
    inversion Hx; subst. apply Hf; [by left | right; by left | done].
Qed.

Lemma omap_lookup_nth {A} (l : list A) (d : A) (idx : list nat) :
  Forall (fun i => (i < length l)%nat) idx ->
  omap (fun i => l !! i) idx = map (fun i => nth i l d) idx.
Proof.
  induction 1 as [|i t Hi Ht IH]; [done|].
  cbn [omap list_omap map]. 
  destruct (nth_lookup_or_length l i d) as [Hn|Hlen]; [|lia].
  rewrite Hn.
  change (nth i l d :: omap (fun i => l !! i) t = nth i l d :: map (fun i => nth i l d) t).
  by rewrite IH.
Qed.

(** With an [argsort] that meets numpy's contract, pandas' sort of the
    aggregate meets the contract of [sort_values]: the reversals turn
    the ascending order of the indexer into the descending order of the
    rows. *)
Lemma sort_values_by_confirmed_spec (argsort : list Z -> list nat) :
  argsort_spec argsort -> sort_values_spec (sort_values_by_confirmed argsort).
Proof.
  intros Hargsort.
  assert (Hmain : forall rows : list country_row,
            Permutation (sort_values_by_confirmed argsort rows) rows
            /\ Sorted confirmed_ge (sort_values_by_confirmed argsort rows)).
  { intros rows. destruct rows as [|d0 rows'].
    { unfold sort_values_by_confirmed, nargsort, take_rows. cbn.
      destruct (Hargsort []) as [Hnil _]. cbn in Hnil.
      apply Permutation_nil_r in Hnil. rewrite Hnil. cbn.
      split; [done | constructor]. }
    remember (d0 :: rows') as rows eqn:Hrows. clear Hrows rows'.
    unfold sort_values_by_confirmed, nargsort, take_rows.
    rewrite length_map.
    set (keys := map confirmed rows). set (n := length rows).
    assert (Hk : length keys = n) by apply length_map.
    destruct (Hargsort (rev keys)) as [Hperm Hsorted].
    rewrite length_rev, Hk in Hperm.
    set (p := argsort (rev keys)) in *.
    assert (Hvalid : forall i, In i p -> (i < n)%nat).
    { intros i Hi. apply (Permutation_in _ Hperm) in Hi.
      apply in_seq in Hi. lia. }
    assert (Hidx : forall i, (i < n)%nat ->
              nth i (rev (seq 0 n)) 0%nat = (n - S i)%nat).
    { intros i Hi. rewrite rev_nth by (rewrite length_seq; lia).
      rewrite length_seq, seq_nth; lia. }
    set (final := rev (map (fun i => nth i (rev (seq 0 n)) 0%nat) p)).
    assert (Hfinal : Permutation final (seq 0 n)).
    { unfold final. rewrite <- Permutation_rev.
      rewrite (Permutation_map _ Hperm).
      pose proof (map_nth_seq (rev (seq 0 n)) 0%nat) as E.
      rewrite length_rev, length_seq in E. rewrite E.
      symmetry. apply Permutation_rev. }
    assert (Hin : Forall (fun i => (i < length rows)%nat) final).
    { apply Forall_forall. intros i Hi%list_elem_of_In.
      apply (Permutation_in _ Hfinal), in_seq in Hi. fold n. lia. }
    split.
    - rewrite (omap_Permutation _ _ _ Hfinal).
      rewrite (omap_lookup_nth rows d0).
      + apply Permutation_refl'. apply map_nth_seq.
      + apply Forall_forall. intros i Hi%list_elem_of_In%in_seq. fold n. lia.
    - rewrite (omap_lookup_nth rows d0 final Hin). unfold final.
      rewrite map_rev, map_map.
      apply (Sorted_rev (fun a b => confirmed a <= confirmed b)).
      eapply Sorted_map_in; [|exact Hsorted].
      intros i j Hi%Hvalid Hj%Hvalid Hij. cbn beta.
      assert (Hkey : forall k, (k < n)%nat ->
                confirmed (nth (nth k (rev (seq 0 n)) 0%nat) rows d0)
                = nth k (rev keys) 0).
      { intros k Hkn. rewrite (Hidx k Hkn).
        rewrite rev_nth by lia. rewrite Hk.
        rewrite (nth_indep keys 0 (confirmed d0)) by lia.
        unfold keys. by rewrite map_nth. }
      by rewrite (Hkey i Hi), (Hkey j Hj). }
  split; intros l; apply Hmain.
Qed.

Module SortFacts.
Import Instances.

Section Insertion.

Variable before : country_row -> country_row -> bool.
Hypothesis before_true : forall x y, before x y = true -> confirmed y <= confirmed x.
Hypothesis before_false : forall x y, before x y = false -> confirmed x <= confirmed y.

Lemma insert_by_perm x l : Permutation (insert_by before x l) (x :: l).
Proof.
  induction l as [|y t IH]; cbn; [done|].
  destruct (before x y); [done|].
  rewrite IH. apply perm_swap.
Qed.

Lemma insert_by_hdrel a x l :
  confirmed x <= confirmed a -> HdRel confirmed_ge a l ->
  HdRel confirmed_ge a (insert_by before x l).
Proof.
  intros Hxa Hal. destruct l as [|y t]; cbn.
  - by constructor.
  - destruct (before x y); constructor; [done|].
    by inversion Hal.
Qed.

Lemma insert_by_sorted x l :
  Sorted confirmed_ge l -> Sorted confirmed_ge (insert_by before x l).
Proof.
  induction 1 as [|y t Ht IH Hy]; cbn.
  - by repeat constructor.
  - destruct (before x y) eqn:Hb.
    + constructor; [by constructor|]. constructor. by apply before_true.
    + constructor; [done|]. apply insert_by_hdrel; [|done].
      by apply before_false.
Qed.

Lemma sort_by_spec : sort_values_spec (sort_by before).
Proof.
  split; intros l; induction l as [|x t IH]; cbn.
  - done.
  - by rewrite insert_by_perm, IH.
  - constructor.
  - by apply insert_by_sorted.
Qed.

End Insertion.

Lemma stable_sort_values_spec : sort_values_spec stable_sort_values.
Proof. apply sort_by_spec; intros x y H; lia. Qed.

Section IndexInsertion.

Variable keys : list Z.
Variable before : nat -> nat -> bool.
Hypothesis before_true :
  forall i j, before i j = true -> nth i keys 0 <= nth j keys 0.
Hypothesis before_false :
  forall i j, before i j = false -> nth j keys 0 <= nth i keys 0.

Lemma insert_index_perm i l : Permutation (insert_index before i l) (i :: l).
Proof.
  induction l as [|j t IH]; cbn; [done|].
  destruct (before i j); [done|].
  rewrite IH. apply perm_swap.
Qed.

Lemma insert_index_hdrel a i l :
  key_le keys a i -> HdRel (key_le keys) a l ->
  HdRel (key_le keys) a (insert_index before i l).
Proof.
  intros Hai Hal. destruct l as [|j t]; cbn.
  - by constructor.
  - destruct (before i j); constructor; [done|].
    by inversion Hal.
Qed.

Lemma insert_index_sorted i l :
  Sorted (key_le keys) l -> Sorted (key_le keys) (insert_index before i l).
Proof.
  induction 1 as [|j t Ht IH Hj]; cbn.
  - by repeat constructor.
  - destruct (before i j) eqn:Hb.
    + constructor; [by constructor|]. constructor. by apply before_true.
    + constructor; [done|]. apply insert_index_hdrel; [|done].
      by apply before_false.
Qed.

Lemma insertion_argsort (l : list nat) :
  Permutation (fold_right (insert_index before) [] l) l
  /\ Sorted (key_le keys) (fold_right (insert_index before) [] l).
Proof.
  induction l as [|i t [IHp IHs]]; cbn.
  - split; [done | constructor].
  - split; [by rewrite insert_index_perm, IHp | by apply insert_index_sorted].
Qed.

End IndexInsertion.

Lemma stable_argsort_spec : argsort_spec stable_argsort.
Proof.
  intros keys. apply (insertion_argsort keys); intros i j H; lia.
Qed.

Lemma unstable_argsort_spec : argsort_spec unstable_argsort.
Proof.
  intros keys. apply (insertion_argsort keys); intros i j H; lia.
Qed.

End SortFacts.
(** ** get_current *)

Lemma Sorted_adjacent (l : list country_row) (i : nat) (a b : country_row) :
  Sorted confirmed_ge l -> l !! i = Some a -> l !! S i = Some b ->
  confirmed a >= confirmed b.
Proof.
  intros Hs. revert i. induction Hs as [|x t Ht IH Hx]; intros i Ha Hb; [done|].
  destruct i as [|i]; cbn in Ha, Hb.
  - injection Ha as ->. destruct t as [|y t']; [done|].
    cbn in Hb. injection Hb as ->. inversion Hx; subst.
    unfold confirmed_ge in *. lia.
  - by apply (IH i).
Qed.

Lemma get_current_run (sort_values : list country_row -> list country_row)
    (self : NovelCoronaAPIv2) (h : heap) :
  get_current sort_values self h
  = (inr (scheme self),
     snd (set_data (scheme self)
            (VList (map country_dict (sort_values (df_grp_by_country self)))) h)).
Proof. reflexivity. Qed.

(** What [get_current] leaves in the response dictionary, with the
    records written out. *)
Lemma get_current_returned (sort_values : list country_row -> list country_row)
    (self : NovelCoronaAPIv2) (h : heap) :
  constructed self h ->
  returned id (get_current sort_values self h)
  = Some {| data := VList (map country_record (sort_values (df_grp_by_country self)));
            dt := datetime self; ts := timestamp self |}.
Proof.
  intros Hc. rewrite get_current_run. unfold returned.
  by rewrite (set_data_constructed _ _ _ Hc).
Qed.

(** C1 (as amended).  For every constructed service, with pandas' sort
    over any [argsort] that meets numpy's contract, the [data] of
    [get_current()] is the list of the per-country records
    [{location, confirmed, deaths, recovered, active}], one for each row
    of the aggregate, sorted by [confirmed] descending: for any two
    adjacent records, confirmed[i] >= confirmed[i+1].  Nothing is said
    of the order of records with equal [confirmed]. *)
Theorem get_current_sorted_by_confirmed
    (argsort : list Z -> list nat) (self : NovelCoronaAPIv2) (h : heap) :
  argsort_spec argsort ->
  constructed self h ->
  exists sorted : list country_row,
    returned id (get_current (sort_values_by_confirmed argsort) self h)
    = Some {| data := VList (map country_record sorted);
              dt := datetime self; ts := timestamp self |}
    /\ Permutation sorted (df_grp_by_country self)
    /\ forall i a b, sorted !! i = Some a -> sorted !! S i = Some b ->
                     confirmed a >= confirmed b.
Proof.
  intros Hargsort Hc.
  destruct (sort_values_by_confirmed_spec argsort Hargsort) as [Hperm Hsorted].
  exists (sort_values_by_confirmed argsort (df_grp_by_country self)).
  split; [by apply get_current_returned|].
  split; [apply Hperm|].
  intros i a b. apply Sorted_adjacent, Hsorted.
Qed.

(** ** The column sums *)

Lemma get_column_sum_returned (column : daily_row -> Z)
    (self : NovelCoronaAPIv2) (h : heap) :
  constructed self h ->
  returned data (get_column_sum column self h)
  = Some (VInt (column_sum column (df self))).
Proof.
  intros Hc. unfold get_column_sum. rewrite pack_run.
  by rewrite (returned_pack data _ _ _ Hc).
Qed.

Lemma column_sum_int64_sum (column : daily_row -> Z) (rows : list daily_row) :
  int64_sum (map column rows) (column_sum column rows).
Proof.
  rewrite column_sum_wrap. split; [done|]. apply wrap64_small.
Qed.

(** C2 (as amended).  For every constructed service, the four values in
    the [data] of [get_total()] are the [data] of [get_confirmed()],
    [get_deaths()], [get_recovered()] and [get_active()], each the sum
    of that column over the rows of the daily reports in 64-bit
    arithmetic: the low 64 bits of the integer sum, and the integer sum
    itself whenever that is a 64-bit integer. *)
Theorem get_total_agrees (self : NovelCoronaAPIv2) (h : heap) :
  constructed self h ->
  exists c d r a : Z,
    returned data (get_total self h)
    = Some (VDict [("confirmed", VInt c); ("deaths", VInt d);
                   ("recovered", VInt r); ("active", VInt a)])
    /\ returned data (get_confirmed self h) = Some (VInt c)
    /\ returned data (get_deaths self h) = Some (VInt d)
    /\ returned data (get_recovered self h) = Some (VInt r)
    /\ returned data (get_active self h) = Some (VInt a)
    /\ int64_sum (map Confirmed (df self)) c
    /\ int64_sum (map Deaths (df self)) d
    /\ int64_sum (map Recovered (df self)) r
    /\ int64_sum (map Active (df self)) a.
Proof.
  intros Hc.
  exists (column_sum Confirmed (df self)), (column_sum Deaths (df self)),
         (column_sum Recovered (df self)), (column_sum Active (df self)).
  split.
  { unfold get_total. rewrite pack_run. by rewrite (returned_pack data _ _ _ Hc). }
  unfold get_confirmed, get_deaths, get_recovered, get_active.
  rewrite !get_column_sum_returned by done.
  repeat split; try done; apply column_sum_int64_sum.
Qed.

(** ** get_country *)

Lemma str_in_In (x : string) (l : list string) : str_in x l = true <-> In x l.
Proof.
  unfold str_in. rewrite existsb_exists. split.
  - intros (y & Hy & Heq). apply String.eqb_eq in Heq. by subst.
  - intros Hx. exists x. split; [done|]. apply String.eqb_refl.
Qed.

Lemma filter_head_split {A} (f : A -> bool) (l : list A) (x : A) (rest : list A) :
  List.filter f l = x :: rest ->
  exists before after : list A,
    l = before ++ x :: after
    /\ Forall (fun y => f y = false) before
    /\ f x = true.
Proof.
  induction l as [|y t IH]; [done|]. cbn [List.filter].
  destruct (f y) eqn:Hy.
  - intros [= -> <-]. exists [], t. by repeat split.
  - intros H. destruct (IH H) as (before & after & -> & Hbefore & Hx).
    exists (y :: before), after. split; [done|]. split; [by constructor | done].
Qed.

Section GetCountry.

Variable str_lower : string -> string.
Variable str_upper : string -> string.
Variable sort_values : list country_row -> list country_row.

Lemma location_lower_country_dict (g : country_row) :
  location_lower str_lower (country_dict g) = inr (str_lower (location g)).
Proof. reflexivity. Qed.

Lemma mapM_location_lower (rows : list country_row) :
  mapM (location_lower str_lower) (map country_dict rows)
  = inr (lowered_locations str_lower rows).
Proof.
  induction rows as [|g t IH]; [done|].
  cbn [map mapM]. rewrite location_lower_country_dict. cbn [Result.bind].
  rewrite IH. reflexivity.
Qed.

Lemma matching_country_dict (name : string) (rows : list country_row) :
  matching str_lower name (map country_dict rows)
  = inr (map country_dict (rows_matching str_lower name rows)).
Proof.
  induction rows as [|g t IH]; [done|].
  cbn [map matching]. rewrite location_lower_country_dict. cbn [Result.bind].
  rewrite IH. cbn [Result.bind Result.ret rows_matching List.filter].
  by destruct (String.eqb (str_lower name) (str_lower (location g))).
Qed.

(** What a call of [get_country] does, step by step. *)
Lemma get_country_run (self : NovelCoronaAPIv2) (h : heap) (country_name : string) :
  constructed self h ->
  let rows := sort_values (df_grp_by_country self) in
  let h1 := snd (set_data (scheme self) (VList (map country_dict rows)) h) in
  get_country str_lower str_upper sort_values self country_name h
  = match resolve str_lower str_upper self rows country_name with
    | inl e => (inl e, h1)
    | inr name =>
        match rows_matching str_lower name rows with
        | [] => (inl IndexError, h1)
        | g :: _ => (inr (scheme self),
                     snd (set_data (scheme self) (country_dict g) h1))
        end
    end.
Proof.
  intros Hc rows h1. unfold get_country.
  unfold mbind at 1. rewrite get_current_run. fold rows. fold h1.
  unfold mbind at 1. unfold get_data at 1.
  unfold h1 at 1. rewrite (set_data_constructed _ _ _ Hc). fold h1.
  cbn [fmap option_fmap option_map data of_option].
  unfold mbind at 1, lift at 1. cbn [iter_list Result.ret].
  unfold mbind at 1, lift at 1. rewrite mapM_location_lower.
  unfold mbind at 1, lift at 1.
  fold (resolve str_lower str_upper self rows country_name).
  destruct (resolve str_lower str_upper self rows country_name) as [e|name];
    [done|].
  unfold mbind at 1, lift at 1. rewrite matching_country_dict.
  unfold mbind at 1, lift at 1.
  destruct (rows_matching str_lower name rows) as [|g t]; [done|].
  reflexivity.
Qed.

(** Whatever the sort and the tables: a name that is not written as one
    of the lowercased locations is looked up as a code, also when its
    lowercase form is one of them. *)
Lemma get_country_not_lowercase
    (self : NovelCoronaAPIv2) (h : heap) (country_name : string) :
  constructed self h ->
  ~ In country_name
       (lowered_locations str_lower (sort_values (df_grp_by_country self))) ->
  lookup_table self !! str_upper country_name = None ->
  fst (get_country str_lower str_upper sort_values self country_name h)
  = inl (KeyError (str_upper country_name)).
Proof.
  intros Hc Hnot Hmiss. rewrite (get_country_run _ _ _ Hc).
  unfold resolve.
  destruct (str_in country_name _) eqn:Hin.
  - apply str_in_In in Hin. contradiction.
  - cbn [negb]. rewrite Hmiss. reflexivity.
Qed.

Lemma lowered_locations_perm (l l' : list country_row) (x : string) :
  Permutation l l' ->
  In x (lowered_locations str_lower l) -> In x (lowered_locations str_lower l').
Proof.
  intros Hp. apply Permutation_in. unfold lowered_locations.
  by apply Permutation_map.
Qed.

End GetCountry.

Lemma example_constructed : constructed Examples.api Examples.store.
Proof. exists VNone. reflexivity. Qed.

Lemma example_init :
  init Instances.utc_timestamp Examples.daily_reports Examples.time_series
       Examples.US_time_series Examples.lookup ∅
  = (inr Examples.api, Examples.store).
Proof. vm_compute. reflexivity. Qed.

(** C3.  The first test of [get_country] compares the name as it was
    given with the lowercased locations.  On the example, the name
    "Thailand" has a case-insensitive match in the aggregate (its
    lowercase form is among the lowercased locations), and yet it is
    taken for a code: the call uppercases it, misses the lookup table and
    raises [KeyError].  The same name in lowercase, and the code of the
    country, both return the record. *)
Theorem get_country_capitalised_name_raises :
  In "Thailand" (map location (df_grp_by_country Examples.api))
  /\ In (Instances.lower "Thailand")
        (lowered_locations Instances.lower
           (Instances.stable_sort_values (df_grp_by_country Examples.api)))
  /\ fst (get_country Instances.lower Instances.upper
            Instances.stable_sort_values Examples.api "Thailand"
            Examples.store)
     = inl (KeyError "THAILAND")
  /\ returned data (get_country Instances.lower Instances.upper
                      Instances.stable_sort_values Examples.api
                      "thailand" Examples.store)
     = Some (country_dict Examples.thailand)
  /\ returned data (get_country Instances.lower Instances.upper
                      Instances.stable_sort_values Examples.api
                      "TH" Examples.store)
     = Some (country_dict Examples.thailand).
Proof.
  split; [cbv; tauto|]. split; [cbv; tauto|].
  repeat split; vm_compute; reflexivity.
Qed.

(** C4 (as amended).  For every country name present in the aggregate,
    asked for in lowercase (a string that [lower] leaves as it is), and
    every code that is not itself the lowercase form of a location and
    whose uppercase form the lookup table maps to that name,
    [get_country(name.lower())] and [get_country(code)] return the same
    [data]: the first record, in the order of [get_current()], whose
    location is the name up to case. *)
Theorem get_country_name_and_code
    (str_lower str_upper : string -> string)
    (sort_values : list country_row -> list country_row)
    (self : NovelCoronaAPIv2) (h : heap) (name code : string) :
  sort_values_spec sort_values ->
  constructed self h ->
  In name (map location (df_grp_by_country self)) ->
  str_lower (str_lower name) = str_lower name ->
  ~ In code (lowered_locations str_lower (df_grp_by_country self)) ->
  lookup_table self !! str_upper code = Some name ->
  exists (before after : list country_row) (g : country_row),
    returned data (get_current sort_values self h)
    = Some (VList (map country_record (before ++ g :: after)))
    /\ Forall (fun g' => str_lower (location g') <> str_lower name) before
    /\ str_lower (location g) = str_lower name
    /\ returned data (get_country str_lower str_upper sort_values self
                        (str_lower name) h)
       = Some (country_record g)
    /\ returned data (get_country str_lower str_upper sort_values self code h)
       = Some (country_record g).
Proof.
  intros [Hperm _] Hc Hname Hidem Hcode Hlookup.
  set (rows := sort_values (df_grp_by_country self)).
  assert (Hrows : Permutation rows (df_grp_by_country self)) by apply Hperm.
  apply in_map_iff in Hname as (g0 & Hg0 & Hin0).
  assert (Hin0' : In g0 rows).
  { eapply Permutation_in; [symmetry; exact Hrows | done]. }
  assert (Hne : In g0 (rows_matching str_lower name rows)).
  { apply filter_In. split; [done|]. rewrite Hg0. apply String.eqb_refl. }
  destruct (rows_matching str_lower name rows) as [|g rest] eqn:Hmatch; [done|].
  destruct (filter_head_split _ _ _ _ Hmatch)
    as (before & after & Hsplit & Hbefore & Hg).
  apply String.eqb_eq in Hg.
  exists before, after, g.
  assert (Hset : forall v h0, constructed self h0 ->
            returned data (inr (scheme self) : result loc,
                           snd (set_data (scheme self) v h0)) = Some v).
  { intros v h0 Hc0. unfold returned.
    by rewrite (set_data_constructed _ _ _ Hc0). }
  assert (Hc1 : constructed self
            (snd (set_data (scheme self) (VList (map country_dict rows)) h))).
  { eexists. by apply set_data_constructed. }
  split.
  { rewrite get_current_run. fold rows. rewrite Hsplit. by apply Hset. }
  split.
  { eapply Forall_impl; [exact Hbefore|]. intros g' Hg' Heq. cbn in Hg'.
    rewrite Heq, String.eqb_refl in Hg'. discriminate Hg'. }
  split; [done|].
  split.
  - rewrite (get_country_run _ _ _ _ _ _ Hc). fold rows. unfold resolve.
    assert (Hin : str_in (str_lower name) (lowered_locations str_lower rows)
                  = true).
    { apply str_in_In. unfold lowered_locations. apply in_map_iff.
      exists g0. by rewrite Hg0. }
    rewrite Hin. cbn [negb Result.ret].
    assert (Hsame : rows_matching str_lower (str_lower name) rows
                    = rows_matching str_lower name rows).
    { unfold rows_matching. by rewrite Hidem. }
    rewrite Hsame, Hmatch. by apply Hset.
  - rewrite (get_country_run _ _ _ _ _ _ Hc). fold rows. unfold resolve.
    assert (Hin : str_in code (lowered_locations str_lower rows) = false).
    { destruct (str_in code (lowered_locations str_lower rows)) eqn:E; [|done].
      apply str_in_In in E. exfalso. apply Hcode.
      by eapply lowered_locations_perm. }
    rewrite Hin, Hlookup. cbn [negb of_option].
    rewrite Hmatch. by apply Hset.
Qed.

(** ** get_time_series and get_US_time_series: the case argument *)

(** C5.  For every [case] that is neither "global" nor a key of the
    global time series, [get_time_series(case)] fails with the error of
    the lookup of [case], the [UnknownCase] of the taxonomy; the store is
    left as it was. *)
Theorem get_time_series_unknown_case
    (int_of_str : string -> option Z) (float_of_str : string -> option value)
    (self : NovelCoronaAPIv2) (h : heap) (case : string) :
  case <> "global" ->
  dict_get (df_time_series self) case = None ->
  get_time_series int_of_str float_of_str self case h
  = (inl (UnknownCase case), h).
Proof.
  intros Hg Hmiss. unfold get_time_series, mbind, lift, str_in.
  cbn [existsb]. apply String.eqb_neq in Hg. rewrite Hg. cbn [orb negb].
  unfold dict_item. rewrite Hmiss. reflexivity.
Qed.

(** C6.  For every [case] other than "confirmed" and "deaths",
    [get_US_time_series(case)] does not fail: it returns the response
    dictionary with the empty list as [data] and the [dt] and [ts] of
    the construction. *)
Theorem get_US_time_series_other_case
    (int_of_str : string -> option Z) (float_of_str : string -> option value)
    (self : NovelCoronaAPIv2) (h : heap) (case : string) :
  constructed self h ->
  case <> "confirmed" -> case <> "deaths" ->
  fst (get_US_time_series int_of_str float_of_str self case h)
  = inr (scheme self)
  /\ returned id (get_US_time_series int_of_str float_of_str self case h)
     = Some {| data := VList []; dt := datetime self; ts := timestamp self |}.
Proof.
  intros Hc H1 H2. unfold get_US_time_series, str_in.
  cbn [existsb]. apply String.eqb_neq in H1, H2. rewrite H1, H2.
  cbn [orb negb]. unfold mbind at 1, lift at 1. cbn [Result.ret].
  rewrite pack_run. split; [done|]. by apply returned_pack.
Qed.

(** ** Construction *)

Lemma ascii_compare_lt_trans (a b c : ascii) :
  Ascii.compare a b = Lt -> Ascii.compare b c = Lt -> Ascii.compare a c = Lt.
Proof.
  unfold Ascii.compare. rewrite !N.compare_lt_iff. apply N.lt_trans.
Qed.

Lemma string_compare_lt_trans (a b c : string) :
  String.compare a b = Lt -> String.compare b c = Lt -> String.compare a c = Lt.
Proof.
  revert b c. induction a as [|x a IH]; intros [|y b] [|z c]; cbn; try done.
  destruct (Ascii.compare x y) eqn:Hxy; try done.
  - apply Ascii.compare_eq_iff in Hxy. subst y.
    destruct (Ascii.compare x z); try done. apply IH.
  - destruct (Ascii.compare y z) eqn:Hyz; try done.
    + apply Ascii.compare_eq_iff in Hyz. subst z. by rewrite Hxy.
    + by rewrite (ascii_compare_lt_trans _ _ _ Hxy Hyz).
Qed.

Lemma string_ltb_trans (a b c : string) :
  String.ltb a b = true -> String.ltb b c = true -> String.ltb a c = true.
Proof.
  unfold String.ltb. intros Hab Hbc.
  destruct (String.compare a b) eqn:E1; try done.
  destruct (String.compare b c) eqn:E2; try done.
  by rewrite (string_compare_lt_trans _ _ _ E1 E2).
Qed.

Lemma string_ltb_irrefl (a : string) : String.ltb a a = false.
Proof.
  unfold String.ltb. destruct (String.compare a a) eqn:E; try done.
  pose proof (String.compare_antisym a a) as H. rewrite E in H. done.
Qed.

Lemma fold_max_greatest (t : list string) (x : string) (seen : list string) :
  greatest x (x :: seen) ->
  greatest (fold_left (fun m s => if String.ltb m s then s else m) t x)
           (x :: seen ++ t).
Proof.
  revert x seen. induction t as [|s t IH]; intros x seen Hx.
  - by rewrite app_nil_r.
  - cbn [fold_left]. destruct (String.ltb x s) eqn:Hlt.
    + assert (Hs : greatest s (s :: (x :: seen))).
      { split; [by left|]. intros u [<-|Hu]; [apply string_ltb_irrefl|].
        destruct (String.ltb s u) eqn:Hsu; [|done].
        rewrite <- (proj2 Hx u Hu). symmetry.
        by apply (string_ltb_trans x s u). }
      destruct (IH s (x :: seen) Hs) as [Hin Hmax]. split.
      * cbn in Hin. rewrite in_app_iff in Hin. cbn. rewrite in_app_iff. cbn.
        tauto.
      * intros u Hu. apply Hmax. cbn in Hu. rewrite in_app_iff in Hu.
        cbn in Hu. cbn. rewrite in_app_iff. tauto.
    + assert (Hs : greatest x (x :: (seen ++ [s]))).
      { split; [by left|]. intros u [<-|Hu]; [apply string_ltb_irrefl|].
        apply in_app_iff in Hu as [Hu|[<-|[]]]; [|done].
        apply (proj2 Hx). by right. }
      specialize (IH x (seen ++ [s]) Hs). by rewrite <- app_assoc in IH.
Qed.

Lemma py_max_greatest (l : list string) (m : string) :
  py_max l = inr m -> greatest m l.
Proof.
  destruct l as [|x t]; [done|]. cbn. intros [= <-].
  apply (fold_max_greatest t x []).
  split; [by left|]. intros u [<-|[]]. apply string_ltb_irrefl.
Qed.

Lemma py_max_empty (l : list string) (e : exn) :
  py_max l = inl e -> l = [] /\ e = EmptyDataset.
Proof. destruct l; [by intros [= <-]|done]. Qed.

(** C7 (as amended).  Construction fails with [EmptyDataset] when the
    daily reports have no row.  Otherwise it reads the greatest
    [Last_Update] string of the rows, and only that one: it fails with
    [MalformedTimestamp] when that string does not match the format, and
    otherwise succeeds with [dt] that string and [ts] its timestamp. *)
Theorem init_outcome (strptime_timestamp : string -> option Q)
    (daily_reports : list daily_row) (time_series US_time_series : dict table)
    (lookup : gmap string string) (h : heap) :
  match py_max (map Last_Update daily_reports) with
  | inl _ =>
      daily_reports = []
      /\ init strptime_timestamp daily_reports time_series US_time_series lookup h
         = (inl EmptyDataset, h)
  | inr latest =>
      greatest latest (map Last_Update daily_reports)
      /\ match strptime_timestamp latest with
         | None =>
             init strptime_timestamp daily_reports time_series US_time_series
                  lookup h
             = (inl (MalformedTimestamp latest), h)
         | Some stamp =>
             exists self h',
               init strptime_timestamp daily_reports time_series US_time_series
                    lookup h
               = (inr self, h')
               /\ datetime self = latest /\ timestamp self = stamp
               /\ df_grp_by_country self = groupby_sum daily_reports
               /\ h !! scheme self = None
               /\ h' = <[scheme self := {| data := VNone; dt := latest; ts := stamp |}]> h
         end
  end.
Proof.
  unfold init. rewrite mbind_lift.
  destruct (py_max (map Last_Update daily_reports)) as [e|latest] eqn:Hmax.
  - apply py_max_empty in Hmax as [Hnil ->].
    split; [by destruct daily_reports | reflexivity].
  - split; [by apply py_max_greatest|].
    rewrite mbind_lift.
    destruct (strptime_timestamp latest) as [stamp|]; [|reflexivity].
    cbn [of_option].
    unfold mbind, alloc, mret. eexists _, _. split; [reflexivity|].
    cbn [datetime timestamp df_grp_by_country scheme].
    repeat split; try done.
    apply not_elem_of_dom, is_fresh.
Qed.

(** The claim of C7 fails as it is stated: a row whose [Last_Update] does
    not match the format does not stop the construction unless it is the
    greatest. *)
Lemma init_reads_only_the_latest :
  (exists r, In r Examples.stale_reports
             /\ Instances.utc_timestamp (Last_Update r) = None)
  /\ exists self h,
       init Instances.utc_timestamp Examples.stale_reports [] [] ∅ ∅
       = (inr self, h)
       /\ dt <$> h !! scheme self = Some "2020-03-14 10:00:00".
Proof.
  split.
  - exists (Examples.report "Y" "2020-03-13" 3 0 1 2). split; [cbn; tauto|].
    vm_compute. reflexivity.
  - eexists _, _. split; [vm_compute; reflexivity|]. vm_compute. reflexivity.
Qed.

(** What a construction that succeeds leaves: the attributes of the
    object and one new dictionary in the store. *)
Lemma init_run (strptime_timestamp : string -> option Q)
    (daily_reports : list daily_row) (time_series US_time_series : dict table)
    (lookup : gmap string string) (h h' : heap) (self : NovelCoronaAPIv2) :
  init strptime_timestamp daily_reports time_series US_time_series lookup h
  = (inr self, h') ->
  df self = daily_reports
  /\ df_time_series self = time_series
  /\ df_US_time_series self = US_time_series
  /\ lookup_table self = lookup
  /\ df_grp_by_country self = groupby_sum daily_reports
  /\ py_max (map Last_Update daily_reports) = inr (datetime self)
  /\ strptime_timestamp (datetime self) = Some (timestamp self)
  /\ h !! scheme self = None
  /\ h' = <[scheme self := {| data := VNone; dt := datetime self;
                              ts := timestamp self |}]> h.
Proof.
  unfold init. rewrite mbind_lift.
  destruct (py_max (map Last_Update daily_reports)) as [e|latest]; [done|].
  rewrite mbind_lift.
  destruct (strptime_timestamp latest) as [stamp|] eqn:Hstamp; [|done].
  cbn [of_option]. unfold mbind, alloc, mret. intros [= <- <-].
  cbn [df df_time_series df_US_time_series lookup_table df_grp_by_country
       datetime timestamp scheme].
  repeat split; try done. apply not_elem_of_dom, is_fresh.
Qed.

Lemma init_constructed (strptime_timestamp : string -> option Q)
    (daily_reports : list daily_row) (time_series US_time_series : dict table)
    (lookup : gmap string string) (h h' : heap) (self : NovelCoronaAPIv2) :
  init strptime_timestamp daily_reports time_series US_time_series lookup h
  = (inr self, h') ->
  constructed self h'
  /\ py_max (map Last_Update daily_reports) = inr (datetime self)
  /\ strptime_timestamp (datetime self) = Some (timestamp self).
Proof.
  intros Hinit.
  apply init_run in Hinit as (_ & _ & _ & _ & _ & Hmax & Hstamp & _ & ->).
  split; [|done]. exists VNone. apply lookup_insert_eq.
Qed.

(** ** The shared response dictionary *)

Lemma only_data_changed_refl (l : loc) (h : heap) : only_data_changed l h h.
Proof.
  split; [done|]. intros [v d t] He. by exists v.
Qed.

Lemma only_data_changed_trans (l : loc) (h1 h2 h3 : heap) :
  only_data_changed l h1 h2 -> only_data_changed l h2 h3 ->
  only_data_changed l h1 h3.
Proof.
  intros [Ho12 Hl12] [Ho23 Hl23]. split.
  - intros l' Hne. by rewrite Ho23, Ho12.
  - intros e He. destruct (Hl12 e He) as [v Hv].
    destruct (Hl23 _ Hv) as [v' Hv']. by exists v'.
Qed.

Lemma only_data_changed_set_data (l : loc) (v : value) (h : heap) :
  only_data_changed l h (snd (set_data l v h)).
Proof.
  split.
  - intros l' Hne. by apply set_data_other.
  - intros e He. exists v. by apply set_data_lookup.
Qed.

Lemma only_data_changed_constructed (self : NovelCoronaAPIv2) (h h' : heap) :
  constructed self h -> only_data_changed (scheme self) h h' ->
  constructed self h'.
Proof.
  intros [v Hv] [_ Hl]. destruct (Hl _ Hv) as [v' Hv']. by exists v'.
Qed.

Section Calls.

Variable str_lower : string -> string.
Variable str_upper : string -> string.
Variable sort_values : list country_row -> list country_row.
Variable int_of_str : string -> option Z.
Variable float_of_str : string -> option value.

Lemma pack_ok (self : NovelCoronaAPIv2) (v : value) (h : heap) :
  call_ok self h ((let! _ := set_data (scheme self) v in mret (scheme self)) h).
Proof.
  rewrite pack_run. split; [by intros l [= <-]|].
  apply only_data_changed_set_data.
Qed.

Lemma lift_pack_ok {A} (self : NovelCoronaAPIv2) (r : result A)
    (f : A -> value) (h : heap) :
  call_ok self h
    ((let! d := lift r in
      let! _ := set_data (scheme self) (f d) in mret (scheme self)) h).
Proof.
  rewrite mbind_lift. destruct r as [e|d]; [|apply pack_ok].
  split; [done|]. apply only_data_changed_refl.
Qed.

Lemma call_call_ok (self : NovelCoronaAPIv2) (q : query) (h : heap) :
  constructed self h ->
  call_ok self h (call str_lower str_upper sort_values int_of_str float_of_str self q h).
Proof.
  intros Hc. destruct q as [|name| | | | | |case|case]; cbn [call].
  - apply pack_ok.
  - rewrite (get_country_run _ _ _ _ _ _ Hc).
    pose proof (only_data_changed_set_data (scheme self)
      (VList (map country_dict (sort_values (df_grp_by_country self)))) h)
      as H1.
    destruct (resolve _ _ _) as [e|name']; [by split|].
    destruct (rows_matching _ _) as [|g t]; [by split|].
    split; [by intros l [= <-]|].
    eapply only_data_changed_trans; [exact H1|].
    apply only_data_changed_set_data.
  - apply pack_ok.
  - apply pack_ok.
  - apply pack_ok.
  - apply pack_ok.
  - apply pack_ok.
  - unfold get_time_series. apply (lift_pack_ok self _ VList).
  - unfold get_US_time_series. apply (lift_pack_ok self _ VList).
Qed.

Lemma calls_ok (self : NovelCoronaAPIv2) (qs : list query) (h : heap) :
  constructed self h ->
  Forall (fun r => forall l, r = inr l -> l = scheme self)
         (fst (calls str_lower str_upper sort_values int_of_str float_of_str self qs h))
  /\ only_data_changed (scheme self) h
       (snd (calls str_lower str_upper sort_values int_of_str float_of_str self qs h)).
Proof.
  revert h. induction qs as [|q qs IH]; intros h Hc; cbn [calls].
  - split; [constructor | apply only_data_changed_refl].
  - pose proof (call_call_ok self q h Hc) as [Hr Hh].
    destruct (call str_lower str_upper sort_values int_of_str float_of_str self q h) as [r h1].
    cbn [fst snd] in Hr, Hh.
    pose proof (only_data_changed_constructed _ _ _ Hc Hh) as Hc1.
    destruct (IH h1 Hc1) as [Hrs Hhs].
    destruct (calls str_lower str_upper sort_values int_of_str float_of_str self qs h1) as [rs h2].
    cbn [fst snd] in *. split; [by constructor|].
    by eapply only_data_changed_trans.
Qed.

End Calls.

(** C9.  After construction, whatever calls follow: every call that
    returns, returns the response dictionary made at construction; in the
    end that dictionary still has the [dt] and [ts] of the construction,
    the greatest [Last_Update] of the daily reports and its timestamp;
    and nothing else in the store has changed. *)
Theorem calls_share_the_scheme
    (strptime_timestamp : string -> option Q)
    (str_lower str_upper : string -> string)
    (sort_values : list country_row -> list country_row)
    (int_of_str : string -> option Z) (float_of_str : string -> option value)
    (daily_reports : list daily_row) (time_series US_time_series : dict table)
    (lookup : gmap string string) (h0 h1 h2 : heap)
    (self : NovelCoronaAPIv2) (qs : list query) (rs : list (result loc)) :
  init strptime_timestamp daily_reports time_series US_time_series lookup h0
  = (inr self, h1) ->
  calls str_lower str_upper sort_values int_of_str float_of_str self qs h1 = (rs, h2) ->
  Forall (fun r => forall l, r = inr l -> l = scheme self) rs
  /\ (exists v, h2 !! scheme self
                = Some {| data := v; dt := datetime self; ts := timestamp self |})
  /\ py_max (map Last_Update daily_reports) = inr (datetime self)
  /\ strptime_timestamp (datetime self) = Some (timestamp self)
  /\ (forall l, l <> scheme self -> h2 !! l = h1 !! l).
Proof.
  intros Hinit Hcalls.
  apply init_constructed in Hinit as (Hc & Hmax & Hstamp).
  pose proof (calls_ok str_lower str_upper sort_values int_of_str float_of_str
                self qs h1 Hc)
    as [Hrs Hh].
  rewrite Hcalls in Hrs, Hh. cbn [fst snd] in Hrs, Hh.
  split; [done|]. split.
  { by apply (only_data_changed_constructed _ _ _ Hc Hh). }
  repeat split; try done. apply Hh.
Qed.

(** The caller of an earlier call sees the data of a later one in the
    object it was given. *)
Lemma earlier_result_is_overwritten (self : NovelCoronaAPIv2) (h : heap) :
  constructed self h ->
  let '(r1, h1) := get_confirmed self h in
  let '(r2, h2) := get_deaths self h1 in
  r1 = r2
  /\ returned data (r1, h1) = Some (VInt (column_sum Confirmed (df self)))
  /\ returned data (r1, h2) = Some (VInt (column_sum Deaths (df self))).
Proof.
  intros Hc. unfold get_confirmed, get_deaths, get_column_sum.
  rewrite !pack_run. split; [done|].
  split; apply (returned_pack data); [done|].
  by apply set_data_keeps_constructed.
Qed.

(** ** Dictionaries *)

Lemma dict_keys_set {A} (d : dict A) (k : string) (v : A) :
  dict_keys (dict_set d k v)
  = if str_in k (dict_keys d) then dict_keys d else dict_keys d ++ [k].
Proof.
  induction d as [|[k' v'] t IH]; [done|].
  unfold str_in, dict_keys in *. simpl.
  destruct (String.eqb k k') eqn:E; simpl.
  - apply String.eqb_eq in E. by subst.
  - rewrite IH. by destruct (existsb (String.eqb k) (map fst t)).
Qed.

Lemma dict_set_fresh {A} (d : dict A) (k : string) (v : A) :
  ~ In k (dict_keys d) -> dict_set d k v = d ++ [(k, v)].
Proof.
  induction d as [|[k' v'] t IH]; [done|]. cbn. intros Hk.
  destruct (String.eqb k k') eqn:E.
  - apply String.eqb_eq in E. subst k'. exfalso. apply Hk. by left.
  - rewrite IH; [done|]. intros Hin. apply Hk. by right.
Qed.

Lemma dict_set_NoDup {A} (d : dict A) (k : string) (v : A) :
  NoDup (dict_keys d) -> NoDup (dict_keys (dict_set d k v)).
Proof.
  intros Hd. rewrite dict_keys_set. destruct (str_in k (dict_keys d)) eqn:E; [done|].
  apply NoDup_app.
  split; [done|]. split; [|apply NoDup_singleton].
  intros x Hx ->%list_elem_of_singleton.
  apply list_elem_of_In, str_in_In in Hx. congruence.
Qed.

Lemma dict_get_In {A} (d : dict A) (k : string) (v : A) :
  NoDup (dict_keys d) -> In (k, v) d -> dict_get d k = Some v.
Proof.
  induction d as [|[k' v'] t IH]; [done|]. cbn.
  intros [Hk' Ht]%NoDup_cons [[= -> ->]|Hin].
  - by rewrite String.eqb_refl.
  - destruct (String.eqb k k') eqn:E; [|by apply IH].
    apply String.eqb_eq in E. subst k'. exfalso. apply Hk'.
    apply list_elem_of_In, in_map_iff. by exists (k, v).
Qed.

Lemma dict_get_Some_In {A} (d : dict A) (k : string) (v : A) :
  dict_get d k = Some v -> In (k, v) d.
Proof.
  induction d as [|[k' v'] t IH]; [done|]. cbn.
  destruct (String.eqb k k') eqn:E.
  - apply String.eqb_eq in E. intros [= ->]. left. by subst.
  - intros H. right. by apply IH.
Qed.

Lemma fold_dict_set_NoDup {A} (l : list (string * A)) (d : dict A) :
  NoDup (dict_keys d) ->
  NoDup (dict_keys (fold_left (fun d kv => dict_set d (fst kv) (snd kv)) l d)).
Proof.
  revert d. induction l as [|kv l IH]; intros d Hd; [done|].
  cbn [fold_left]. apply IH. by apply dict_set_NoDup.
Qed.

Lemma row_dict_NoDup (cols : list string) (row : list value) :
  NoDup (dict_keys (row_dict cols row)).
Proof. apply fold_dict_set_NoDup, NoDup_nil_2. Qed.

Lemma fold_dict_set_keys {A} (l : list (string * A)) (d : dict A) :
  dict_keys (fold_left (fun d kv => dict_set d (fst kv) (snd kv)) l d)
  = fold_left (fun acc x => if str_in x acc then acc else acc ++ [x])
              (map fst l) (dict_keys d).
Proof.
  revert d. induction l as [|kv l IH]; intros d; [done|].
  cbn [fold_left map]. by rewrite IH, dict_keys_set.
Qed.

(** The keys of the dictionary of a row are the labels of its columns, in
    column order (a label that occurs twice is kept where it occurs
    first). *)
Lemma row_dict_keys (cols : list string) (row : list value) :
  dict_keys (row_dict cols row) = first_occurrences (map fst (combine cols row)).
Proof. apply fold_dict_set_keys. Qed.

Lemma map_fst_combine_full {A B} (l : list A) (k : list B) :
  length k = length l -> map fst (combine l k) = l.
Proof.
  revert k. induction l as [|x l IH]; intros [|y k]; cbn; try done.
  intros [= Hlen]. by rewrite IH.
Qed.

Lemma fold_dict_set_distinct {A} (l : list (string * A)) (d : dict A) :
  NoDup (dict_keys d ++ map fst l) ->
  fold_left (fun d kv => dict_set d (fst kv) (snd kv)) l d = d ++ l.
Proof.
  revert d. induction l as [|[k v] l IH]; intros d Hd; cbn [fold_left fst snd].
  - by rewrite app_nil_r.
  - cbn [map fst] in Hd. rewrite dict_set_fresh.
    + rewrite IH; [by rewrite <- app_assoc|].
      unfold dict_keys. rewrite map_app. cbn [map fst].
      by rewrite <- app_assoc.
    + apply NoDup_app in Hd as (_ & Hd & _). intros Hk%list_elem_of_In.
      apply (Hd k Hk). by left.
Qed.

(** In a frame whose column labels are distinct, the dictionary of a row
    has the columns in their order, each with the cell of the row. *)
Lemma row_dict_distinct (cols : list string) (row : list value) :
  NoDup cols -> length row = length cols ->
  row_dict cols row = combine cols row.
Proof.
  intros Hnd Hlen. unfold row_dict.
  rewrite fold_dict_set_distinct; [done|]. cbn [dict_keys map app].
  by rewrite map_fst_combine_full.
Qed.

(** ** The records of the US time series *)

Ltac bind_inv H :=
  repeat match type of H with
    | Result.bind ?c _ = inr _ =>
        let E := fresh "E" in
        destruct c eqn:E; cbn [Result.bind] in H; [discriminate H|]
    end.

Lemma mapM_Forall2 {A B} (f : A -> result B) (l : list A) (l' : list B) :
  mapM f l = inr l' -> Forall2 (fun x y => f x = inr y) l l'.
Proof.
  revert l'. induction l as [|x t IH]; intros l' H; cbn [mapM] in H.
  - injection H as <-. constructor.
  - bind_inv H. injection H as <-. constructor; [done|]. by apply IH.
Qed.

Section Records.

Variable int_of_str : string -> option Z.
Variable float_of_str : string -> option value.

Lemma py_int_cell (v : value) (n : Z) :
  py_int int_of_str v = inr n -> int_of_cell int_of_str v n.
Proof.
  intros H. split; [done|]. split.
  - intros z ->. by injection H.
  - intros q ->. by injection H.
Qed.

Lemma py_float_cell (v x : value) :
  py_float float_of_str v = inr x -> float_of_cell float_of_str v x.
Proof.
  intros H. split; [done|]. split.
  - intros q ->. by injection H.
  - intros ->. by injection H.
Qed.

Lemma int_items_spec (excluded_cols : list string)
    (items : list (string * value)) (acc temp : dict Z) :
  NoDup (dict_keys acc ++ map fst items) ->
  int_items int_of_str excluded_cols items acc = inr temp ->
  exists series : dict Z,
    temp = acc ++ series
    /\ dict_keys series = List.filter (kept excluded_cols) (map fst items)
    /\ Forall (fun kz => exists v, In (fst kz, v) items
                                   /\ py_int int_of_str v = inr (snd kz)) series.
Proof.
  revert acc. induction items as [|[k v] t IH]; intros acc Hnd H; cbn [int_items] in H.
  - injection H as <-. exists []. by rewrite app_nil_r.
  - cbn [map fst List.filter]. unfold kept at 1.
    assert (Ht : NoDup (dict_keys acc ++ map fst t)).
    { apply NoDup_app in Hnd as (Ha & Hd & [_ Ht']%NoDup_cons).
      apply NoDup_app. split; [done|]. split; [|done].
      intros x Hx Hxt. apply (Hd x Hx). by right. }
    destruct (str_in k excluded_cols); cbn [negb].
    + destruct (IH acc Ht H) as (series & -> & Hkeys & Hall).
      exists series. split; [done|]. split; [done|].
      eapply Forall_impl; [exact Hall|]. intros kz (v' & Hin & Hv').
      exists v'. split; [by right | done].
    + destruct (py_int int_of_str v) as [e|b] eqn:Hb;
        cbn [Result.bind] in H; [done|].
      assert (Hfresh : ~ In k (dict_keys acc)).
      { apply NoDup_app in Hnd as (_ & Hd & _). intros Hk%list_elem_of_In.
        apply (Hd k Hk). by left. }
      rewrite (dict_set_fresh _ _ _ Hfresh) in H.
      assert (Hnd' : NoDup (dict_keys (acc ++ [(k, b)]) ++ map fst t)).
      { unfold dict_keys. rewrite map_app. cbn [map fst].
        by rewrite <- app_assoc. }
      destruct (IH _ Hnd' H) as (series & -> & Hkeys & Hall).
      exists ((k, b) :: series). split; [by rewrite <- app_assoc|].
      split; [cbn; by rewrite <- Hkeys|].
      constructor.
      * exists v. split; [by left | done].
      * eapply Forall_impl; [exact Hall|]. intros kz (v' & Hin & Hv').
        exists v'. split; [by right | done].
Qed.

(** The [TimeSeries] of a row: one entry per column that is not
    excluded, in the order of the columns, with the integer read in
    the cell. *)
Lemma time_series_list_spec (excluded_cols : list string) (data : dict value)
    (entries : list value) :
  NoDup (dict_keys data) ->
  time_series_list int_of_str excluded_cols data = inr entries ->
  exists series : dict Z,
    entries = map date_value series
    /\ dict_keys series = List.filter (kept excluded_cols) (dict_keys data)
    /\ Forall (fun kz => exists v, dict_get data (fst kz) = Some v
                                   /\ int_of_cell int_of_str v (snd kz)) series.
Proof.
  intros Hnd H. unfold time_series_list in H.
  destruct (int_items int_of_str excluded_cols data []) as [e|b] eqn:E;
    cbn [Result.bind] in H; [done|].
  injection H as <-.
  destruct (int_items_spec excluded_cols data [] b Hnd E)
    as (series & -> & Hkeys & Hall).
  exists series. split; [done|]. split; [done|].
  eapply Forall_impl; [exact Hall|]. intros kz (v & Hin & Hv).
  exists v. split; [by apply dict_get_In | by apply py_int_cell].
Qed.

Lemma dict_item_inr {A} (d : dict A) (k : string) (v : A) :
  dict_item d k = inr v -> dict_get d k = Some v.
Proof. unfold dict_item. by destruct (dict_get d k); intros [= <-]. Qed.

Lemma float_item_inr (data : dict value) (k : string) (x : value) :
  float_item float_of_str data k = inr x ->
  exists cell, dict_get data k = Some cell /\ float_of_cell float_of_str cell x.
Proof.
  unfold float_item, dict_item. destruct (dict_get data k) as [cell|]; [|done].
  cbn. intros H. exists cell. split; [done|]. by apply py_float_cell.
Qed.

Lemma extract_US_time_series_row_spec (data : dict value) (record : value) :
  NoDup (dict_keys data) ->
  extract_US_time_series_row int_of_str float_of_str data = inr record ->
  US_record int_of_str float_of_str data record.
Proof.
  intros Hnd H. unfold extract_US_time_series_row in H.
  destruct (dict_item data "Province_State") as [|province] eqn:H1;
    cbn [Result.bind] in H; [done|].
  destruct (dict_item data "Country_Region") as [|country] eqn:H2;
    cbn [Result.bind] in H; [done|].
  destruct (dict_item data "UID") as [|uid] eqn:H3;
    cbn [Result.bind] in H; [done|].
  destruct (dict_item data "iso2") as [|iso2] eqn:H4;
    cbn [Result.bind] in H; [done|].
  destruct (dict_item data "iso3") as [|iso3] eqn:H5;
    cbn [Result.bind] in H; [done|].
  destruct (dict_item data "code3") as [|code3] eqn:H6;
    cbn [Result.bind] in H; [done|].
  destruct (dict_item data "FIPS") as [|fips] eqn:H7;
    cbn [Result.bind] in H; [done|].
  destruct (dict_item data "Admin2") as [|admin2] eqn:H8;
    cbn [Result.bind] in H; [done|].
  destruct (float_item float_of_str data "Lat") as [|lat] eqn:Hlat;
    cbn [Result.bind] in H; [done|].
  destruct (float_item float_of_str data "Long_") as [|long] eqn:Hlong;
    cbn [Result.bind] in H; [done|].
  destruct (time_series_list int_of_str _ data) as [|entries] eqn:Hts;
    cbn [Result.bind] in H; [done|].
  injection H as <-.
  apply dict_item_inr in H1, H2, H3, H4, H5, H6, H7, H8.
  apply float_item_inr in Hlat as (lat_cell & Hlat1 & Hlat2).
  apply float_item_inr in Hlong as (long_cell & Hlong1 & Hlong2).
  destruct (time_series_list_spec _ _ _ Hnd Hts) as (series & -> & Hkeys & Hall).
  exists province, country, uid, iso2, iso3, code3, fips, admin2,
         lat_cell, long_cell, lat, long, series.
  split; [reflexivity|].
  do 12 (split; [done|]). split; [done|].
  split; [|split; [|done]]; rewrite Hkeys; intros [_ Hk]%filter_In;
    vm_compute in Hk; discriminate.
Qed.

Lemma extract_time_series_row_spec (data : dict value) (record : value) :
  NoDup (dict_keys data) ->
  extract_time_series_row int_of_str float_of_str data = inr record ->
  time_series_record int_of_str float_of_str data record.
Proof.
  intros Hnd H. unfold extract_time_series_row in H.
  destruct (dict_item data "Province/State") as [|province] eqn:Hp;
    cbn [Result.bind] in H; [done|].
  destruct (dict_item data "Country/Region") as [|country] eqn:Hcr;
    cbn [Result.bind] in H; [done|].
  destruct (float_item float_of_str data "Lat") as [|lat] eqn:Hlat;
    cbn [Result.bind] in H; [done|].
  destruct (float_item float_of_str data "Long") as [|long] eqn:Hlong;
    cbn [Result.bind] in H; [done|].
  destruct (time_series_list int_of_str _ data) as [|entries] eqn:Hts;
    cbn [Result.bind] in H; [done|].
  injection H as <-.
  apply dict_item_inr in Hp, Hcr.
  apply float_item_inr in Hlat as (lat_cell & Hlat1 & Hlat2).
  apply float_item_inr in Hlong as (long_cell & Hlong1 & Hlong2).
  destruct (time_series_list_spec _ _ _ Hnd Hts) as (series & -> & Hkeys & Hall).
  by exists province, country, lat_cell, long_cell, lat, long, series.
Qed.

End Records.

(** C10.  For "confirmed" and for "deaths", when [get_US_time_series]
    returns, its [data] has one record per row of the table of that
    case, in row order.  Each record has exactly the keys
    [Province_State], [Country_Region], [Info], [Coordinates] and
    [TimeSeries].  The first two hold the cells of the row; [Info] holds
    the cells of the six identifiers; [Coordinates] holds [float] of the
    cells [Lat] and [Long_].  [TimeSeries] has one entry
    [{'date': k, 'value': v}] for every column [k] of the row that is
    not excluded, in column order (the keys of the dictionary of the row
    are its column labels in that order), with [v] the [int] of the
    cell of that column; [Combined_Key] and [Population] are excluded,
    so they are no dates, and they are no keys of the record or of
    [Info]. *)
Theorem get_US_time_series_records
    (int_of_str : string -> option Z) (float_of_str : string -> option value)
    (self : NovelCoronaAPIv2) (h h' : heap) (case : string) (l : loc) :
  constructed self h ->
  case = "confirmed" \/ case = "deaths" ->
  get_US_time_series int_of_str float_of_str self case h = (inr l, h') ->
  exists (frame : table) (records : list value),
    dict_get (df_US_time_series self) case = Some frame
    /\ h' !! l = Some {| data := VList records;
                         dt := datetime self; ts := timestamp self |}
    /\ Forall2 (fun row record =>
                  dict_keys (row_dict (columns frame) row)
                  = first_occurrences (map fst (combine (columns frame) row))
                  /\ US_record int_of_str float_of_str
                                (row_dict (columns frame) row) record)
               (rows frame) records.
Proof.
  intros Hc Hcase Hrun. unfold get_US_time_series in Hrun.
  assert (Hin : str_in case ["confirmed"; "deaths"] = true).
  { apply str_in_In. cbn. destruct Hcase; auto. }
  rewrite Hin in Hrun. cbn [negb] in Hrun. rewrite mbind_lift in Hrun.
  unfold dict_item in Hrun.
  destruct (dict_get (df_US_time_series self) case) as [frame|]; [|done].
  cbn [of_option Result.bind] in Hrun.
  destruct (extract_US_time_series _ _ _) as [e|records] eqn:Hext; [done|].
  rewrite pack_run in Hrun. injection Hrun as <- <-.
  exists frame, records. split; [done|].
  split; [by apply set_data_constructed|].
  apply mapM_Forall2 in Hext. unfold T_to_dict_values in Hext.
  apply Forall2_fmap_l in Hext.
  eapply Forall2_impl; [exact Hext|]. intros row record Hrow. cbn in Hrow.
  split; [apply row_dict_keys|].
  eapply extract_US_time_series_row_spec; [apply row_dict_NoDup | exact Hrow].
Qed.

(** ** The global time series *)

Lemma fold_dict_set_images {A B} (key : B -> string) (val : B -> A)
    (l : list B) (d : dict A) :
  NoDup (dict_keys d ++ map key l) ->
  fold_left (fun d x => dict_set d (key x) (val x)) l d
  = d ++ map (fun x => (key x, val x)) l.
Proof.
  revert d. induction l as [|x l IH]; intros d Hd; cbn [fold_left map].
  - by rewrite app_nil_r.
  - cbn [map] in Hd. rewrite dict_set_fresh.
    + rewrite IH; [by rewrite <- app_assoc|].
      unfold dict_keys. rewrite map_app. cbn [map fst].
      by rewrite <- app_assoc.
    + apply NoDup_app in Hd as (_ & Hd & _). intros Hk%list_elem_of_In.
      apply (Hd _ Hk). by left.
Qed.

Lemma fold_left_add_shift (l : list Z) (a : Z) :
  fold_left Z.add l a = a + fold_left Z.add l 0.
Proof.
  revert a. induction l as [|x t IH]; intros a; cbn [fold_left]; [lia|].
  rewrite (IH (a + x)), (IH (0 + x)). lia.
Qed.

Lemma fold_left_add_fold_right (l : list Z) :
  fold_left Z.add l 0 = fold_right Z.add 0 l.
Proof.
  induction l as [|x t IH]; [done|].
  cbn [fold_left fold_right]. rewrite fold_left_add_shift, IH. lia.
Qed.

Lemma nth_drop {A} (n j : nat) (l : list A) (d : A) :
  nth j (drop n l) d = nth (n + j) l d.
Proof.
  revert l. induction n as [|n IH]; intros [|x l]; cbn; try done.
  by destruct j.
Qed.

Lemma Forall2_same_length {A B} (P : A -> B -> Prop) (l : list A) (k : list B) :
  Forall2 P l k -> length l = length k.
Proof. induction 1; cbn; congruence. Qed.

Section Global.

Variable int_of_str : string -> option Z.

Lemma column_total_spec (t : table) (j : nat) (z : Z) :
  column_total int_of_str (iloc_from 4 t) j = inr z ->
  int32_column_sum int_of_str t (4 + j) z.
Proof.
  unfold column_total. intros H.
  destruct (mapM _ _) as [e|cells] eqn:Hcells; cbn [Result.bind] in H; [done|].
  injection H as <-. exists cells. split; [|apply fold_left_add_fold_right].
  apply mapM_Forall2 in Hcells. unfold column_cells, iloc_from in Hcells.
  cbn [rows] in Hcells. rewrite map_map in Hcells.
  apply Forall2_fmap_l in Hcells.
  eapply Forall2_impl; [exact Hcells|]. intros row c Hc. cbn in Hc.
  by rewrite nth_drop in Hc.
Qed.

(** The series of one case: the date labels with their totals. *)
Lemma date_totals_spec (t : table) (series : list (string * Z)) :
  date_totals int_of_str t = inr series ->
  exists totals : list Z,
    series = combine (drop 4 (columns t)) totals
    /\ length totals = length (drop 4 (columns t))
    /\ Forall2 (fun j z => int32_column_sum int_of_str t (4 + j) z)
               (seq 0 (length (drop 4 (columns t)))) totals.
Proof.
  unfold date_totals. intros H.
  destruct (mapM _ _) as [e|totals] eqn:Htotals; cbn [Result.bind] in H; [done|].
  injection H as <-. exists totals. cbn [iloc_from columns] in *.
  apply mapM_Forall2 in Htotals. split; [done|]. split.
  - apply Forall2_same_length in Htotals. by rewrite length_seq in Htotals.
  - eapply Forall2_impl; [exact Htotals|]. intros j z.
    apply column_total_spec.
Qed.

Lemma concat_columns_aligned (dates : list string)
    (series : list (string * list (string * Z))) :
  series <> [] ->
  Forall (fun ks => map fst (snd ks) = dates) series ->
  concat_columns series
  = inr (dates,
         map (fun ks => (fst ks, map (fun dz => Some (snd dz)) (snd ks))) series).
Proof.
  destruct series as [|[k0 s0] others]; [done|]. intros _ Hall.
  unfold concat_columns.
  inversion Hall as [|? ? H0 Hothers]; subst. cbn [snd] in *.
  assert (Hsame : forallb (fun ks => bool_decide (map fst (snd ks) = map fst s0))
                          others = true).
  { apply forallb_forall. intros ks Hks. apply bool_decide_eq_true.
    rewrite Forall_forall in Hothers. by apply Hothers, list_elem_of_In. }
  by rewrite Hsame.
Qed.

Lemma T_to_dict_aligned (dates : list string)
    (cols : list (string * list (option Z))) :
  NoDup dates -> NoDup (map fst cols) ->
  Forall (fun kc => Forall (fun c => c <> None) (snd kc)) cols ->
  T_to_dict (dates, cols)
  = map (fun jd =>
           (snd jd,
            map (fun kc => (fst kc, frame_cell false (nth (fst jd) (snd kc) None)))
                cols))
        (combine (seq 0 (length dates)) dates).
Proof.
  intros Hdates Hkinds Hsome. unfold T_to_dict.
  assert (Hnan : existsb (fun kc : string * list (option Z) =>
                    existsb (fun c : option Z =>
                               match c with Some _ => false | None => true end)
                            (snd kc)) cols = false).
  { destruct (existsb _ cols) eqn:E; [|done]. exfalso.
    apply existsb_exists in E as (kc & Hkc & E).
    apply existsb_exists in E as (c & Hc & E).
    rewrite Forall_forall in Hsome.
    apply list_elem_of_In in Hkc, Hc. specialize (Hsome kc Hkc).
    rewrite Forall_forall in Hsome. specialize (Hsome c Hc).
    by destruct c. }
  rewrite Hnan.
  rewrite (fold_dict_set_images
             (fun jd : nat * string => snd jd)
             (fun jd : nat * string =>
                fold_left
                  (fun inner (kc : string * list (option Z)) =>
                     dict_set inner (fst kc)
                       (frame_cell false (nth (fst jd) (snd kc) None)))
                  cols [])).
  - cbn [app]. apply map_ext. intros jd. f_equal.
    by rewrite (fold_dict_set_images
                  (fun kc : string * list (option Z) => fst kc)
                  (fun kc : string * list (option Z) =>
                     frame_cell false (nth (fst jd) (snd kc) None))).
  - cbn [dict_keys map app].
    replace (map (fun jd : nat * string => snd jd)
                 (combine (seq 0 (length dates)) dates)) with dates; [done|].
    clear. generalize 0%nat. induction dates as [|d t IH]; intros n; [done|].
    cbn. by rewrite <- IH.
Qed.

End Global.

Lemma nth_map_Some {A} (s : list (string * A)) (j : nat) (d : A) :
  (j < length s)%nat ->
  nth j (map (fun dz => Some (snd dz)) s) None = Some (nth j (map snd s) d).
Proof.
  revert j. induction s as [|x s IH]; intros j Hj; cbn in *; [lia|].
  destruct j as [|j]; [done|]. apply IH. lia.
Qed.

Lemma Forall2_impl_in {A B} (P Q : A -> B -> Prop) (l : list A) (k : list B) :
  Forall2 P l k -> (forall x y, x ∈ l -> P x y -> Q x y) -> Forall2 Q l k.
Proof.
  induction 1 as [|x y l k Hxy Hlk IH]; intros HPQ; constructor.
  - apply HPQ; [by left | done].
  - apply IH. intros x' y' Hx'. apply HPQ. by right.
Qed.

Lemma combine_split_full {A B} (l : list A) (k : list B) :
  length k = length l ->
  map fst (combine l k) = l /\ map snd (combine l k) = k.
Proof.
  revert k. induction l as [|x l IH]; intros [|y k]; cbn; try done.
  intros [= Hlen]. destruct (IH k Hlen) as [-> ->]. done.
Qed.

(** C8 (as amended).  When the tables of the cases have the same date
    columns, with distinct labels, the [data] of
    [get_time_series("global")] has one single-entry object per date, in
    column order, of the shape {date: {case: total, ...}}: the key is the
    date, and the value maps every case, in the order of the cases, to
    the sum of that date column over the rows of the table of the case,
    the cells taken as 32-bit integers. *)
Theorem get_time_series_global
    (int_of_str : string -> option Z) (float_of_str : string -> option value)
    (self : NovelCoronaAPIv2) (h h' : heap) (l : loc) (dates : list string) :
  constructed self h ->
  df_time_series self <> [] ->
  NoDup (dict_keys (df_time_series self)) ->
  NoDup dates ->
  Forall (fun kt => drop 4 (columns (snd kt)) = dates) (df_time_series self) ->
  get_time_series int_of_str float_of_str self "global" h = (inr l, h') ->
  exists totals : list (string * list Z),
    Forall2 (fun kt ks =>
               fst ks = fst kt
               /\ Forall2 (fun j z => int32_column_sum int_of_str (snd kt) (4 + j) z)
                          (seq 0 (length dates)) (snd ks))
            (df_time_series self) totals
    /\ h' !! l
       = Some {| data :=
                   VList (map (fun jd =>
                                 VDict [(snd jd,
                                         VDict (map (fun ks =>
                                                       (fst ks, VInt (nth (fst jd) (snd ks) 0)))
                                                    totals))])
                              (combine (seq 0 (length dates)) dates));
                 dt := datetime self; ts := timestamp self |}.
Proof.
  intros Hc Hne Hkinds Hdates Hcols Hrun.
  unfold get_time_series in Hrun.
  change (str_in "global" ["global"]) with true in Hrun. cbn [negb] in Hrun.
  rewrite mbind_lift in Hrun.
  destruct (extract_time_series_global int_of_str (df_time_series self))
    as [e|entries] eqn:Hext; [done|].
  rewrite pack_run in Hrun. injection Hrun as <- <-.
  unfold extract_time_series_global in Hext.
  destruct (mapM _ (df_time_series self)) as [e|series] eqn:Hseries;
    cbn [Result.bind] in Hext; [done|].
  apply mapM_Forall2 in Hseries.
  (* every series is indexed by the dates *)
  assert (Hshape : Forall2 (fun kt ks =>
            fst ks = fst kt
            /\ map fst (snd ks) = dates
            /\ Forall2 (fun j z => int32_column_sum int_of_str (snd kt) (4 + j) z)
                       (seq 0 (length dates)) (map snd (snd ks)))
            (df_time_series self) series).
  { rewrite Forall_forall in Hcols.
    eapply Forall2_impl_in; [exact Hseries|].
    intros kt ks Hkt Hks. cbn in Hks.
    destruct (date_totals int_of_str (snd kt)) as [e|s] eqn:Hs;
      cbn [Result.bind] in Hks; [done|].
    injection Hks as <-. cbn [fst snd].
    apply date_totals_spec in Hs as (zs & -> & Hlen & Hzs).
    rewrite (Hcols kt Hkt) in *.
    destruct (combine_split_full dates zs Hlen) as [-> ->]. done. }
  assert (Hidx : Forall (fun ks => map fst (snd ks) = dates) series).
  { clear -Hshape. induction Hshape as [|? ? ? ? (_ & H & _)]; by constructor. }
  assert (Hne' : series <> []).
  { intros ->. apply Forall2_same_length in Hshape. by destruct (df_time_series self). }
  rewrite (concat_columns_aligned dates series Hne' Hidx) in Hext.
  cbn [Result.bind] in Hext.
  rewrite T_to_dict_aligned in Hext; [|done| |]; cycle 1.
  - rewrite map_map. cbn [fst].
    assert (Hk : map (fun ks : string * list (string * Z) => fst ks) series
                 = dict_keys (df_time_series self)).
    { clear -Hshape. unfold dict_keys.
      induction Hshape as [|? ? ? ? (H & _)]; cbn; [done|]. congruence. }
    by rewrite Hk.
  - apply Forall_forall. intros kc Hkc%list_elem_of_In.
    apply in_map_iff in Hkc as (ks & <- & _). cbn [snd].
    apply Forall_forall. intros c Hc'%list_elem_of_In.
    apply in_map_iff in Hc' as (dz & <- & _). done.
  - injection Hext as <-.
    exists (map (fun ks => (fst ks, map snd (snd ks))) series). split.
    + apply Forall2_fmap_r. eapply Forall2_impl; [exact Hshape|].
      intros kt ks (Hk & _ & Hz). by cbn.
    + etrans; [apply (set_data_constructed _ _ _ Hc)|].
      do 3 f_equal. rewrite map_map. apply map_ext_in.
      intros [j d] Hjd. cbn [fst snd]. do 4 f_equal.
      rewrite !map_map. apply map_ext_in. intros [k s] Hks. cbn [fst snd].
      f_equal. rewrite (nth_map_Some s j 0); [done|].
      apply in_combine_l, in_seq in Hjd.
      rewrite Forall_forall in Hidx.
      specialize (Hidx _ (proj2 (list_elem_of_In _ _) Hks)). cbn in Hidx.
      rewrite <- Hidx, length_map in Hjd. lia.
Qed.

(** The claim of C8 fails as it is stated: the single-entry objects are
    keyed by the dates, not by the cases. *)
Lemma global_entries_are_keyed_by_date :
  returned data (get_time_series Instances.decimal_int Instances.decimal_float
                   Examples.api "global" Examples.store)
  = Some (VList
            [VDict [("1/22/20", VDict [("confirmed", VInt 446); ("deaths", VInt 17);
                                       ("recovered", VInt 28)])];
             VDict [("1/23/20", VDict [("confirmed", VInt 447); ("deaths", VInt 17);
                                       ("recovered", VInt 29)])]])
  /\ dict_keys (df_time_series Examples.api) = ["confirmed"; "deaths"; "recovered"]
  /\ ~ In "1/22/20" (dict_keys (df_time_series Examples.api)).
Proof.
  split; [vm_compute; reflexivity|]. split; [reflexivity|].
  cbn. intros [H|[H|[H|[]]]]; discriminate H.
Qed.

(** * The example of the specification *)

Example example_X :
  init Instances.utc_timestamp Examples.reports_X [] [] ∅ ∅
  = (inr Examples.api_X, Examples.store)
  /\ returned data (get_confirmed Examples.api_X Examples.store) = Some (VInt 8)
  /\ returned id (get_current Instances.stable_sort_values Examples.api_X
                    Examples.store)
     = Some {| data := VList [VDict [("location", VStr "X"); ("confirmed", VInt 8);
                                      ("deaths", VInt 1); ("recovered", VInt 3);
                                      ("active", VInt 4)]];
               dt := "2020-03-14 10:00:00"; ts := inject_Z 1584180000 |}.
Proof. repeat split; vm_compute; reflexivity. Qed.

(** * Counterexamples and instances *)

(** The claim of C1 fails as it is stated.  numpy's default sort is not
    stable, and its contract does not fix the order of equal keys.  With
    an [argsort] that meets the contract and orders equal keys by
    descending position, four countries, A and B with one confirmed
    case and C and D with two, come out as D, C, B, A: sorted by
    [confirmed] descending, and each pair of equal [confirmed] in the
    reverse of its order in the aggregate. *)
Lemma get_current_ties_not_in_aggregate_order :
  argsort_spec Instances.unstable_argsort
  /\ constructed Examples.tie_api Examples.store
  /\ df_grp_by_country Examples.tie_api
     = [Examples.tie_A; Examples.tie_B; Examples.tie_C; Examples.tie_D]
  /\ returned data
       (get_current (sort_values_by_confirmed Instances.unstable_argsort)
          Examples.tie_api Examples.store)
     = Some (VList (map country_record
                      [Examples.tie_D; Examples.tie_C;
                       Examples.tie_B; Examples.tie_A]))
  /\ ~ ties_in_order
        [Examples.tie_A; Examples.tie_B; Examples.tie_C; Examples.tie_D]
        [Examples.tie_D; Examples.tie_C; Examples.tie_B; Examples.tie_A].
Proof.
  split; [apply SortFacts.unstable_argsort_spec|].
  split; [exists VNone; reflexivity|].
  split; [reflexivity|]. split; [vm_compute; reflexivity|].
  intros H. specialize (H 1). vm_compute in H. discriminate H.
Qed.

(** On the same four countries a stable [argsort] keeps each pair of
    equal [confirmed] in the order of the aggregate: the order of equal
    records is decided by the [argsort], not by [get_current]. *)
Lemma get_current_ties_depend_on_argsort :
  returned data
    (get_current (sort_values_by_confirmed Instances.stable_argsort)
       Examples.tie_api Examples.store)
  = Some (VList (map country_record
                   [Examples.tie_C; Examples.tie_D;
                    Examples.tie_A; Examples.tie_B])).
Proof. vm_compute. reflexivity. Qed.

(** The claim of C2 fails as it is stated.  The columns hold 64-bit
    integers and pandas adds them in 64 bits: for two rows with
    [2^62] confirmed cases each, whose integer sum is [2^63],
    [get_confirmed] and [get_total] return [-2^63]. *)
Lemma get_total_wraps_around :
  constructed Examples.big_api Examples.store
  /\ map Confirmed (df Examples.big_api) = [2 ^ 62; 2 ^ 62]
  /\ total (map Confirmed (df Examples.big_api)) = 2 ^ 63
  /\ returned data (get_confirmed Examples.big_api Examples.store)
     = Some (VInt (- 2 ^ 63))
  /\ returned data (get_total Examples.big_api Examples.store)
     = Some (VDict [("confirmed", VInt (- 2 ^ 63)); ("deaths", VInt 0);
                    ("recovered", VInt 0); ("active", VInt (- 2 ^ 63))]).
Proof.
  split; [exists VNone; reflexivity|].
  repeat split; vm_compute; reflexivity.
Qed.

(** Three more facts about the global totals.  A date that the table of
    a case lacks gives [nan] for that case, and turns the totals of the
    whole answer into floats; an integer cell that does not fit in 32
    bits enters the total by its low 32 bits; and a float cell enters it
    truncated, or as [-2^31] when it is beyond the 32 bits. *)
Lemma global_missing_date :
  returned data (get_time_series Instances.decimal_int Instances.decimal_float
                   Examples.ragged_api "global" Examples.store)
  = Some (VList
            [VDict [("1/22/20", VDict [("confirmed", VFloat (inject_Z 444));
                                       ("deaths", VFloat (inject_Z 17))])];
             VDict [("1/23/20", VDict [("confirmed", VFloat (inject_Z 549));
                                       ("deaths", VNaN)])]]).
Proof. vm_compute. reflexivity. Qed.

Lemma global_total_of_wide_cell :
  returned data (get_time_series Instances.decimal_int Instances.decimal_float
                   Examples.wide_api "global" Examples.store)
  = Some (VList
            [VDict [("1/22/20", VDict [("confirmed", VInt (- 2147483647))])];
             VDict [("1/23/20", VDict [("confirmed", VInt 2)])]]).
Proof. vm_compute. reflexivity. Qed.

Lemma global_total_of_float_cells :
  returned data (get_time_series Instances.decimal_int Instances.decimal_float
                   Examples.float_api "global" Examples.store)
  = Some (VList
            [VDict [("1/22/20", VDict [("confirmed", VInt (- 2147483649))])];
             VDict [("1/23/20", VDict [("confirmed", VInt 2)])]]).
Proof. vm_compute. reflexivity. Qed.

Lemma get_current_sorted_by_confirmed_witness :
  argsort_spec Instances.stable_argsort
  /\ constructed Examples.api Examples.store
  /\ exists sorted : list country_row,
       returned id (get_current (sort_values_by_confirmed Instances.stable_argsort)
                      Examples.api Examples.store)
       = Some {| data := VList (map country_record sorted);
                 dt := datetime Examples.api; ts := timestamp Examples.api |}
       /\ Permutation sorted (df_grp_by_country Examples.api)
       /\ forall i a b, sorted !! i = Some a -> sorted !! S i = Some b ->
                        confirmed a >= confirmed b.
Proof.
  split; [apply SortFacts.stable_argsort_spec|].
  split; [exists VNone; reflexivity|].
  apply get_current_sorted_by_confirmed.
  - apply SortFacts.stable_argsort_spec.
  - exists VNone. reflexivity.
Defined.

Lemma get_total_agrees_witness :
  constructed Examples.api Examples.store
  /\ exists c d r a : Z,
       returned data (get_total Examples.api Examples.store)
       = Some (VDict [("confirmed", VInt c); ("deaths", VInt d);
                      ("recovered", VInt r); ("active", VInt a)])
       /\ returned data (get_confirmed Examples.api Examples.store) = Some (VInt c)
       /\ returned data (get_deaths Examples.api Examples.store) = Some (VInt d)
       /\ returned data (get_recovered Examples.api Examples.store) = Some (VInt r)
       /\ returned data (get_active Examples.api Examples.store) = Some (VInt a)
       /\ int64_sum (map Confirmed (df Examples.api)) c
       /\ int64_sum (map Deaths (df Examples.api)) d
       /\ int64_sum (map Recovered (df Examples.api)) r
       /\ int64_sum (map Active (df Examples.api)) a.
Proof.
  split; [exists VNone; reflexivity|].
  apply get_total_agrees. exists VNone. reflexivity.
Defined.

(** The claim of C4 fails as it is stated, in two ways.  A code that is
    also the lowercase form of a location is taken for that location:
    "aa" returns the record of "aa" although the lookup table maps "AA"
    to "bb".  And a name of the aggregate with a capital letter is taken
    for a code: "Thailand" raises where "TH" returns the record. *)
Lemma get_country_name_and_code_differ :
  (constructed Examples.shadow_api Examples.store
   /\ In "bb" (map location (df_grp_by_country Examples.shadow_api))
   /\ lookup_table Examples.shadow_api !! Instances.upper "aa" = Some "bb"
   /\ returned data (get_country Instances.lower Instances.upper
                       Instances.stable_sort_values Examples.shadow_api
                       "bb" Examples.store)
      = Some (country_record Examples.shadow_bb)
   /\ returned data (get_country Instances.lower Instances.upper
                       Instances.stable_sort_values Examples.shadow_api
                       "aa" Examples.store)
      = Some (country_record Examples.shadow_aa)
   /\ country_record Examples.shadow_aa <> country_record Examples.shadow_bb)
  /\ (constructed Examples.api Examples.store
      /\ In "Thailand" (map location (df_grp_by_country Examples.api))
      /\ lookup_table Examples.api !! Instances.upper "TH" = Some "Thailand"
      /\ returned data (get_country Instances.lower Instances.upper
                          Instances.stable_sort_values Examples.api
                          "Thailand" Examples.store)
         = None
      /\ returned data (get_country Instances.lower Instances.upper
                          Instances.stable_sort_values Examples.api
                          "TH" Examples.store)
         = Some (country_record Examples.thailand)).
Proof.
  split.
  - split; [exists VNone; reflexivity|]. split; [cbv; tauto|].
    repeat split; try (vm_compute; reflexivity). discriminate.
  - split; [exists VNone; reflexivity|]. split; [cbv; tauto|].
    repeat split; vm_compute; reflexivity.
Qed.

Lemma get_country_name_and_code_witness :
  sort_values_spec Instances.stable_sort_values
  /\ constructed Examples.api Examples.store
  /\ In "Thailand" (map location (df_grp_by_country Examples.api))
  /\ Instances.lower (Instances.lower "Thailand") = Instances.lower "Thailand"
  /\ ~ In "th" (lowered_locations Instances.lower (df_grp_by_country Examples.api))
  /\ lookup_table Examples.api !! Instances.upper "th" = Some "Thailand"
  /\ exists (before after : list country_row) (g : country_row),
       returned data (get_current Instances.stable_sort_values Examples.api
                        Examples.store)
       = Some (VList (map country_record (before ++ g :: after)))
       /\ Forall (fun g' => Instances.lower (location g')
                            <> Instances.lower "Thailand") before
       /\ Instances.lower (location g) = Instances.lower "Thailand"
       /\ returned data (get_country Instances.lower Instances.upper
                           Instances.stable_sort_values Examples.api
                           (Instances.lower "Thailand") Examples.store)
          = Some (country_record g)
       /\ returned data (get_country Instances.lower Instances.upper
                           Instances.stable_sort_values Examples.api
                           "th" Examples.store)
          = Some (country_record g).
Proof.
  assert (Hnot : ~ In "th" (lowered_locations Instances.lower
                              (df_grp_by_country Examples.api))).
  { vm_compute. intros [H|[H|[H|[]]]]; discriminate H. }
  split; [apply SortFacts.stable_sort_values_spec|].
  split; [exists VNone; reflexivity|].
  split; [vm_compute; tauto|]. split; [reflexivity|]. split; [exact Hnot|].
  split; [vm_compute; reflexivity|].
  apply get_country_name_and_code.
  - apply SortFacts.stable_sort_values_spec.
  - exists VNone. reflexivity.
  - vm_compute. tauto.
  - reflexivity.
  - exact Hnot.
  - vm_compute. reflexivity.
Defined.

Lemma get_time_series_unknown_case_witness :
  "doesnotexist" <> "global"
  /\ dict_get (df_time_series Examples.api) "doesnotexist" = None
  /\ get_time_series Instances.decimal_int Instances.decimal_float Examples.api
       "doesnotexist" Examples.store
     = (inl (UnknownCase "doesnotexist"), Examples.store).
Proof.
  split; [discriminate|]. split; [reflexivity|].
  apply get_time_series_unknown_case; [discriminate | reflexivity].
Defined.

Lemma get_US_time_series_other_case_witness :
  constructed Examples.api Examples.store
  /\ "recovered" <> "confirmed" /\ "recovered" <> "deaths"
  /\ fst (get_US_time_series Instances.decimal_int Instances.decimal_float
            Examples.api "recovered" Examples.store)
     = inr (scheme Examples.api)
  /\ returned id (get_US_time_series Instances.decimal_int Instances.decimal_float
                    Examples.api "recovered" Examples.store)
     = Some {| data := VList []; dt := datetime Examples.api;
               ts := timestamp Examples.api |}.
Proof.
  split; [exists VNone; reflexivity|].
  split; [discriminate|]. split; [discriminate|].
  apply get_US_time_series_other_case; [exists VNone; reflexivity | discriminate..].
Defined.

Lemma get_time_series_global_witness :
  exists (l : loc) (h' : heap),
    constructed Examples.api Examples.store
    /\ df_time_series Examples.api <> []
    /\ NoDup (dict_keys (df_time_series Examples.api))
    /\ NoDup ["1/22/20"; "1/23/20"]
    /\ Forall (fun kt => drop 4 (columns (snd kt)) = ["1/22/20"; "1/23/20"])
              (df_time_series Examples.api)
    /\ get_time_series Instances.decimal_int Instances.decimal_float Examples.api
         "global" Examples.store
       = (inr l, h')
    /\ exists totals : list (string * list Z),
         Forall2 (fun kt ks =>
                    fst ks = fst kt
                    /\ Forall2 (fun j z =>
                                  int32_column_sum Instances.decimal_int (snd kt) (4 + j) z)
                               (seq 0 (length ["1/22/20"; "1/23/20"])) (snd ks))
                 (df_time_series Examples.api) totals
         /\ h' !! l
            = Some {| data :=
                        VList (map (fun jd =>
                                 VDict [(snd jd,
                                         VDict (map (fun ks =>
                                                       (fst ks, VInt (nth (fst jd) (snd ks) 0)))
                                                    totals))])
                              (combine (seq 0 (length ["1/22/20"; "1/23/20"]))
                                       ["1/22/20"; "1/23/20"]));
                      dt := datetime Examples.api; ts := timestamp Examples.api |}.
Proof.
  assert (Hkinds : NoDup (dict_keys (df_time_series Examples.api))).
  { apply (bool_decide_unpack _). vm_compute. exact I. }
  assert (Hdates : NoDup ["1/22/20"; "1/23/20"]).
  { apply (bool_decide_unpack _). vm_compute. exact I. }
  assert (Hcols : Forall (fun kt => drop 4 (columns (snd kt)) = ["1/22/20"; "1/23/20"])
                         (df_time_series Examples.api)).
  { repeat constructor. }
  exists (scheme Examples.api),
         (snd (get_time_series Instances.decimal_int Instances.decimal_float
                 Examples.api "global" Examples.store)).
  split; [exists VNone; reflexivity|]. split; [discriminate|].
  split; [exact Hkinds|]. split; [exact Hdates|]. split; [exact Hcols|].
  split; [vm_compute; reflexivity|].
  apply (get_time_series_global Instances.decimal_int Instances.decimal_float
           Examples.api Examples.store).
  - exists VNone. reflexivity.
  - discriminate.
  - exact Hkinds.
  - exact Hdates.
  - exact Hcols.
  - vm_compute. reflexivity.
Defined.

Lemma calls_share_the_scheme_witness :
  init Instances.utc_timestamp Examples.daily_reports Examples.time_series
       Examples.US_time_series Examples.lookup ∅
  = (inr Examples.api, Examples.store)
  /\ exists (rs : list (result loc)) (h2 : heap),
       calls Instances.lower Instances.upper Instances.stable_sort_values
             Instances.decimal_int
             Instances.decimal_float Examples.api Examples.session Examples.store
       = (rs, h2)
       /\ Forall (fun r => forall l, r = inr l -> l = scheme Examples.api) rs
       /\ (exists v, h2 !! scheme Examples.api
                     = Some {| data := v; dt := datetime Examples.api;
                               ts := timestamp Examples.api |})
       /\ py_max (map Last_Update Examples.daily_reports)
          = inr (datetime Examples.api)
       /\ Instances.utc_timestamp (datetime Examples.api)
          = Some (timestamp Examples.api)
       /\ (forall l, l <> scheme Examples.api -> h2 !! l = Examples.store !! l).
Proof.
  assert (Hinit : init Instances.utc_timestamp Examples.daily_reports
                       Examples.time_series Examples.US_time_series
                       Examples.lookup ∅
                  = (inr Examples.api, Examples.store)).
  { vm_compute. reflexivity. }
  split; [exact Hinit|].
  eexists _, _. split; [apply surjective_pairing|].
  eapply calls_share_the_scheme; [exact Hinit | apply surjective_pairing].
Defined.

Lemma get_US_time_series_records_witness :
  exists (l : loc) (h' : heap),
    constructed Examples.api Examples.store
    /\ ("deaths" = "confirmed" \/ "deaths" = "deaths")
    /\ get_US_time_series Instances.decimal_int Instances.decimal_float
         Examples.api "deaths" Examples.store
       = (inr l, h')
    /\ exists (frame : table) (records : list value),
         dict_get (df_US_time_series Examples.api) "deaths" = Some frame
         /\ h' !! l = Some {| data := VList records;
                              dt := datetime Examples.api;
                              ts := timestamp Examples.api |}
         /\ Forall2 (fun row record =>
                       dict_keys (row_dict (columns frame) row)
                       = first_occurrences (map fst (combine (columns frame) row))
                       /\ US_record Instances.decimal_int Instances.decimal_float
                                    (row_dict (columns frame) row) record)
                    (rows frame) records.
Proof.
  exists (scheme Examples.api),
         (snd (get_US_time_series Instances.decimal_int Instances.decimal_float
                 Examples.api "deaths" Examples.store)).
  split; [exists VNone; reflexivity|]. split; [by right|].
  split; [vm_compute; reflexivity|].
  apply (get_US_time_series_records Instances.decimal_int Instances.decimal_float
           Examples.api Examples.store).
  - exists VNone. reflexivity.
  - by right.
  - vm_compute. reflexivity.
Defined.


(** * Further properties *)

(** ** get_country: failures and what it returns *)

(** X1.  A name that is not written as one of the lowercased locations
    and whose uppercase form is not a key of the lookup table makes
    [get_country] raise [KeyError] with the uppercased name.  By then the
    inner call of [get_current] has run: the response dictionary holds
    the list of all countries. *)
Theorem get_country_lookup_miss
    (str_lower str_upper : string -> string)
    (sort_values : list country_row -> list country_row)
    (self : NovelCoronaAPIv2) (h : heap) (country_name : string) :
  constructed self h ->
  ~ In country_name
       (lowered_locations str_lower (sort_values (df_grp_by_country self))) ->
  lookup_table self !! str_upper country_name = None ->
  get_country str_lower str_upper sort_values self country_name h
  = (inl (KeyError (str_upper country_name)),
     snd (get_current sort_values self h))
  /\ snd (get_current sort_values self h) !! scheme self
     = Some {| data := VList (map country_record
                                  (sort_values (df_grp_by_country self)));
               dt := datetime self; ts := timestamp self |}.
Proof.
  intros Hc Hnot Hmiss. rewrite (get_country_run _ _ _ _ _ _ Hc).
  rewrite get_current_run. cbn [snd]. unfold resolve.
  destruct (str_in country_name _) eqn:Hin.
  - apply str_in_In in Hin. contradiction.
  - cbn [negb]. rewrite Hmiss. split; [reflexivity|].
    by apply set_data_constructed.
Qed.

(** X2.  A code that is not itself written as one of the lowercased
    locations, and that the lookup table maps to a name that no location
    of the aggregate equals up to case, makes [get_country] raise
    [IndexError]: the list of matches is empty when its first element is
    taken. *)
Theorem get_country_unlisted_country
    (str_lower str_upper : string -> string)
    (sort_values : list country_row -> list country_row)
    (self : NovelCoronaAPIv2) (h : heap) (code name : string) :
  sort_values_spec sort_values ->
  constructed self h ->
  ~ In code (lowered_locations str_lower (df_grp_by_country self)) ->
  lookup_table self !! str_upper code = Some name ->
  ~ In (str_lower name) (lowered_locations str_lower (df_grp_by_country self)) ->
  fst (get_country str_lower str_upper sort_values self code h)
  = inl IndexError.
Proof.
  intros [Hperm _] Hc Hcode Hlookup Hname.
  rewrite (get_country_run _ _ _ _ _ _ Hc). unfold resolve.
  set (rows := sort_values (df_grp_by_country self)).
  assert (Hin : str_in code (lowered_locations str_lower rows) = false).
  { destruct (str_in code (lowered_locations str_lower rows)) eqn:E; [|done].
    apply str_in_In in E. exfalso. apply Hcode.
    eapply lowered_locations_perm; [apply Hperm | exact E]. }
  rewrite Hin, Hlookup. cbn [negb of_option].
  destruct (rows_matching str_lower name rows) as [|g t] eqn:Hmatch; [done|].
  exfalso. apply Hname.
  assert (Hg : In g (rows_matching str_lower name rows))
    by (rewrite Hmatch; by left).
  apply filter_In in Hg as [Hg Heq]. apply String.eqb_eq in Heq.
  eapply lowered_locations_perm; [apply Hperm|].
  rewrite Heq. unfold lowered_locations. apply in_map_iff. by exists g.
Qed.

(** X3.  Whenever [get_country] returns, its [data] is the record of a
    row of the aggregate, one of the records that [get_current] lists,
    and the lowercase form of the location of that row is the lowercase
    form either of the name that was given or of the name that the
    lookup table gives for its uppercase form. *)
Theorem get_country_returns_a_listed_record
    (str_lower str_upper : string -> string)
    (sort_values : list country_row -> list country_row)
    (self : NovelCoronaAPIv2) (h h' : heap) (country_name : string) (l : loc) :
  sort_values_spec sort_values ->
  constructed self h ->
  get_country str_lower str_upper sort_values self country_name h = (inr l, h') ->
  exists (g : country_row) (name : string),
    h' !! l = Some {| data := country_record g;
                      dt := datetime self; ts := timestamp self |}
    /\ In g (df_grp_by_country self)
    /\ In (country_record g)
          (map country_record (sort_values (df_grp_by_country self)))
    /\ str_lower (location g) = str_lower name
    /\ (name = country_name
        \/ lookup_table self !! str_upper country_name = Some name).
Proof.
  intros [Hperm _] Hc Hrun. rewrite (get_country_run _ _ _ _ _ _ Hc) in Hrun.
  set (rows := sort_values (df_grp_by_country self)) in *.
  destruct (resolve str_lower str_upper self rows country_name)
    as [e|name] eqn:Hres; [done|].
  destruct (rows_matching str_lower name rows) as [|g t] eqn:Hmatch; [done|].
  injection Hrun as <- <-.
  assert (Hg : In g (rows_matching str_lower name rows))
    by (rewrite Hmatch; by left).
  apply filter_In in Hg as [Hg Heq]. apply String.eqb_eq in Heq.
  exists g, name. split.
  { apply set_data_constructed. by apply set_data_keeps_constructed. }
  split; [eapply Permutation_in; [apply Hperm | exact Hg]|].
  split; [by apply in_map|]. split; [done|].
  unfold resolve in Hres.
  destruct (str_in country_name (lowered_locations str_lower rows));
    cbn [negb] in Hres.
  - left. by injection Hres.
  - right. by destruct (lookup_table self !! str_upper country_name) as [n|];
      [injection Hres as -> | ].
Qed.

(** ** Calls and the store *)

Section CallFacts.

Variable str_lower : string -> string.
Variable str_upper : string -> string.
Variable sort_values : list country_row -> list country_row.
Variable int_of_str : string -> option Z.
Variable float_of_str : string -> option value.

Lemma pack_same (self : NovelCoronaAPIv2) (v : value) (h1 h2 : heap) :
  constructed self h1 -> constructed self h2 ->
  let c := (let! _ := set_data (scheme self) v in mret (scheme self)) in
  fst (c h1) = fst (c h2) /\ returned id (c h1) = returned id (c h2).
Proof.
  intros H1 H2 c. unfold c. rewrite !pack_run. split; [done|].
  by rewrite !(returned_pack id).
Qed.

Lemma lift_pack_same {A} (self : NovelCoronaAPIv2) (r : result A)
    (f : A -> value) (h1 h2 : heap) :
  constructed self h1 -> constructed self h2 ->
  let c := (let! d := lift r in
            let! _ := set_data (scheme self) (f d) in mret (scheme self)) in
  fst (c h1) = fst (c h2) /\ returned id (c h1) = returned id (c h2).
Proof.
  intros H1 H2 c. unfold c. rewrite !mbind_lift.
  destruct r as [e|d]; [done|]. by apply pack_same.
Qed.

(** X5.  What a call answers does not depend on the calls before it: in
    two stores that both hold the response dictionary of the service,
    whatever its [data], the same call returns or raises alike, and the
    dictionary it returns reads the same. *)
Theorem call_ignores_earlier_calls
    (self : NovelCoronaAPIv2) (q : query) (h1 h2 : heap) :
  constructed self h1 -> constructed self h2 ->
  fst (call str_lower str_upper sort_values int_of_str float_of_str self q h1)
  = fst (call str_lower str_upper sort_values int_of_str float_of_str self q h2)
  /\ returned id (call str_lower str_upper sort_values int_of_str float_of_str self q h1)
     = returned id (call str_lower str_upper sort_values int_of_str float_of_str self q h2).
Proof.
  intros H1 H2. destruct q as [|name| | | | | |case|case]; cbn [call];
    try (by apply pack_same).
  - rewrite !(get_country_run _ _ _ _ _ _ H1), !(get_country_run _ _ _ _ _ _ H2).
    destruct (resolve _ _ _) as [e|name']; [done|].
    destruct (rows_matching _ _) as [|g t]; [done|].
    split; [done|].
    rewrite !(returned_pack id); [done|by apply set_data_keeps_constructed..].
  - unfold get_time_series. by apply (lift_pack_same self _ VList).
  - unfold get_US_time_series. by apply (lift_pack_same self _ VList).
Qed.

(** X6.  A call that raises leaves the store as it found it, and with it
    the [data] of the previous call, except [get_country]: it raises
    after its inner call of [get_current], whose list stays in the
    response dictionary. *)
Theorem call_that_raises
    (self : NovelCoronaAPIv2) (q : query) (h h' : heap) (e : exn) :
  constructed self h ->
  call str_lower str_upper sort_values int_of_str float_of_str self q h = (inl e, h') ->
  match q with
  | GetCountry _ => h' = snd (get_current sort_values self h)
  | _ => h' = h
  end.
Proof.
  intros Hc. destruct q as [|name| | | | | |case|case]; cbn [call];
    try (unfold get_current, get_confirmed, get_deaths, get_recovered,
           get_active, get_column_sum, get_total;
         rewrite pack_run; discriminate).
  - rewrite (get_country_run _ _ _ _ _ _ Hc), get_current_run. cbn [snd].
    destruct (resolve _ _ _) as [e'|name']; [by intros [= _ <-]|].
    destruct (rows_matching _ _) as [|g t]; [by intros [= _ <-]|done].
  - unfold get_time_series. rewrite mbind_lift.
    destruct (if negb _ then _ else _) as [e'|d]; [by intros [= _ <-]|].
    rewrite pack_run. discriminate.
  - unfold get_US_time_series. rewrite mbind_lift.
    destruct (if negb _ then _ else _) as [e'|d]; [by intros [= _ <-]|].
    rewrite pack_run. discriminate.
Qed.

End CallFacts.

(** X7.  Two services built in one store have different response
    dictionaries, and the calls on either of them leave the dictionary
    of the other as its construction left it. *)
Theorem two_services_do_not_interfere
    (strptime_timestamp : string -> option Q)
    (str_lower str_upper : string -> string)
    (sort_values : list country_row -> list country_row)
    (int_of_str : string -> option Z) (float_of_str : string -> option value)
    (reports_a reports_b : list daily_row)
    (series_a US_a series_b US_b : dict table)
    (lookup_a lookup_b : gmap string string)
    (h0 h1 h2 : heap) (a b : NovelCoronaAPIv2) (qs : list query) :
  init strptime_timestamp reports_a series_a US_a lookup_a h0 = (inr a, h1) ->
  init strptime_timestamp reports_b series_b US_b lookup_b h1 = (inr b, h2) ->
  scheme a <> scheme b
  /\ snd (calls str_lower str_upper sort_values int_of_str float_of_str b qs h2) !! scheme a
     = Some {| data := VNone; dt := datetime a; ts := timestamp a |}
  /\ snd (calls str_lower str_upper sort_values int_of_str float_of_str a qs h2) !! scheme b
     = Some {| data := VNone; dt := datetime b; ts := timestamp b |}.
Proof.
  intros Ha Hb.
  pose proof (init_constructed _ _ _ _ _ _ _ _ Hb) as (Hcb & _ & _).
  apply init_run in Ha as (_ & _ & _ & _ & _ & _ & _ & _ & Hh1).
  apply init_run in Hb as (_ & _ & _ & _ & _ & _ & _ & Hfresh & Hh2).
  assert (Ha1 : h1 !! scheme a
                = Some {| data := VNone; dt := datetime a; ts := timestamp a |}).
  { rewrite Hh1. apply lookup_insert_eq. }
  assert (Hne : scheme a <> scheme b) by congruence.
  assert (Ha2 : h2 !! scheme a
                = Some {| data := VNone; dt := datetime a; ts := timestamp a |}).
  { rewrite Hh2, lookup_insert_ne; [done | congruence]. }
  assert (Hb2 : h2 !! scheme b
                = Some {| data := VNone; dt := datetime b; ts := timestamp b |}).
  { rewrite Hh2. apply lookup_insert_eq. }
  split; [done|]. split.
  - destruct (calls_ok str_lower str_upper sort_values int_of_str float_of_str
                b qs h2 Hcb)
      as [_ [Hother _]].
    by rewrite Hother.
  - assert (Hca : constructed a h2) by (by exists VNone).
    destruct (calls_ok str_lower str_upper sort_values int_of_str float_of_str
                a qs h2 Hca)
      as [_ [Hother _]].
    rewrite Hother; [done | congruence].
Qed.

(** ** The aggregate and the totals *)

Lemma string_compare_refl (s : string) : String.compare s s = Eq.
Proof.
  pose proof (String.compare_antisym s s) as H.
  by destruct (String.compare s s).
Qed.

Lemma string_compare_neq (a b : string) : String.compare a b <> Eq -> a <> b.
Proof. intros H ->. by rewrite string_compare_refl in H. Qed.

Lemma total_app (l k : list Z) : total (l ++ k) = total l + total k.
Proof. unfold total. induction l as [|x t IH]; cbn; lia. Qed.

Section GroupFacts.

Variable column : daily_row -> Z.
Variable field : country_row -> Z.
Hypothesis field_of : forall r, field (group_of r) = add64 0 (column r).
Hypothesis field_add :
  forall r g, field (group_add r g) = add64 (field g) (column r).

Lemma groupby_add_groups (k : string) (r : daily_row) (acc : list country_row) :
  wrap64 (total (map field (groups_of k (groupby_add r acc))))
  = wrap64 (total (map field (groups_of k acc))
            + (if String.eqb (Country_Region r) k then column r else 0)).
Proof.
  unfold total, groups_of.
  induction acc as [|g acc' IH]; cbn [groupby_add].
  - cbn. destruct (String.eqb (Country_Region r) k); cbn; [|done].
    rewrite field_of. unfold add64. rewrite Z.add_0_r. apply wrap64_idem.
  - destruct (String.compare (Country_Region r) (location g)) eqn:Hcmp.
    + apply String.compare_eq_iff in Hcmp. cbn. rewrite <- Hcmp.
      destruct (String.eqb (Country_Region r) k); cbn.
      * rewrite field_add. unfold add64. rewrite wrap64_add_l. f_equal. lia.
      * by rewrite Z.add_0_r.
    + cbn. destruct (String.eqb (Country_Region r) k),
               (String.eqb (location g) k); cbn; rewrite ?field_of;
        unfold add64; rewrite ?wrap64_add_l; f_equal; lia.
    + cbn [List.filter]. destruct (String.eqb (location g) k);
        cbn [map fold_right]; [|exact IH].
      rewrite <- wrap64_add_r, IH, wrap64_add_r. f_equal. lia.
Qed.

Lemma groupby_sum_groups (k : string) (rows : list daily_row) :
  wrap64 (total (map field (groups_of k (groupby_sum rows))))
  = wrap64 (total (map column (reports_of k rows))).
Proof.
  unfold groupby_sum.
  assert (H : forall acc,
            wrap64 (total (map field (groups_of k
                     (fold_left (fun acc r => groupby_add r acc) rows acc))))
            = wrap64 (total (map field (groups_of k acc))
                      + total (map column (reports_of k rows)))).
  { induction rows as [|r t IH]; intros acc; cbn [fold_left].
    - cbn. by rewrite Z.add_0_r.
    - rewrite IH, <- wrap64_add_l, groupby_add_groups, wrap64_add_l.
      unfold reports_of. cbn [List.filter].
      destruct (String.eqb (Country_Region r) k); cbn [map total fold_right];
        unfold total; f_equal; lia. }
  rewrite H. reflexivity.
Qed.

(** The sums of the groups are 64-bit integers. *)
Lemma groupby_add_wrapped (r : daily_row) (acc : list country_row) :
  Forall (fun g => wrap64 (field g) = field g) acc ->
  Forall (fun g => wrap64 (field g) = field g) (groupby_add r acc).
Proof.
  induction 1 as [|g acc' Hg Hacc IH]; cbn [groupby_add].
  - constructor; [|constructor]. rewrite field_of. apply wrap64_idem.
  - destruct (String.compare (Country_Region r) (location g)).
    + constructor; [|done]. rewrite field_add. apply wrap64_idem.
    + constructor; [|by constructor]. rewrite field_of. apply wrap64_idem.
    + by constructor.
Qed.

Lemma groupby_sum_wrapped (rows : list daily_row) :
  Forall (fun g => wrap64 (field g) = field g) (groupby_sum rows).
Proof.
  unfold groupby_sum.
  assert (H : forall acc, Forall (fun g => wrap64 (field g) = field g) acc ->
            Forall (fun g => wrap64 (field g) = field g)
                   (fold_left (fun acc r => groupby_add r acc) rows acc)).
  { induction rows as [|r t IH]; intros acc Hacc; [done|].
    cbn [fold_left]. by apply IH, groupby_add_wrapped. }
  apply H. constructor.
Qed.

End GroupFacts.

Lemma groupby_add_locations (k : string) (r : daily_row) (acc : list country_row) :
  In k (map location (groupby_add r acc))
  <-> k = Country_Region r \/ In k (map location acc).
Proof.
  induction acc as [|g acc' IH]; cbn [groupby_add].
  - cbn. intuition.
  - destruct (String.compare (Country_Region r) (location g)) eqn:Hcmp.
    + apply String.compare_eq_iff in Hcmp. cbn. rewrite Hcmp. intuition.
    + cbn. intuition.
    + cbn [map In]. rewrite IH. intuition.
Qed.

Lemma groupby_sum_locations (k : string) (rows : list daily_row) :
  In k (map location (groupby_sum rows)) <-> In k (map Country_Region rows).
Proof.
  unfold groupby_sum.
  assert (H : forall acc,
            In k (map location (fold_left (fun acc r => groupby_add r acc) rows acc))
            <-> In k (map location acc) \/ In k (map Country_Region rows)).
  { induction rows as [|r t IH]; intros acc; cbn [fold_left].
    - cbn. intuition.
    - rewrite IH, groupby_add_locations. cbn. intuition. }
  rewrite H. cbn. intuition.
Qed.

Lemma location_lt_trans (a b c : country_row) :
  location_lt a b -> location_lt b c -> location_lt a c.
Proof. apply string_compare_lt_trans. Qed.

Lemma sorted_locations_NoDup (groups : list country_row) :
  Sorted location_lt groups -> NoDup (map location groups).
Proof.
  intros Hs. apply Sorted_StronglySorted in Hs; [|exact location_lt_trans].
  induction Hs as [|g t Ht IH Hall]; cbn; [apply NoDup_nil_2|].
  apply NoDup_cons_2; [|done].
  intros Hin%list_elem_of_In. apply in_map_iff in Hin as (g' & Heq & Hg').
  rewrite List.Forall_forall in Hall. specialize (Hall g' Hg').
  unfold location_lt in Hall. by rewrite Heq, string_compare_refl in Hall.
Qed.

Lemma groups_of_unique (groups : list country_row) (g : country_row) :
  NoDup (map location groups) -> In g groups ->
  groups_of (location g) groups = [g].
Proof.
  unfold groups_of.
  induction groups as [|g' t IH]; [done|]. cbn [map].
  intros [Hg' Ht]%NoDup_cons [->|Hin]; cbn [List.filter].
  - rewrite String.eqb_refl. f_equal.
    clear IH Ht. induction t as [|x t IHt]; [done|]. cbn.
    destruct (String.eqb (location x) (location g)) eqn:E.
    + apply String.eqb_eq in E. exfalso. apply Hg'. cbn. rewrite E. by left.
    + apply IHt. intros H. apply Hg'. by right.
  - destruct (String.eqb (location g') (location g)) eqn:E; [|by apply IH].
    apply String.eqb_eq in E. exfalso. apply Hg'. rewrite E.
    apply list_elem_of_In, in_map_iff. by exists g.
Qed.

Lemma total_perm (l l' : list Z) : Permutation l l' -> total l = total l'.
Proof. unfold total. induction 1; cbn; lia. Qed.

(** The sum of a group is the 64-bit sum of the cells of its rows. *)
Lemma groupby_sum_group (column : daily_row -> Z) (field : country_row -> Z)
    (rows : list daily_row) (g : country_row) :
  (forall r, field (group_of r) = add64 0 (column r)) ->
  (forall r g, field (group_add r g) = add64 (field g) (column r)) ->
  In g (groupby_sum rows) ->
  field g = wrap64 (total (map column (reports_of (location g) rows))).
Proof.
  intros Hof Hadd Hg.
  rewrite <- (groupby_sum_groups column field Hof Hadd).
  rewrite (groups_of_unique _ _ (sorted_locations_NoDup _ (groupby_sum_sorted rows)) Hg).
  cbn. rewrite Z.add_0_r. symmetry.
  pose proof (groupby_sum_wrapped column field Hof Hadd rows) as Hall.
  rewrite List.Forall_forall in Hall. by apply Hall.
Qed.

(** X8.  For a service built by [__init__], at any later time,
    [get_current] lists every country of the daily reports exactly once,
    and no other; the four numbers of a record are the sums, in 64-bit
    arithmetic, of the four columns over the daily reports of that
    country. *)
Theorem get_current_lists_each_country
    (strptime_timestamp : string -> option Q)
    (sort_values : list country_row -> list country_row)
    (daily_reports : list daily_row) (time_series US_time_series : dict table)
    (lookup : gmap string string) (h0 h1 h : heap) (self : NovelCoronaAPIv2) :
  sort_values_spec sort_values ->
  init strptime_timestamp daily_reports time_series US_time_series lookup h0
  = (inr self, h1) ->
  constructed self h ->
  exists sorted : list country_row,
    returned data (get_current sort_values self h)
    = Some (VList (map country_record sorted))
    /\ NoDup (map location sorted)
    /\ (forall k, In k (map location sorted)
                  <-> In k (map Country_Region daily_reports))
    /\ forall g, In g sorted ->
         int64_sum (map Confirmed (reports_of (location g) daily_reports))
                   (confirmed g)
         /\ int64_sum (map Deaths (reports_of (location g) daily_reports))
                      (deaths g)
         /\ int64_sum (map Recovered (reports_of (location g) daily_reports))
                      (recovered g)
         /\ int64_sum (map Active (reports_of (location g) daily_reports))
                      (active g).
Proof.
  intros [Hperm _] Hinit Hc.
  apply init_run in Hinit as (_ & _ & _ & _ & Hgrp & _).
  exists (sort_values (df_grp_by_country self)).
  rewrite get_current_run, (returned_pack data _ _ _ Hc). split; [done|].
  pose proof (Hperm (df_grp_by_country self)) as Hp. rewrite Hgrp in *.
  split; [|split].
  - rewrite (Permutation_map location Hp).
    apply sorted_locations_NoDup, groupby_sum_sorted.
  - intros k. rewrite <- groupby_sum_locations. split; apply Permutation_in.
    + by apply Permutation_map.
    + by apply Permutation_map, Permutation_sym.
  - intros g Hg. apply (Permutation_in _ Hp) in Hg.
    assert (Hsum : forall column field,
              (forall r, field (group_of r) = add64 0 (column r)) ->
              (forall r g, field (group_add r g) = add64 (field g) (column r)) ->
              int64_sum (map column (reports_of (location g) daily_reports))
                        (field g)).
    { intros column field Hof Hadd.
      rewrite (groupby_sum_group column field daily_reports g Hof Hadd Hg).
      split; [done|]. apply wrap64_small. }
    repeat split; by apply Hsum.
Qed.

(** X9.  For a service built by [__init__], the numbers of the records
    of [get_current] add up, column by column and in 64-bit arithmetic,
    to the four numbers of [get_total]: the aggregate loses no case and
    counts none twice. *)
Theorem get_current_adds_up_to_get_total
    (strptime_timestamp : string -> option Q)
    (sort_values : list country_row -> list country_row)
    (daily_reports : list daily_row) (time_series US_time_series : dict table)
    (lookup : gmap string string) (h0 h1 h : heap) (self : NovelCoronaAPIv2) :
  sort_values_spec sort_values ->
  init strptime_timestamp daily_reports time_series US_time_series lookup h0
  = (inr self, h1) ->
  constructed self h ->
  exists (sorted : list country_row) (c d r a : Z),
    returned data (get_current sort_values self h)
    = Some (VList (map country_record sorted))
    /\ returned data (get_total self h)
       = Some (VDict [("confirmed", VInt c); ("deaths", VInt d);
                      ("recovered", VInt r); ("active", VInt a)])
    /\ int64_sum (map confirmed sorted) c
    /\ int64_sum (map deaths sorted) d
    /\ int64_sum (map recovered sorted) r
    /\ int64_sum (map active sorted) a.
Proof.
  intros [Hperm _] Hinit Hc.
  apply init_run in Hinit as (Hdf & _ & _ & _ & Hgrp & _).
  exists (sort_values (df_grp_by_country self)),
         (column_sum Confirmed (df self)), (column_sum Deaths (df self)),
         (column_sum Recovered (df self)), (column_sum Active (df self)).
  rewrite get_current_run, (returned_pack data _ _ _ Hc). split; [done|].
  unfold get_total. rewrite pack_run, (returned_pack data _ _ _ Hc).
  split; [done|].
  pose proof (Hperm (df_grp_by_country self)) as Hp. rewrite Hgrp in Hp.
  rewrite Hdf, Hgrp.
  assert (Hsum : forall column field,
            (forall r, field (group_of r) = add64 0 (column r)) ->
            (forall r g, field (group_add r g) = add64 (field g) (column r)) ->
            int64_sum (map field (sort_values (groupby_sum daily_reports)))
                      (column_sum column daily_reports)).
  { intros column field Hof Hadd.
    assert (E : column_sum column daily_reports
                = wrap64 (total (map field
                                   (sort_values (groupby_sum daily_reports))))).
    { rewrite (total_perm _ _ (Permutation_map field Hp)).
      symmetry. by apply groupby_sum_total. }
    rewrite E. split; [done|]. apply wrap64_small. }
  repeat split; by apply Hsum.
Qed.

(** ** The records of the time series *)

Section RecordFacts.

Variable int_of_str : string -> option Z.
Variable float_of_str : string -> option value.

(** X10.  For a case other than "global", when [get_time_series]
    returns, the case is a key of the global time series and [data] has
    one record per row of its table, in row order.  A record has exactly
    the keys [Province/State], [Country/Region], [Coordinates] and
    [TimeSeries]; the first two are the cells of the row, [Coordinates]
    holds [float] of the cells [Lat] and [Long], and [TimeSeries] has one
    entry [{'date': k, 'value': v}] per column [k] other than these four,
    in column order, with [v] the [int] of the cell. *)
Theorem get_time_series_records
    (self : NovelCoronaAPIv2) (h h' : heap) (case : string) (l : loc) :
  constructed self h ->
  case <> "global" ->
  get_time_series int_of_str float_of_str self case h = (inr l, h') ->
  exists (frame : table) (records : list value),
    dict_get (df_time_series self) case = Some frame
    /\ h' !! l = Some {| data := VList records;
                         dt := datetime self; ts := timestamp self |}
    /\ Forall2 (fun row record =>
                  dict_keys (row_dict (columns frame) row)
                  = first_occurrences (map fst (combine (columns frame) row))
                  /\ time_series_record int_of_str float_of_str
                       (row_dict (columns frame) row) record)
               (rows frame) records.
Proof.
  intros Hc Hcase Hrun. unfold get_time_series in Hrun.
  assert (Hin : str_in case ["global"] = false).
  { cbn. apply String.eqb_neq in Hcase. by rewrite Hcase. }
  rewrite Hin in Hrun. cbn [negb] in Hrun. rewrite mbind_lift in Hrun.
  unfold dict_item in Hrun.
  destruct (dict_get (df_time_series self) case) as [frame|]; [|done].
  cbn [of_option Result.bind] in Hrun.
  destruct (extract_time_series _ _ _) as [e|records] eqn:Hext; [done|].
  rewrite pack_run in Hrun. injection Hrun as <- <-.
  exists frame, records. split; [done|].
  split; [by apply set_data_constructed|].
  apply mapM_Forall2 in Hext. unfold T_to_dict_values in Hext.
  apply Forall2_fmap_l in Hext.
  eapply Forall2_impl; [exact Hext|]. intros row record Hrow. cbn in Hrow.
  split; [apply row_dict_keys|].
  eapply extract_time_series_row_spec; [apply row_dict_NoDup | exact Hrow].
Qed.

End RecordFacts.

(** ** Tables that are accepted *)

Lemma mapM_total {A B} (f : A -> result B) (l : list A) :
  Forall (fun x => exists y, f x = inr y) l -> exists l', mapM f l = inr l'.
Proof.
  induction 1 as [|x t [y Hy] Ht [t' IH]]; cbn [mapM].
  - by exists [].
  - exists (y :: t'). by rewrite Hy, IH.
Qed.

Lemma mapM_map {A B} (f : A -> result B) (g : A -> B) (l : list A) :
  Forall (fun x => f x = inr (g x)) l -> mapM f l = inr (map g l).
Proof.
  induction 1 as [|x t Hx Ht IH]; cbn [mapM map]; [done|].
  by rewrite Hx, IH.
Qed.

Lemma mapM_fmap {A B C} (f : B -> result C) (g : A -> B) (l : list A) :
  mapM f (map g l) = mapM (fun x => f (g x)) l.
Proof.
  induction l as [|x t IH]; cbn [map mapM]; [done|]. by rewrite IH.
Qed.

Lemma mapM_fails {A B} (f : A -> result B) (l : list A) (x : A) (e : exn) :
  In x l -> f x = inl e -> exists e', mapM f l = inl e'.
Proof.
  induction l as [|y t IH]; [done|]. intros [->|Hin] Hx; cbn [mapM].
  - rewrite Hx. by exists e.
  - destruct (f y) as [e'|b]; [by exists e'|]. cbn [Result.bind].
    destruct (IH Hin Hx) as [e' ->]. by exists e'.
Qed.

Section Accepted.

Variable int_of_str : string -> option Z.
Variable float_of_str : string -> option value.

Lemma py_int_number (v : value) :
  is_number v = true -> exists z, py_int int_of_str v = inr z.
Proof. destruct v; try done; intros _; by eexists. Qed.

Lemma float_of_int_exact (z : Z) :
  (Z.abs z <? 2 ^ 53) = true -> float_of_int z = inr (VFloat (inject_Z z)).
Proof.
  intros Hz. unfold float_of_int, round_to_double. rewrite Hz.
  apply Z.ltb_lt in Hz.
  assert (H : (Z.abs z <? 2 ^ 1024) = true).
  { apply Z.ltb_lt. eapply Z.lt_trans; [exact Hz|]. by apply Z.pow_lt_mono_r. }
  by rewrite H.
Qed.

Lemma py_float_float (v : value) :
  is_float v = true -> exists x, py_float float_of_str v = inr x.
Proof.
  destruct v; try done; try (intros _; by eexists).
  cbn. intros Hz. rewrite (float_of_int_exact _ Hz). by eexists.
Qed.

Lemma int_items_total (excluded_cols : list string)
    (items : list (string * value)) (acc : dict Z) :
  Forall (fun kv => negb (str_in (fst kv) excluded_cols) = true ->
                    is_number (snd kv) = true) items ->
  exists temp, int_items int_of_str excluded_cols items acc = inr temp.
Proof.
  intros Hall. revert acc.
  induction Hall as [|[k v] t Hkv Ht IH]; intros acc; cbn [int_items].
  - by exists acc.
  - cbn [fst snd] in Hkv. destruct (str_in k excluded_cols); [apply IH|].
    destruct (py_int_number v (Hkv eq_refl)) as [z ->]. cbn [Result.bind].
    apply IH.
Qed.

Lemma float_item_total (data : dict value) (k : string) :
  (exists v, dict_get data k = Some v /\ is_float v = true) ->
  exists x, float_item float_of_str data k = inr x.
Proof.
  intros (v & Hv & Hf). unfold float_item, dict_item. rewrite Hv. cbn.
  by apply py_float_float.
Qed.

Lemma extract_time_series_row_total (data : dict value) :
  plain_row ["Province/State"; "Country/Region"] ["Lat"; "Long"]
            global_excluded_cols data ->
  exists record, extract_time_series_row int_of_str float_of_str data = inr record.
Proof.
  intros (Hreq & Hcoord & Hcells). unfold extract_time_series_row.
  inversion Hreq as [|? ? [province Hp] Hreq1]; subst.
  inversion Hreq1 as [|? ? [country Hcr] _]; subst.
  inversion Hcoord as [|? ? Hlat Hcoord1]; subst.
  inversion Hcoord1 as [|? ? Hlong _]; subst.
  unfold dict_item. rewrite Hp, Hcr. cbn [of_option Result.bind].
  destruct (float_item_total _ _ Hlat) as [lat ->].
  destruct (float_item_total _ _ Hlong) as [long ->]. cbn [Result.bind].
  unfold time_series_list.
  destruct (int_items_total global_excluded_cols data [] Hcells) as [temp Htemp].
  unfold global_excluded_cols in Htemp. rewrite Htemp. cbn [Result.bind].
  by eexists.
Qed.

Lemma extract_US_time_series_row_total (data : dict value) :
  plain_row ["Province_State"; "Country_Region"; "UID"; "iso2"; "iso3";
             "code3"; "FIPS"; "Admin2"]
            ["Lat"; "Long_"] US_excluded_cols data ->
  exists record,
    extract_US_time_series_row int_of_str float_of_str data = inr record.
Proof.
  intros (Hreq & Hcoord & Hcells). unfold extract_US_time_series_row.
  repeat match goal with
         | H : Forall _ (_ :: _) |- _ => inversion H; subst; clear H
         end.
  repeat match goal with
         | H : exists v, dict_get data _ = Some v |- _ =>
             let v := fresh "v" in destruct H as [v H]
         end.
  unfold dict_item.
  repeat match goal with
         | H : dict_get data _ = Some _ |- _ => rewrite H; clear H
         end.
  cbn [of_option Result.bind].
  repeat match goal with
         | H : exists v, dict_get data _ = Some v /\ _ |- _ =>
             let x := fresh "x" in
             destruct (float_item_total _ _ H) as [x ->]; clear H
         end.
  cbn [Result.bind]. unfold time_series_list.
  destruct (int_items_total US_excluded_cols data [] Hcells) as [temp ->].
  cbn [Result.bind]. by eexists.
Qed.

(** X12.  [get_time_series] with a case of the global time series
    returns, without parsing anything, when every row of the table has
    the columns [Province/State] and [Country/Region], in [Lat] and in
    [Long] a float or an integer below [2^53] in absolute value, and in
    every other column an integer or a finite float. *)
Theorem get_time_series_accepts_plain_rows
    (self : NovelCoronaAPIv2) (h : heap) (case : string) (frame : table) :
  case <> "global" ->
  dict_get (df_time_series self) case = Some frame ->
  Forall (fun row =>
            plain_row ["Province/State"; "Country/Region"] ["Lat"; "Long"]
                      global_excluded_cols (row_dict (columns frame) row))
         (rows frame) ->
  fst (get_time_series int_of_str float_of_str self case h) = inr (scheme self).
Proof.
  intros Hcase Hframe Hrows. unfold get_time_series.
  assert (Hin : str_in case ["global"] = false).
  { cbn. apply String.eqb_neq in Hcase. by rewrite Hcase. }
  rewrite Hin. cbn [negb]. rewrite mbind_lift. unfold dict_item.
  rewrite Hframe. cbn [of_option Result.bind].
  destruct (mapM_total (extract_time_series_row int_of_str float_of_str)
              (T_to_dict_values frame)) as [records Hrecords].
  { unfold T_to_dict_values. apply Forall_fmap.
    eapply Forall_impl; [exact Hrows|]. intros row Hrow. cbn.
    by apply extract_time_series_row_total. }
  unfold extract_time_series. rewrite Hrecords. by rewrite pack_run.
Qed.

(** X13.  [get_US_time_series] with "confirmed" or "deaths" returns,
    without parsing anything, when the table of the case is there and
    every row has the eight identity columns, in [Lat] and in [Long_] a
    float or an integer below [2^53] in absolute value, and an integer
    or a finite float in every column outside the excluded ones.  The
    columns [Combined_Key] and [Population] need not be there, and may
    hold anything. *)
Theorem get_US_time_series_accepts_plain_rows
    (self : NovelCoronaAPIv2) (h : heap) (case : string) (frame : table) :
  case = "confirmed" \/ case = "deaths" ->
  dict_get (df_US_time_series self) case = Some frame ->
  Forall (fun row =>
            plain_row ["Province_State"; "Country_Region"; "UID"; "iso2"; "iso3";
                       "code3"; "FIPS"; "Admin2"]
                      ["Lat"; "Long_"] US_excluded_cols
                      (row_dict (columns frame) row))
         (rows frame) ->
  fst (get_US_time_series int_of_str float_of_str self case h)
  = inr (scheme self).
Proof.
  intros Hcase Hframe Hrows. unfold get_US_time_series.
  assert (Hin : str_in case ["confirmed"; "deaths"] = true).
  { apply str_in_In. cbn. destruct Hcase; auto. }
  rewrite Hin. cbn [negb]. rewrite mbind_lift. unfold dict_item.
  rewrite Hframe. cbn [of_option Result.bind].
  destruct (mapM_total (extract_US_time_series_row int_of_str float_of_str)
              (T_to_dict_values frame)) as [records Hrecords].
  { unfold T_to_dict_values. apply Forall_fmap.
    eapply Forall_impl; [exact Hrows|]. intros row Hrow. cbn.
    by apply extract_US_time_series_row_total. }
  unfold extract_US_time_series. rewrite Hrecords. by rewrite pack_run.
Qed.

(** X14.  One cell that [int] refuses fails the whole call: when a row
    of the table has [nan] in a column that goes into [TimeSeries],
    [get_time_series] raises and returns no record at all. *)
Theorem get_time_series_nan_cell
    (self : NovelCoronaAPIv2) (h : heap) (case : string) (frame : table)
    (row : list value) (k : string) :
  case <> "global" ->
  dict_get (df_time_series self) case = Some frame ->
  In row (rows frame) ->
  dict_get (row_dict (columns frame) row) k = Some VNaN ->
  kept global_excluded_cols k = true ->
  exists e, get_time_series int_of_str float_of_str self case h = (inl e, h).
Proof.
  intros Hcase Hframe Hrow Hcell Hkept. unfold get_time_series.
  assert (Hin : str_in case ["global"] = false).
  { cbn. apply String.eqb_neq in Hcase. by rewrite Hcase. }
  rewrite Hin. cbn [negb]. rewrite mbind_lift. unfold dict_item.
  rewrite Hframe. cbn [of_option Result.bind].
  set (data := row_dict (columns frame) row) in *.
  assert (Hfail : exists e,
            extract_time_series_row int_of_str float_of_str data = inl e).
  { destruct (extract_time_series_row int_of_str float_of_str data)
      as [e|record] eqn:Hext; [by exists e|]. exfalso.
    apply extract_time_series_row_spec in Hext; [|apply row_dict_NoDup].
    destruct Hext as (? & ? & ? & ? & ? & ? & series & _ & _ & _ & _ & _ & _ & _
                      & Hkeys & Hall).
    assert (Hk : In k (dict_keys series)).
    { rewrite Hkeys. apply filter_In. split; [|done].
      apply dict_get_Some_In in Hcell. unfold dict_keys.
      apply in_map_iff. by exists (k, VNaN). }
    apply in_map_iff in Hk as ([k' z] & Hk' & Hkz). cbn in Hk'. subst k'.
    rewrite List.Forall_forall in Hall.
    destruct (Hall _ Hkz) as (v & Hv & Hint & _). cbn [fst snd] in Hv, Hint.
    rewrite Hcell in Hv. injection Hv as <-. discriminate Hint. }
  destruct Hfail as [e He].
  destruct (mapM_fails (extract_time_series_row int_of_str float_of_str)
              (T_to_dict_values frame) data e) as [e' He']; [|done|].
  { unfold T_to_dict_values. apply in_map_iff. by exists row. }
  unfold extract_time_series. rewrite He'. by exists e'.
Qed.

End Accepted.

(** ** The global totals of tables of integers *)

Lemma wrap32_small (z : Z) : in_int32 z = true -> wrap32 z = z.
Proof.
  unfold in_int32, wrap32. intros [H1 H2]%andb_prop.
  apply Z.leb_le in H1. apply Z.ltb_lt in H2.
  rewrite Z.mod_small; lia.
Qed.

Section GlobalTotals.

Variable int_of_str : string -> option Z.

Lemma astype_int32_cell (row : list value) (j : nat) :
  Forall (fun v => exists z, v = VInt z /\ in_int32 z = true) row ->
  (j < length row)%nat ->
  astype_int32 int_of_str (nth j row VNone) = inr (int_cell (nth j row VNone)).
Proof.
  intros Hrow Hj. rewrite Forall_forall in Hrow.
  destruct (Hrow (nth j row VNone)) as (z & -> & Hz).
  { apply list_elem_of_In. by apply nth_In. }
  cbn. by rewrite wrap32_small.
Qed.

Lemma column_total_ints (t : table) (j : nat) :
  int32_table t -> (4 + j < length (columns t))%nat ->
  column_total int_of_str (iloc_from 4 t) j
  = inr (total (column_of_ints t (4 + j))).
Proof.
  intros Ht Hj. unfold column_total, column_cells, column_of_ints, iloc_from.
  cbn [rows]. rewrite map_map, mapM_fmap.
  rewrite (mapM_map _ (fun row => int_cell (nth (4 + j) row VNone))).
  - cbn [Result.bind]. by rewrite fold_left_add_fold_right.
  - eapply Forall_impl; [exact Ht|].
    intros row [Hlen Hcells]. cbn.
    rewrite (astype_int32_cell _ _ Hcells).
    + by rewrite nth_drop.
    + rewrite length_drop. lia.
Qed.

Lemma date_totals_ints (t : table) (dates : list string) :
  int32_table t -> drop 4 (columns t) = dates ->
  date_totals int_of_str t
  = inr (combine dates
           (map (fun j => total (column_of_ints t (4 + j)))
                (seq 0 (length dates)))).
Proof.
  intros Ht Hdates. unfold date_totals. cbn [iloc_from columns].
  rewrite Hdates.
  rewrite (mapM_map _ (fun j => total (column_of_ints t (4 + j)))); [done|].
  apply Forall_forall. intros j Hj%list_elem_of_In%in_seq.
  apply column_total_ints; [done|].
  rewrite <- Hdates, length_drop in Hj. lia.
Qed.

Lemma nth_combine_Some (dates : list string) (zs : list Z) (j : nat) :
  length zs = length dates -> (j < length dates)%nat ->
  nth j (map (fun dz : string * Z => Some (snd dz)) (combine dates zs)) None
  = Some (nth j zs 0).
Proof.
  intros Hlen Hj.
  rewrite (nth_map_Some (combine dates zs) j 0).
  - by destruct (combine_split_full dates zs Hlen) as [_ ->].
  - rewrite length_combine. lia.
Qed.

(** The entries that the totals [tot] of the cases give, when every
    case has one total per date. *)
Lemma global_entries_of_totals (dates : list string)
    (tot : list (string * list Z)) :
  tot <> [] -> NoDup dates -> NoDup (map fst tot) ->
  Forall (fun ks => length (snd ks) = length dates) tot ->
  (let* frame := concat_columns
                   (map (fun ks => (fst ks, combine dates (snd ks))) tot) in
   ret (map (fun kv => VDict [(fst kv, VDict (snd kv))]) (T_to_dict frame)))%res
  = inr (map (fun jd =>
                VDict [(snd jd,
                        VDict (map (fun ks => (fst ks, VInt (nth (fst jd) (snd ks) 0)))
                                   tot))])
             (combine (seq 0 (length dates)) dates)).
Proof.
  intros Hne Hdates Hkinds Hlen.
  rewrite (concat_columns_aligned dates).
  - cbn [Result.bind]. rewrite T_to_dict_aligned; [|done| |].
    + unfold Result.ret. f_equal. rewrite map_map. apply map_ext_in.
      intros [j d] Hjd. cbn [fst snd]. do 4 f_equal.
      rewrite !map_map. apply map_ext_in. intros [k zs] Hks. cbn [fst snd].
      rewrite nth_combine_Some; [done| |].
      * rewrite Forall_forall in Hlen.
        by apply (Hlen (k, zs)), list_elem_of_In.
      * apply in_combine_l, in_seq in Hjd. lia.
    + rewrite !map_map. cbn [fst]. exact Hkinds.
    + apply Forall_forall. intros kc Hkc%list_elem_of_In.
      apply in_map_iff in Hkc as (ks & <- & _). cbn [snd].
      apply Forall_forall. intros c Hc%list_elem_of_In.
      apply in_map_iff in Hc as (dz & <- & _). done.
  - by destruct tot.
  - apply Forall_forall. intros ks Hks%list_elem_of_In.
    apply in_map_iff in Hks as (ks' & <- & Hks'). cbn [snd].
    rewrite Forall_forall in Hlen.
    specialize (Hlen ks' (proj2 (list_elem_of_In _ _) Hks')).
    by destruct (combine_split_full dates (snd ks') Hlen) as [-> _].
Qed.

End GlobalTotals.

Lemma nth_map_seq {A} (f : nat -> A) (n j : nat) (d : A) :
  (j < n)%nat -> nth j (map f (seq 0 n)) d = f j.
Proof.
  intros Hj. rewrite (nth_indep _ d (f 0%nat)) by (rewrite length_map, length_seq; lia).
  rewrite map_nth, seq_nth; [done | lia].
Qed.

(** X15.  When the tables of the cases have the same date columns, with
    distinct labels, rows as long as the header and, from the fifth
    column on, integers that fit in 32 bits, [get_time_series("global")]
    returns, and the total of a case at a date is exactly the sum of the
    cells of that date column of the table of the case. *)
Theorem get_time_series_global_of_integers
    (int_of_str : string -> option Z) (float_of_str : string -> option value)
    (self : NovelCoronaAPIv2) (h : heap) (dates : list string) :
  constructed self h ->
  df_time_series self <> [] ->
  NoDup (dict_keys (df_time_series self)) ->
  NoDup dates ->
  Forall (fun kt => drop 4 (columns (snd kt)) = dates /\ int32_table (snd kt))
         (df_time_series self) ->
  fst (get_time_series int_of_str float_of_str self "global" h)
  = inr (scheme self)
  /\ returned data (get_time_series int_of_str float_of_str self "global" h)
     = Some (VList
               (map (fun jd =>
                       VDict [(snd jd,
                               VDict (map (fun kt =>
                                             (fst kt,
                                              VInt (total (column_of_ints (snd kt)
                                                             (4 + fst jd)))))
                                          (df_time_series self)))])
                    (combine (seq 0 (length dates)) dates))).
Proof.
  intros Hc Hne Hkinds Hdates Htables.
  set (totals_of := fun kt : string * table =>
         (fst kt, map (fun j => total (column_of_ints (snd kt) (4 + j)))
                      (seq 0 (length dates)))).
  assert (Hext : extract_time_series_global int_of_str (df_time_series self)
                 = inr (map (fun jd =>
                          VDict [(snd jd,
                                  VDict (map (fun ks => (fst ks, VInt (nth (fst jd) (snd ks) 0)))
                                             (map totals_of (df_time_series self))))])
                          (combine (seq 0 (length dates)) dates))).
  { unfold extract_time_series_global.
    rewrite (mapM_map _ (fun kt => (fst (totals_of kt),
                                    combine dates (snd (totals_of kt))))).
    - cbn [Result.bind].
      rewrite <- (map_map totals_of
                    (fun ks => (fst ks, combine dates (snd ks)))).
      apply global_entries_of_totals; try done.
      + by destruct (df_time_series self).
      + by rewrite map_map.
      + apply Forall_fmap, Forall_forall. intros kt _. cbn.
        by rewrite length_map, length_seq.
    - eapply Forall_impl; [exact Htables|]. intros kt [Hd Ht]. cbn.
      by rewrite (date_totals_ints int_of_str _ dates Ht Hd). }
  unfold get_time_series.
  change (str_in "global" ["global"]) with true. cbn [negb].
  rewrite mbind_lift, Hext, pack_run. split; [done|].
  rewrite (returned_pack data _ _ _ Hc). cbn [data]. do 2 f_equal.
  apply map_ext_in. intros [j d] Hjd. cbn [fst snd]. do 4 f_equal.
  rewrite map_map. apply map_ext. intros kt. unfold totals_of. cbn [fst snd].
  rewrite nth_map_seq; [done|]. apply in_combine_l, in_seq in Hjd. lia.
Qed.

(** ** The order of the daily reports *)

Lemma string_lt_irrefl (a : string) : ~ string_lt a a.
Proof. unfold string_lt. by rewrite string_compare_refl. Qed.

Lemma string_lt_asym (a b : string) : string_lt a b -> ~ string_lt b a.
Proof.
  intros Hab Hba. apply (string_lt_irrefl a).
  exact (string_compare_lt_trans _ _ _ Hab Hba).
Qed.

Lemma strictly_sorted_unique (l l' : list string) :
  StronglySorted string_lt l -> StronglySorted string_lt l' ->
  (forall k, In k l <-> In k l') -> l = l'.
Proof.
  intros Hl. revert l'.
  induction Hl as [|x t Ht IH Hx]; intros l' Hl' Hsame.
  - destruct l' as [|y t']; [done|]. exfalso. apply (Hsame y). by left.
  - destruct Hl' as [|y t' Ht' Hy].
    { exfalso. apply (Hsame x). by left. }
    rewrite List.Forall_forall in Hx, Hy.
    assert (Hxy : x = y).
    { destruct (proj1 (Hsame x) (or_introl eq_refl)) as [->|Hxt']; [done|].
      destruct (proj2 (Hsame y) (or_introl eq_refl)) as [->|Hyt]; [done|].
      exfalso. exact (string_lt_asym _ _ (Hx y Hyt) (Hy x Hxt')). }
    subst y. f_equal. apply IH; [done|]. intros k. split; intros Hk.
    + destruct (proj1 (Hsame k) (or_intror Hk)) as [<-|Hk']; [|done].
      exfalso. exact (string_lt_irrefl _ (Hx _ Hk)).
    + destruct (proj2 (Hsame k) (or_intror Hk)) as [<-|Hk']; [|done].
      exfalso. exact (string_lt_irrefl _ (Hy _ Hk)).
Qed.

Lemma sorted_locations (groups : list country_row) :
  Sorted location_lt groups -> StronglySorted string_lt (map location groups).
Proof.
  intros Hs. apply Sorted_StronglySorted in Hs; [|exact location_lt_trans].
  induction Hs as [|g t Ht IH Hall]; cbn; constructor; [done|].
  rewrite List.Forall_forall in *. intros k Hk.
  apply in_map_iff in Hk as (g' & <- & Hg'). by apply Hall.
Qed.

Lemma groupby_sum_closed_form (rows : list daily_row) :
  groupby_sum rows
  = map (group_from rows) (map location (groupby_sum rows)).
Proof.
  rewrite map_map.
  transitivity (map (fun g => g) (groupby_sum rows)); [by rewrite map_id|].
  apply map_ext_in. intros g Hg. destruct g as [k c d r a]. unfold group_from.
  cbn [location].
  pose proof (groupby_sum_group Confirmed confirmed rows _
                (fun _ => eq_refl) (fun _ _ => eq_refl) Hg) as Hc.
  pose proof (groupby_sum_group Deaths deaths rows _
                (fun _ => eq_refl) (fun _ _ => eq_refl) Hg) as Hd.
  pose proof (groupby_sum_group Recovered recovered rows _
                (fun _ => eq_refl) (fun _ _ => eq_refl) Hg) as Hr.
  pose proof (groupby_sum_group Active active rows _
                (fun _ => eq_refl) (fun _ _ => eq_refl) Hg) as Ha.
  cbn [confirmed deaths recovered active location] in Hc, Hd, Hr, Ha.
  by rewrite <- Hc, <- Hd, <- Hr, <- Ha.
Qed.

Lemma total_filter_perm (column : daily_row -> Z) (f : daily_row -> bool)
    (l l' : list daily_row) :
  Permutation l l' ->
  fold_right Z.add 0 (map column (List.filter f l))
  = fold_right Z.add 0 (map column (List.filter f l')).
Proof.
  induction 1 as [|x l l' Hp IH|x y l|l l' l'' H1 IH1 H2 IH2]; cbn.
  - done.
  - destruct (f x); cbn; lia.
  - destruct (f x), (f y); cbn; lia.
  - congruence.
Qed.

Lemma groupby_sum_perm (rows rows' : list daily_row) :
  Permutation rows rows' -> groupby_sum rows = groupby_sum rows'.
Proof.
  intros Hp.
  rewrite (groupby_sum_closed_form rows), (groupby_sum_closed_form rows').
  assert (Hloc : map location (groupby_sum rows) = map location (groupby_sum rows')).
  { apply strictly_sorted_unique;
      [apply sorted_locations, groupby_sum_sorted..|].
    intros k. rewrite !groupby_sum_locations. split; apply Permutation_in.
    - by apply Permutation_map.
    - by apply Permutation_map, Permutation_sym. }
  rewrite Hloc. apply map_ext. intros k. unfold group_from, reports_of, total.
  f_equal; f_equal; by apply total_filter_perm.
Qed.

Lemma py_max_perm (l l' : list string) :
  Permutation l l' -> py_max l = py_max l'.
Proof.
  intros Hp.
  destruct (py_max l) as [e|m] eqn:Hm, (py_max l') as [e'|m'] eqn:Hm'.
  - apply py_max_empty in Hm as [_ ->]. by apply py_max_empty in Hm' as [_ ->].
  - apply py_max_empty in Hm as [-> _]. apply Permutation_nil in Hp. by subst.
  - apply py_max_empty in Hm' as [-> _]. apply Permutation_sym, Permutation_nil in Hp.
    by subst.
  - apply py_max_greatest in Hm as [Hin Hmax].
    apply py_max_greatest in Hm' as [Hin' Hmax'].
    f_equal. apply String.compare_eq_iff.
    pose proof (Hmax m' (Permutation_in _ (Permutation_sym Hp) Hin')) as H1.
    pose proof (Hmax' m (Permutation_in _ Hp Hin)) as H2.
    unfold String.ltb in H1, H2. rewrite String.compare_antisym in H2.
    by destruct (String.compare m m').
Qed.

(** X16.  The order of the rows of the daily reports does not matter to
    [__init__]: from the same rows in another order it fails or succeeds
    alike, and builds the same object, with the same aggregate, [dt] and
    [ts]. *)
Theorem init_ignores_row_order
    (strptime_timestamp : string -> option Q)
    (daily_reports daily_reports' : list daily_row)
    (time_series US_time_series : dict table)
    (lookup : gmap string string) (h : heap) :
  Permutation daily_reports daily_reports' ->
  match init strptime_timestamp daily_reports time_series US_time_series lookup h,
        init strptime_timestamp daily_reports' time_series US_time_series lookup h
  with
  | (inr a, h1), (inr b, h1') =>
      scheme a = scheme b /\ h1 = h1'
      /\ df_grp_by_country a = df_grp_by_country b
      /\ datetime a = datetime b /\ timestamp a = timestamp b
  | (inl e, h1), (inl e', h1') => e = e' /\ h1 = h1'
  | _, _ => False
  end.
Proof.
  intros Hp. unfold init. rewrite !mbind_lift.
  rewrite <- (py_max_perm _ _ (Permutation_map Last_Update Hp)).
  destruct (py_max (map Last_Update daily_reports)) as [e|latest]; [done|].
  rewrite !mbind_lift.
  destruct (strptime_timestamp latest) as [stamp|]; [|done].
  cbn [of_option]. unfold mbind, alloc, mret.
  cbn [scheme df_grp_by_country datetime timestamp].
  by rewrite (groupby_sum_perm _ _ Hp).
Qed.

(** ** Instances of the further properties *)

Lemma get_country_lookup_miss_witness :
  constructed Examples.api Examples.store
  /\ ~ In "atlantis"
         (lowered_locations Instances.lower
            (Instances.stable_sort_values (df_grp_by_country Examples.api)))
  /\ lookup_table Examples.api !! Instances.upper "atlantis" = None
  /\ get_country Instances.lower Instances.upper Instances.stable_sort_values
       Examples.api "atlantis" Examples.store
     = (inl (KeyError (Instances.upper "atlantis")),
        snd (get_current Instances.stable_sort_values Examples.api Examples.store))
  /\ snd (get_current Instances.stable_sort_values Examples.api Examples.store)
       !! scheme Examples.api
     = Some {| data := VList (map country_record
                                  (Instances.stable_sort_values
                                     (df_grp_by_country Examples.api)));
               dt := datetime Examples.api; ts := timestamp Examples.api |}.
Proof.
  assert (Hnot : ~ In "atlantis"
                     (lowered_locations Instances.lower
                        (Instances.stable_sort_values
                           (df_grp_by_country Examples.api)))).
  { vm_compute. intros [H|[H|[H|[]]]]; discriminate H. }
  split; [exists VNone; reflexivity|]. split; [exact Hnot|].
  split; [vm_compute; reflexivity|].
  apply get_country_lookup_miss;
    [exists VNone; reflexivity | exact Hnot | vm_compute; reflexivity].
Defined.

Lemma get_country_unlisted_country_witness :
  sort_values_spec Instances.stable_sort_values
  /\ constructed Examples.atlas_api Examples.store
  /\ ~ In "gl" (lowered_locations Instances.lower
                  (df_grp_by_country Examples.atlas_api))
  /\ lookup_table Examples.atlas_api !! Instances.upper "gl" = Some "Greenland"
  /\ ~ In (Instances.lower "Greenland")
         (lowered_locations Instances.lower
            (df_grp_by_country Examples.atlas_api))
  /\ fst (get_country Instances.lower Instances.upper
            Instances.stable_sort_values Examples.atlas_api "gl"
            Examples.store)
     = inl IndexError.
Proof.
  assert (H1 : ~ In "gl" (lowered_locations Instances.lower
                            (df_grp_by_country Examples.atlas_api))).
  { vm_compute. intros [H|[H|[H|[]]]]; discriminate H. }
  assert (H2 : ~ In (Instances.lower "Greenland")
                   (lowered_locations Instances.lower
                      (df_grp_by_country Examples.atlas_api))).
  { vm_compute. intros [H|[H|[H|[]]]]; discriminate H. }
  split; [apply SortFacts.stable_sort_values_spec|].
  split; [exists VNone; reflexivity|]. split; [exact H1|].
  split; [vm_compute; reflexivity|]. split; [exact H2|].
  apply (get_country_unlisted_country _ _ _ _ _ "gl" "Greenland");
    [apply SortFacts.stable_sort_values_spec | exists VNone; reflexivity
    | exact H1 | vm_compute; reflexivity | exact H2].
Defined.

Lemma get_country_returns_a_listed_record_witness :
  sort_values_spec Instances.stable_sort_values
  /\ constructed Examples.api Examples.store
  /\ exists (l : loc) (h' : heap),
       get_country Instances.lower Instances.upper Instances.stable_sort_values
         Examples.api "it" Examples.store
       = (inr l, h')
       /\ exists (g : country_row) (name : string),
            h' !! l = Some {| data := country_record g;
                              dt := datetime Examples.api;
                              ts := timestamp Examples.api |}
            /\ In g (df_grp_by_country Examples.api)
            /\ In (country_record g)
                  (map country_record
                     (Instances.stable_sort_values (df_grp_by_country Examples.api)))
            /\ Instances.lower (location g) = Instances.lower name
            /\ (name = "it"
                \/ lookup_table Examples.api !! Instances.upper "it" = Some name).
Proof.
  split; [apply SortFacts.stable_sort_values_spec|].
  split; [exists VNone; reflexivity|].
  exists (scheme Examples.api),
         (snd (get_country Instances.lower Instances.upper
                 Instances.stable_sort_values Examples.api "it"
                 Examples.store)).
  split; [vm_compute; reflexivity|].
  apply (get_country_returns_a_listed_record Instances.lower Instances.upper
           Instances.stable_sort_values Examples.api Examples.store).
  - apply SortFacts.stable_sort_values_spec.
  - exists VNone. reflexivity.
  - vm_compute. reflexivity.
Defined.

Lemma call_ignores_earlier_calls_witness :
  constructed Examples.api Examples.store
  /\ constructed Examples.api
       (snd (get_total Examples.api Examples.store))
  /\ fst (call Instances.lower Instances.upper Instances.stable_sort_values Instances.decimal_int
            Instances.decimal_float Examples.api (GetCountry "cn") Examples.store)
     = fst (call Instances.lower Instances.upper Instances.stable_sort_values Instances.decimal_int
              Instances.decimal_float Examples.api (GetCountry "cn")
              (snd (get_total Examples.api Examples.store)))
  /\ returned id (call Instances.lower Instances.upper Instances.stable_sort_values Instances.decimal_int
                    Instances.decimal_float Examples.api (GetCountry "cn")
                    Examples.store)
     = returned id (call Instances.lower Instances.upper Instances.stable_sort_values Instances.decimal_int
                      Instances.decimal_float Examples.api (GetCountry "cn")
                      (snd (get_total Examples.api Examples.store))).
Proof.
  assert (H2 : constructed Examples.api
                 (snd (get_total Examples.api Examples.store))).
  { eexists. vm_compute. reflexivity. }
  split; [exists VNone; reflexivity|]. split; [exact H2|].
  apply call_ignores_earlier_calls; [exists VNone; reflexivity | exact H2].
Defined.

Lemma call_that_raises_witness :
  constructed Examples.api Examples.store
  /\ call Instances.lower Instances.upper Instances.stable_sort_values Instances.decimal_int
       Instances.decimal_float Examples.api (GetCountry "atlantis") Examples.store
     = (inl (KeyError "ATLANTIS"),
        snd (call Instances.lower Instances.upper Instances.stable_sort_values Instances.decimal_int
               Instances.decimal_float Examples.api (GetCountry "atlantis")
               Examples.store))
  /\ snd (call Instances.lower Instances.upper Instances.stable_sort_values Instances.decimal_int
            Instances.decimal_float Examples.api (GetCountry "atlantis")
            Examples.store)
     = snd (get_current Instances.stable_sort_values Examples.api Examples.store).
Proof.
  split; [exists VNone; reflexivity|]. split; [vm_compute; reflexivity|].
  apply (call_that_raises Instances.lower Instances.upper
           Instances.stable_sort_values Instances.decimal_int
           Instances.decimal_float Examples.api (GetCountry "atlantis")
           Examples.store _ (KeyError "ATLANTIS"));
    [exists VNone; reflexivity | vm_compute; reflexivity].
Defined.

Lemma two_services_do_not_interfere_witness :
  exists (a b : NovelCoronaAPIv2) (h1 h2 : heap),
    init Instances.utc_timestamp Examples.daily_reports Examples.time_series
         Examples.US_time_series Examples.lookup ∅
    = (inr a, h1)
    /\ init Instances.utc_timestamp Examples.reports_X [] [] ∅ h1 = (inr b, h2)
    /\ scheme a <> scheme b
    /\ snd (calls Instances.lower Instances.upper Instances.stable_sort_values Instances.decimal_int
              Instances.decimal_float b Examples.session h2) !! scheme a
       = Some {| data := VNone; dt := datetime a; ts := timestamp a |}
    /\ snd (calls Instances.lower Instances.upper Instances.stable_sort_values Instances.decimal_int
              Instances.decimal_float a Examples.session h2) !! scheme b
       = Some {| data := VNone; dt := datetime b; ts := timestamp b |}.
Proof.
  assert (Ha : init Instances.utc_timestamp Examples.daily_reports
                    Examples.time_series Examples.US_time_series Examples.lookup ∅
               = (inr Examples.api, Examples.store)).
  { vm_compute. reflexivity. }
  destruct (init Instances.utc_timestamp Examples.reports_X [] [] ∅ Examples.store)
    as [[e|b] h2] eqn:Hb.
  { vm_compute in Hb. discriminate Hb. }
  exists Examples.api, b, Examples.store, h2.
  split; [exact Ha|]. split; [exact Hb|].
  exact (two_services_do_not_interfere _ Instances.lower Instances.upper
           Instances.stable_sort_values Instances.decimal_int Instances.decimal_float _ _ _ _ _ _ _ _ _ _ _ _ _
           Examples.session Ha Hb).
Defined.

Lemma get_current_lists_each_country_witness :
  sort_values_spec Instances.stable_sort_values
  /\ init Instances.utc_timestamp Examples.daily_reports Examples.time_series
          Examples.US_time_series Examples.lookup ∅
     = (inr Examples.api, Examples.store)
  /\ constructed Examples.api Examples.store
  /\ exists sorted : list country_row,
       returned data (get_current Instances.stable_sort_values Examples.api
                        Examples.store)
       = Some (VList (map country_record sorted))
       /\ NoDup (map location sorted)
       /\ (forall k, In k (map location sorted)
                     <-> In k (map Country_Region Examples.daily_reports))
       /\ forall g, In g sorted ->
            int64_sum (map Confirmed
                         (reports_of (location g) Examples.daily_reports))
                      (confirmed g)
            /\ int64_sum (map Deaths
                            (reports_of (location g) Examples.daily_reports))
                         (deaths g)
            /\ int64_sum (map Recovered
                            (reports_of (location g) Examples.daily_reports))
                         (recovered g)
            /\ int64_sum (map Active
                            (reports_of (location g) Examples.daily_reports))
                         (active g).
Proof.
  assert (Hinit : init Instances.utc_timestamp Examples.daily_reports
                       Examples.time_series Examples.US_time_series
                       Examples.lookup ∅
                  = (inr Examples.api, Examples.store)).
  { vm_compute. reflexivity. }
  split; [apply SortFacts.stable_sort_values_spec|]. split; [exact Hinit|].
  split; [exists VNone; reflexivity|].
  eapply get_current_lists_each_country;
    [apply SortFacts.stable_sort_values_spec | exact Hinit
    | exists VNone; reflexivity].
Defined.

Lemma get_current_adds_up_to_get_total_witness :
  sort_values_spec Instances.stable_sort_values
  /\ init Instances.utc_timestamp Examples.daily_reports Examples.time_series
          Examples.US_time_series Examples.lookup ∅
     = (inr Examples.api, Examples.store)
  /\ constructed Examples.api Examples.store
  /\ exists (sorted : list country_row) (c d r a : Z),
       returned data (get_current Instances.stable_sort_values Examples.api
                        Examples.store)
       = Some (VList (map country_record sorted))
       /\ returned data (get_total Examples.api Examples.store)
          = Some (VDict [("confirmed", VInt c); ("deaths", VInt d);
                         ("recovered", VInt r); ("active", VInt a)])
       /\ int64_sum (map confirmed sorted) c
       /\ int64_sum (map deaths sorted) d
       /\ int64_sum (map recovered sorted) r
       /\ int64_sum (map active sorted) a.
Proof.
  assert (Hinit : init Instances.utc_timestamp Examples.daily_reports
                       Examples.time_series Examples.US_time_series
                       Examples.lookup ∅
                  = (inr Examples.api, Examples.store)).
  { vm_compute. reflexivity. }
  split; [apply SortFacts.stable_sort_values_spec|]. split; [exact Hinit|].
  split; [exists VNone; reflexivity|].
  eapply get_current_adds_up_to_get_total;
    [apply SortFacts.stable_sort_values_spec | exact Hinit
    | exists VNone; reflexivity].
Defined.

Lemma get_time_series_records_witness :
  exists (l : loc) (h' : heap),
    constructed Examples.api Examples.store
    /\ "deaths" <> "global"
    /\ get_time_series Instances.decimal_int Instances.decimal_float Examples.api
         "deaths" Examples.store
       = (inr l, h')
    /\ exists (frame : table) (records : list value),
         dict_get (df_time_series Examples.api) "deaths" = Some frame
         /\ h' !! l = Some {| data := VList records;
                              dt := datetime Examples.api;
                              ts := timestamp Examples.api |}
         /\ Forall2 (fun row record =>
                       dict_keys (row_dict (columns frame) row)
                       = first_occurrences (map fst (combine (columns frame) row))
                       /\ time_series_record Instances.decimal_int
                            Instances.decimal_float
                            (row_dict (columns frame) row) record)
                    (rows frame) records.
Proof.
  exists (scheme Examples.api),
         (snd (get_time_series Instances.decimal_int Instances.decimal_float
                 Examples.api "deaths" Examples.store)).
  split; [exists VNone; reflexivity|]. split; [discriminate|].
  split; [vm_compute; reflexivity|].
  apply (get_time_series_records Instances.decimal_int Instances.decimal_float
           Examples.api Examples.store).
  - exists VNone. reflexivity.
  - discriminate.
  - vm_compute. reflexivity.
Defined.

(** The rows of an example table are plain: every obligation is
    decided by evaluation. *)
Ltac plain_cells :=
  vm_compute;
  repeat (constructor;
          [first [vm_compute; intros _; reflexivity
                 | vm_compute; intros H; discriminate H]|]);
  constructor.

Ltac plain_row_tac :=
  split; [|split];
  [ repeat (constructor; [eexists; vm_compute; reflexivity|]); constructor
  | repeat (constructor; [eexists; split; [vm_compute; reflexivity | reflexivity]|]);
    constructor
  | plain_cells ].

Lemma get_time_series_accepts_plain_rows_witness :
  "confirmed" <> "global"
  /\ dict_get (df_time_series Examples.api) "confirmed"
     = Some Examples.global_confirmed
  /\ Forall (fun row =>
               plain_row ["Province/State"; "Country/Region"] ["Lat"; "Long"]
                         global_excluded_cols
                         (row_dict (columns Examples.global_confirmed) row))
            (rows Examples.global_confirmed)
  /\ fst (get_time_series Instances.decimal_int Instances.decimal_float
            Examples.api "confirmed" Examples.store)
     = inr (scheme Examples.api).
Proof.
  assert (Hrows : Forall (fun row =>
               plain_row ["Province/State"; "Country/Region"] ["Lat"; "Long"]
                         global_excluded_cols
                         (row_dict (columns Examples.global_confirmed) row))
            (rows Examples.global_confirmed)).
  { unfold Examples.global_confirmed. cbn [rows columns].
    repeat (constructor; [plain_row_tac|]). constructor. }
  split; [discriminate|]. split; [reflexivity|]. split; [exact Hrows|].
  apply (get_time_series_accepts_plain_rows _ _ _ _ _ Examples.global_confirmed);
    [discriminate | reflexivity | exact Hrows].
Defined.

Lemma get_US_time_series_accepts_plain_rows_witness :
  ("confirmed" = "confirmed" \/ "confirmed" = "deaths")
  /\ dict_get (df_US_time_series Examples.api) "confirmed"
     = Some Examples.US_confirmed
  /\ ~ In "Population" (columns Examples.US_confirmed)
  /\ Forall (fun row =>
               plain_row ["Province_State"; "Country_Region"; "UID"; "iso2"; "iso3";
                          "code3"; "FIPS"; "Admin2"]
                         ["Lat"; "Long_"] US_excluded_cols
                         (row_dict (columns Examples.US_confirmed) row))
            (rows Examples.US_confirmed)
  /\ fst (get_US_time_series Instances.decimal_int Instances.decimal_float
            Examples.api "confirmed" Examples.store)
     = inr (scheme Examples.api).
Proof.
  assert (Hrows : Forall (fun row =>
               plain_row ["Province_State"; "Country_Region"; "UID"; "iso2"; "iso3";
                          "code3"; "FIPS"; "Admin2"]
                         ["Lat"; "Long_"] US_excluded_cols
                         (row_dict (columns Examples.US_confirmed) row))
            (rows Examples.US_confirmed)).
  { unfold Examples.US_confirmed. cbn [rows columns].
    repeat (constructor; [plain_row_tac|]). constructor. }
  split; [by left|]. split; [reflexivity|].
  split; [vm_compute; intuition discriminate|]. split; [exact Hrows|].
  apply (get_US_time_series_accepts_plain_rows _ _ _ _ _ Examples.US_confirmed);
    [by left | reflexivity | exact Hrows].
Defined.

Lemma get_time_series_nan_cell_witness :
  "confirmed" <> "global"
  /\ dict_get (df_time_series Examples.gap_api) "confirmed" = Some Examples.gap_table
  /\ In [VNaN; VStr "Thailand"; VFloat 15; VFloat 101; VInt 2; VNaN]
        (rows Examples.gap_table)
  /\ dict_get (row_dict (columns Examples.gap_table)
                 [VNaN; VStr "Thailand"; VFloat 15; VFloat 101; VInt 2; VNaN])
              "1/23/20"
     = Some VNaN
  /\ kept global_excluded_cols "1/23/20" = true
  /\ exists e, get_time_series Instances.decimal_int Instances.decimal_float
                 Examples.gap_api "confirmed" Examples.store
               = (inl e, Examples.store).
Proof.
  split; [discriminate|]. split; [reflexivity|].
  split; [cbn; tauto|]. split; [reflexivity|]. split; [reflexivity|].
  apply (get_time_series_nan_cell _ _ _ _ _ Examples.gap_table
           [VNaN; VStr "Thailand"; VFloat 15; VFloat 101; VInt 2; VNaN] "1/23/20");
    [discriminate | reflexivity | cbn; tauto | reflexivity | reflexivity].
Defined.

Lemma get_time_series_global_of_integers_witness :
  constructed Examples.api Examples.store
  /\ df_time_series Examples.api <> []
  /\ NoDup (dict_keys (df_time_series Examples.api))
  /\ NoDup ["1/22/20"; "1/23/20"]
  /\ Forall (fun kt => drop 4 (columns (snd kt)) = ["1/22/20"; "1/23/20"]
                       /\ int32_table (snd kt))
            (df_time_series Examples.api)
  /\ fst (get_time_series Instances.decimal_int Instances.decimal_float
            Examples.api "global" Examples.store)
     = inr (scheme Examples.api)
  /\ returned data (get_time_series Instances.decimal_int Instances.decimal_float
                      Examples.api "global" Examples.store)
     = Some (VList
               (map (fun jd =>
                       VDict [(snd jd,
                               VDict (map (fun kt =>
                                             (fst kt,
                                              VInt (total (column_of_ints (snd kt)
                                                             (4 + fst jd)))))
                                          (df_time_series Examples.api)))])
                    (combine (seq 0 (length ["1/22/20"; "1/23/20"]))
                             ["1/22/20"; "1/23/20"]))).
Proof.
  assert (Hkinds : NoDup (dict_keys (df_time_series Examples.api))).
  { apply (bool_decide_unpack _). vm_compute. exact I. }
  assert (Hdates : NoDup ["1/22/20"; "1/23/20"]).
  { apply (bool_decide_unpack _). vm_compute. exact I. }
  assert (Htables : Forall (fun kt => drop 4 (columns (snd kt)) = ["1/22/20"; "1/23/20"]
                                      /\ int32_table (snd kt))
                           (df_time_series Examples.api)).
  { repeat (constructor;
            [split; [reflexivity|];
             repeat (constructor;
                     [split; [reflexivity|];
                      repeat (constructor; [eexists; split; reflexivity|]);
                      constructor|]);
             constructor|]).
    constructor. }
  split; [exists VNone; reflexivity|]. split; [discriminate|].
  split; [exact Hkinds|]. split; [exact Hdates|]. split; [exact Htables|].
  apply get_time_series_global_of_integers;
    [exists VNone; reflexivity | discriminate | exact Hkinds | exact Hdates
    | exact Htables].
Defined.

Lemma init_ignores_row_order_witness :
  Permutation Examples.daily_reports (rev Examples.daily_reports)
  /\ match init Instances.utc_timestamp Examples.daily_reports Examples.time_series
                Examples.US_time_series Examples.lookup ∅,
           init Instances.utc_timestamp (rev Examples.daily_reports)
                Examples.time_series Examples.US_time_series Examples.lookup ∅
     with
     | (inr a, h1), (inr b, h1') =>
         scheme a = scheme b /\ h1 = h1'
         /\ df_grp_by_country a = df_grp_by_country b
         /\ datetime a = datetime b /\ timestamp a = timestamp b
     | (inl e, h1), (inl e', h1') => e = e' /\ h1 = h1'
     | _, _ => False
     end.
Proof.
  split; [apply Permutation_rev|].
  apply init_ignores_row_order, Permutation_rev.
Defined.
